(** * Procure-to-pay backend

    A shallow embedding of the procurement application: the data model
    ([procurement/models.py]), the permission policies
    ([procurement/permissions.py]), the serializers
    ([procurement/serializers.py]), the purchase-request views
    ([procurement/views.py]) and the comparison stage of receipt
    validation ([procurement/document_processing.py]).

    The relational store is an explicit value threaded through every
    operation.  Python floats are IEEE binary64 numbers ([spec_float] with
    53 bits of precision); [Decimal] values are coefficient/exponent pairs. *)

From Stdlib Require Import ZArith Lia Bool String Ascii Sorted Floats.SpecFloat.
From stdpp Require Import base option list gmap strings.

Set Warnings "-register-all".

(** ** Python values *)

Module Python.

(** *** [decimal.Decimal]: the number [coef * 10 ^ exp] *)

Record Decimal := { coef : Z; exp : Z }.

#[export] Instance Decimal_eq_dec : EqDecision Decimal.
Proof. solve_decision. Defined.

(** [Decimal(str(n))] for an [int] *)
Definition Decimal_of_int (n : Z) : Decimal := {| coef := n; exp := 0 |}.

(** The default arithmetic context keeps 28 significant digits. *)
Definition context_prec : Z := 28.

Fixpoint ndigits_fuel (fuel : nat) (n : Z) : Z :=
  match fuel with
  | O => 0
  | S fuel' => if (n <? 10)%Z then 1 else (1 + ndigits_fuel fuel' (n / 10))%Z
  end.

(** Number of decimal digits of the coefficient ([0] has one digit). *)
Definition ndigits (c : Z) : Z :=
  ndigits_fuel (S (Z.to_nat (Z.log2 (Z.abs c)))) (Z.abs c).

(** [n / d] rounded to the nearest integer, ties to even ([ROUND_HALF_EVEN]). *)
Definition round_half_even (n d : Z) : Z :=
  let q := (n / d)%Z in
  match (2 * (n mod d) ?= d)%Z with
  | Lt => q
  | Gt => (q + 1)%Z
  | Eq => if Z.even q then q else (q + 1)%Z
  end.

(** Rounding of a result to the context precision. *)
Definition _fix (d : Decimal) : Decimal :=
  let n := ndigits (coef d) in
  if (n <=? context_prec)%Z then d
  else
    let k := (n - context_prec)%Z in
    let m := round_half_even (Z.abs (coef d)) (10 ^ k) in
    let '(m, k) := if (m =? 10 ^ context_prec)%Z then ((m / 10)%Z, (k + 1)%Z) else (m, k) in
    {| coef := Z.sgn (coef d) * m; exp := exp d + k |}.

(** [a * b] on [Decimal]: exact product, then rounded to the context. *)
Definition Decimal_mul (a b : Decimal) : Decimal :=
  _fix {| coef := coef a * coef b; exp := exp a + exp b |}.

(** *** [float]: IEEE binary64 *)

Abbreviation float := spec_float.

Definition float_prec : Z := 53.
Definition float_emax : Z := 1024.

Definition float_sub : float -> float -> float := SFsub float_prec float_emax.
Definition float_div : float -> float -> float := SFdiv float_prec float_emax.
Definition float_abs : float -> float := SFabs.
(** [a > b] *)
Definition float_gt (a b : float) : bool := SFltb b a.
Definition float_is_finite (f : float) : bool :=
  match f with
  | S754_zero _ | S754_finite _ _ _ => true
  | _ => false
  end.

(** [float(n)] for an [int]: correctly rounded; [None] stands for the
    [OverflowError] raised beyond the largest float. *)
Definition float_of_int (n : Z) : option float :=
  let f := binary_normalize float_prec float_emax n 0 false in
  if float_is_finite f then Some f else None.

(** [int(f)]: truncation towards zero; infinities and NaN raise. *)
Definition int_of_float (f : float) : option Z :=
  match f with
  | S754_zero _ => Some 0%Z
  | S754_finite s m e =>
      let a := if (0 <=? e)%Z then (Z.pos m * 2 ^ e)%Z else (Z.pos m / 2 ^ (- e))%Z in
      Some (if s then (- a)%Z else a)
  | _ => None
  end.

(** [float(d)] for a [Decimal]: the quotient of two exactly representable
    integers, rounded once, which is the correctly rounded conversion as
    long as the coefficient stays below [2^53] and the exponent is at
    least [-22]. *)
Definition float_of_Decimal (d : Decimal) : option float :=
  if (0 <=? exp d)%Z then float_of_int (coef d * 10 ^ exp d)
  else
    match float_of_int (coef d), float_of_int (10 ^ (- exp d)) with
    | Some c, Some p => Some (float_div c p)
    | _, _ => None
    end.

(** *** Values produced by [json.loads] *)

Inductive json :=
  | JNull
  | JBool (b : bool)
  | JInt (n : Z)
  | JFloat (f : float)
  | JStr (s : string)
  | JList (l : list json)
  | JDict (d : list (string * json)).

(** [d.get(key, default)] on a dict given by its key/value pairs; the
    last binding of a key is the one a Python dict keeps. *)
Fixpoint dict_lookup (key : string) (d : list (string * json)) : option json :=
  match d with
  | [] => None
  | (k, v) :: d' =>
      match dict_lookup key d' with
      | Some v' => Some v'
      | None => if String.eqb k key then Some v else None
      end
  end.

Definition dict_get (d : list (string * json)) (key : string) (default : json) : json :=
  match dict_lookup key d with
  | Some v => v
  | None => default
  end.

(** *** Exceptions *)

Inductive exn :=
  | DoesNotExist
  | ValidationError (detail : list (string * string))
  | JSONDecodeError
  | TypeError
  | ValueError
  | AttributeError
  | OverflowError
  | InvalidOperation
  | DatabaseError.

(** The outcome of a call: a value, or an exception on its way up. *)
Inductive result (A : Type) :=
  | Return (a : A)
  | Raise (e : exn).
Arguments Return {A} a.
Arguments Raise {A} e.

#[export] Instance result_ret : MRet result := fun A a => Return a.

#[export] Instance result_bind : MBind result := fun A B k r =>
  match r with
  | Return a => k a
  | Raise e => Raise e
  end.

(** [try: body except Exception: handler] *)
Definition try_except {A} (body : result A) (handler : exn -> result A) : result A :=
  match body with
  | Return a => Return a
  | Raise e => handler e
  end.

Definition of_option {A} (o : option A) (e : exn) : result A :=
  match o with
  | Some a => Return a
  | None => Raise e
  end.

(** *** Strings

    A [string] holds the UTF-8 bytes of a Python [str]: an ASCII
    character is one byte below 128, every other character is a
    sequence of bytes from 128 on.  Splitting at a dot, comparing and
    searching for a substring read the same on the bytes as on the
    characters. *)

(** The string has ASCII characters only. *)
Fixpoint is_ascii (s : string) : bool :=
  match s with
  | EmptyString => true
  | String c s' => (nat_of_ascii c <? 128)%nat && is_ascii s'
  end.

(** [len(s)]: the bytes that start a character. *)
Fixpoint len (s : string) : nat :=
  match s with
  | EmptyString => 0
  | String c s' =>
      let n := nat_of_ascii c in
      if (128 <=? n)%nat && (n <? 192)%nat then len s' else S (len s')
  end.

Definition lower_ascii (c : ascii) : ascii :=
  let n := nat_of_ascii c in
  if (65 <=? n)%nat && (n <=? 90)%nat then ascii_of_nat (n + 32) else c.

(** [s.lower()] for a string of ASCII characters: the letters A to Z. *)
Fixpoint ascii_lower (s : string) : string :=
  match s with
  | EmptyString => EmptyString
  | String c s' => String (lower_ascii c) (ascii_lower s')
  end.

(** [s.split('.')[-1]]: what follows the last dot, the whole string when
    it has none.  [acc] collects the piece being read. *)
Fixpoint last_piece (acc : string) (s : string) : string :=
  match s with
  | EmptyString => acc
  | String c s' =>
      if Ascii.eqb c "."%char then last_piece EmptyString s'
      else last_piece (acc +:+ String c EmptyString) s'
  end.

Definition split_dot_last (s : string) : string := last_piece EmptyString s.

(** The characters [str.strip()] removes, among the ASCII ones. *)
Definition is_space (c : ascii) : bool :=
  let n := nat_of_ascii c in
  ((9 <=? n)%nat && (n <=? 13)%nat) || ((28 <=? n)%nat && (n <=? 32)%nat).

Fixpoint lstrip (s : string) : string :=
  match s with
  | EmptyString => EmptyString
  | String c s' => if is_space c then lstrip s' else s
  end.

Fixpoint rstrip (s : string) : string :=
  match s with
  | EmptyString => EmptyString
  | String c s' =>
      match rstrip s' with
      | EmptyString => if is_space c then EmptyString else String c EmptyString
      | t => String c t
      end
  end.

(** [s.strip()] for a string of ASCII characters. *)
Definition ascii_strip (s : string) : string := rstrip (lstrip s).

(** [a in b] on strings *)
Fixpoint is_substring (a b : string) : bool :=
  String.prefix a b ||
  match b with
  | EmptyString => false
  | String _ b' => is_substring a b'
  end.

(** *** Built-in conversions

    The parsers and printers of the interpreter are taken as an
    interface: [json.loads], [str] of a value that is not a string,
    [int] and [float] of a string, [Decimal(str(f))] of a float
    ([None] for the values no numeric column can hold), and
    [str.lower] and [str.strip] of a string that has a character
    outside ASCII, where they follow the Unicode tables. *)

Class Builtins := {
  json_loads : string -> result json;
  repr : json -> string;
  int_of_str : string -> result Z;
  float_of_str : string -> result float;
  Decimal_of_float : float -> option Decimal;
  unicode_lower : string -> string;
  unicode_strip : string -> string }.

Section Conversions.
Context `{Builtins}.

(** [s.lower()] *)
Definition lower (s : string) : string :=
  if is_ascii s then ascii_lower s else unicode_lower s.

(** [s.strip()] *)
Definition strip (s : string) : string :=
  if is_ascii s then ascii_strip s else unicode_strip s.

(** [str(v)] *)
Definition py_str (v : json) : string :=
  match v with
  | JStr s => s
  | _ => repr v
  end.

(** [int(v)] *)
Definition py_int (v : json) : result Z :=
  match v with
  | JInt n => Return n
  | JBool b => Return (if b then 1 else 0)%Z
  | JFloat f => of_option (int_of_float f) OverflowError
  | JStr s => int_of_str s
  | JNull | JList _ | JDict _ => Raise TypeError
  end.

(** [float(v)] *)
Definition py_float (v : json) : result float :=
  match v with
  | JInt n => of_option (float_of_int n) OverflowError
  | JBool b => of_option (float_of_int (if b then 1 else 0)) OverflowError
  | JFloat f => Return f
  | JStr s => float_of_str s
  | JNull | JList _ | JDict _ => Raise TypeError
  end.

End Conversions.

End Python.

(** ** [procurement/models.py] *)

Module Models.
Import Python.

(** Primary keys ([UUIDField], and the integer key of [RequestItem]) and
    user keys are numbers; fresh keys come from a counter of the store. *)
Abbreviation uuid := N.

(** [PurchaseRequest.STATUS_CHOICES] *)
Inductive Status := Pending | Approved | Rejected.

#[export] Instance Status_eq_dec : EqDecision Status.
Proof. solve_decision. Defined.

Definition status_value (s : Status) : string :=
  match s with
  | Pending => "pending"
  | Approved => "approved"
  | Rejected => "rejected"
  end.

(** [Approval.ACTION_CHOICES] *)
Inductive Action := ActApproved | ActRejected.

#[export] Instance Action_eq_dec : EqDecision Action.
Proof. solve_decision. Defined.

(** [UserProfile]: the role is a free string column. *)
Record UserProfile := { role : string }.

(** A user as the views see it; [profile = None] is the case where
    [user.profile] raises [UserProfile.DoesNotExist]. *)
Record User := {
  user_pk : N;
  is_authenticated : bool;
  is_superuser : bool;
  profile : option UserProfile }.

Record RequestType := { rt_name : string; is_active : bool }.

Record ApprovalLevel := {
  level_pk : uuid;
  level_request_type : uuid;
  level_number : N;
  approver_role : string;
  is_required : bool }.

Record PurchaseRequest := {
  title : string;
  amount : Decimal;
  status : Status;
  request_type : uuid;
  created_by : N;
  approved_by : option N;
  proforma : option string;
  receipt : option string;
  proforma_extracted_data : option json }.

Record RequestItem := {
  item_pk : option N;
  item_purchase_request : uuid;
  description : string;
  quantity : Z;
  unit_price : Decimal;
  total_price : Decimal }.

Record Approval := {
  approval_pk : uuid;
  purchase_request_id : uuid;
  approver : N;
  approval_level : uuid;
  action : Action;
  comments : option string;
  approved_at : option N;
  rejected_at : option N;
  approval_created_by : option N }.

(** Background jobs handed to the task queue with [.delay]. *)
Inductive Task :=
  | process_proforma (request_id : uuid)
  | generate_purchase_order_task (request_id : uuid)
  | validate_receipt_task (request_id : uuid).

#[export] Instance Task_eq_dec : EqDecision Task.
Proof. solve_decision. Defined.

(** [settings.DATABASES]: PostgreSQL unless the environment says
    otherwise, SQLite under test. *)
Inductive Engine := PostgreSQL | SQLite.

(** The relational store, with the engine that keeps it, together with
    the task queue. *)
Record Store := {
  engine : Engine;
  request_types : gmap N RequestType;
  approval_levels : list ApprovalLevel;
  purchase_requests : gmap N PurchaseRequest;
  request_items : list RequestItem;
  approvals : list Approval;
  next_pk : N;
  task_queue : list Task }.

Definition set_purchase_requests (m : gmap N PurchaseRequest) (db : Store) : Store :=
  {| engine := engine db;
     request_types := request_types db; approval_levels := approval_levels db;
     purchase_requests := m; request_items := request_items db;
     approvals := approvals db; next_pk := next_pk db; task_queue := task_queue db |}.

Definition set_request_items (l : list RequestItem) (db : Store) : Store :=
  {| engine := engine db;
     request_types := request_types db; approval_levels := approval_levels db;
     purchase_requests := purchase_requests db; request_items := l;
     approvals := approvals db; next_pk := next_pk db; task_queue := task_queue db |}.

Definition set_approvals (l : list Approval) (db : Store) : Store :=
  {| engine := engine db;
     request_types := request_types db; approval_levels := approval_levels db;
     purchase_requests := purchase_requests db; request_items := request_items db;
     approvals := l; next_pk := next_pk db; task_queue := task_queue db |}.

Definition set_next_pk (n : N) (db : Store) : Store :=
  {| engine := engine db;
     request_types := request_types db; approval_levels := approval_levels db;
     purchase_requests := purchase_requests db; request_items := request_items db;
     approvals := approvals db; next_pk := n; task_queue := task_queue db |}.

(** [task.delay(...)] *)
Definition delay (t : Task) (db : Store) : Store :=
  {| engine := engine db;
     request_types := request_types db; approval_levels := approval_levels db;
     purchase_requests := purchase_requests db; request_items := request_items db;
     approvals := approvals db; next_pk := next_pk db; task_queue := task_queue db ++ [t] |}.

Definition set_status (s : Status) (r : PurchaseRequest) : PurchaseRequest :=
  {| title := title r; amount := amount r; status := s; request_type := request_type r;
     created_by := created_by r; approved_by := approved_by r;
     proforma := proforma r; receipt := receipt r;
     proforma_extracted_data := proforma_extracted_data r |}.

Definition set_approved_by (u : option N) (r : PurchaseRequest) : PurchaseRequest :=
  {| title := title r; amount := amount r; status := status r; request_type := request_type r;
     created_by := created_by r; approved_by := u;
     proforma := proforma r; receipt := receipt r;
     proforma_extracted_data := proforma_extracted_data r |}.

Definition set_request_type (t : uuid) (r : PurchaseRequest) : PurchaseRequest :=
  {| title := title r; amount := amount r; status := status r; request_type := t;
     created_by := created_by r; approved_by := approved_by r;
     proforma := proforma r; receipt := receipt r;
     proforma_extracted_data := proforma_extracted_data r |}.

Definition set_proforma_extracted_data (v : option json) (r : PurchaseRequest)
    : PurchaseRequest :=
  {| title := title r; amount := amount r; status := status r; request_type := request_type r;
     created_by := created_by r; approved_by := approved_by r;
     proforma := proforma r; receipt := receipt r; proforma_extracted_data := v |}.

(** *** [PurchaseRequest] properties *)

Definition can_be_edited (self : PurchaseRequest) : bool :=
  bool_decide (status self = Pending).

Definition is_final_status (self : PurchaseRequest) : bool :=
  bool_decide (status self = Approved) || bool_decide (status self = Rejected).

(** *** [RequestItem.save] *)

Definition set_total_price (t : Decimal) (i : RequestItem) : RequestItem :=
  {| item_pk := item_pk i; item_purchase_request := item_purchase_request i;
     description := description i; quantity := quantity i;
     unit_price := unit_price i; total_price := t |}.

Definition set_item_pk (k : option N) (i : RequestItem) : RequestItem :=
  {| item_pk := k; item_purchase_request := item_purchase_request i;
     description := description i; quantity := quantity i;
     unit_price := unit_price i; total_price := total_price i |}.

(** *** The columns of [RequestItem]

    [save] hands the field values of the instance to the database,
    which keeps them as the declared columns allow. *)

(** [n / d] rounded to the nearest integer, ties away from zero, for
    [0 <= n] and [0 < d]. *)
Definition round_half_up (n d : Z) : Z := ((2 * n + d) / (2 * d))%Z.

(** The hundredths that a column with [decimal_places=2] holds for a
    value.  For SQLite the value is quantised by Django with the
    rounding of the decimal context, ties to even; PostgreSQL is handed
    the value and rounds it to the scale of the column, ties away from
    zero. *)
Definition hundredths (e : Engine) (d : Decimal) : Z :=
  let k := (exp d + 2)%Z in
  if (0 <=? k)%Z then (coef d * 10 ^ k)%Z
  else
    let m :=
      match e with
      | SQLite => round_half_even (Z.abs (coef d)) (10 ^ (- k))
      | PostgreSQL => round_half_up (Z.abs (coef d)) (10 ^ (- k))
      end in
    (Z.sgn (coef d) * m)%Z.

(** [DecimalField(max_digits=10, decimal_places=2)]: the value as the
    column holds it.  A value that needs more than ten digits is
    refused, by [quantize] for SQLite and by the column for
    PostgreSQL. *)
Definition DecimalField_column (e : Engine) (d : Decimal) : result Decimal :=
  let c := hundredths e d in
  if (Z.abs c <? 10 ^ 10)%Z then Return {| coef := c; exp := -2 |}
  else Raise (match e with SQLite => InvalidOperation | PostgreSQL => DatabaseError end).

(** [PositiveIntegerField]: the check [>= 0] of the column, and the
    range of an [integer] of the engine. *)
Definition PositiveIntegerField_column (e : Engine) (n : Z) : result Z :=
  match e with
  | PostgreSQL =>
      if (0 <=? n)%Z && (n <=? 2147483647)%Z then Return n else Raise DatabaseError
  | SQLite =>
      if (9223372036854775807 <? Z.abs n)%Z then Raise OverflowError
      else if (0 <=? n)%Z then Return n else Raise DatabaseError
  end.

(** The string has a NUL character. *)
Fixpoint has_nul (s : string) : bool :=
  match s with
  | EmptyString => false
  | String c s' => (nat_of_ascii c =? 0)%nat || has_nul s'
  end.

(** [CharField(max_length=200)]: PostgreSQL takes no NUL character and
    no text longer than the column, SQLite keeps the text as it is. *)
Definition CharField_column (e : Engine) (max_length : nat) (s : string) : result string :=
  match e with
  | PostgreSQL =>
      if has_nul s then Raise ValueError
      else if (len s <=? max_length)%nat then Return s else Raise DatabaseError
  | SQLite => Return s
  end.

(** The row that the table holds for an instance, or the exception that
    the statement ends with.  For SQLite the decimals are quantised
    before the statement runs. *)
Definition to_columns (e : Engine) (self : RequestItem) : result RequestItem :=
  match e with
  | SQLite =>
      unit_price ← DecimalField_column e (unit_price self);
      total_price ← DecimalField_column e (total_price self);
      quantity ← PositiveIntegerField_column e (quantity self);
      Return {| item_pk := item_pk self; item_purchase_request := item_purchase_request self;
                description := description self; quantity := quantity;
                unit_price := unit_price; total_price := total_price |}
  | PostgreSQL =>
      description ← CharField_column e 200 (description self);
      quantity ← PositiveIntegerField_column e (quantity self);
      unit_price ← DecimalField_column e (unit_price self);
      total_price ← DecimalField_column e (total_price self);
      Return {| item_pk := item_pk self; item_purchase_request := item_purchase_request self;
                description := description; quantity := quantity;
                unit_price := unit_price; total_price := total_price |}
  end.

(** [super().save()]: an instance without a key is inserted under a fresh
    one, an instance with a key replaces the row that has it (and is
    inserted when no row has it).  The table holds the field values of
    the instance as columns; the instance keeps its own. *)
Definition Model_save_item (db : Store) (self : RequestItem) : result (Store * RequestItem) :=
  match item_pk self with
  | None =>
      let self := set_item_pk (Some (next_pk db)) self in
      row ← to_columns (engine db) self;
      Return (set_next_pk (N.succ (next_pk db))
                (set_request_items (request_items db ++ [row]) db), self)
  | Some k =>
      row ← to_columns (engine db) self;
      if bool_decide (Exists (fun r => item_pk r = Some k) (request_items db))
      then Return (set_request_items
                     (map (fun r => if bool_decide (item_pk r = Some k) then row else r)
                          (request_items db)) db, self)
      else Return (set_request_items (request_items db ++ [row]) db, self)
  end.

(** [RequestItem.save]: "Auto-calculate total_price".  The field
    [unit_price] stands for [Decimal(str(self.unit_price))]. *)
Definition RequestItem_save (db : Store) (self : RequestItem) : result (Store * RequestItem) :=
  let quantity := Decimal_of_int (quantity self) in
  let unit_price := unit_price self in
  let self := set_total_price (Decimal_mul quantity unit_price) self in
  Model_save_item db self.

(** [RequestItem.objects.create(purchase_request=..., description=...,
    quantity=..., unit_price=...)] *)
Definition RequestItem_objects_create (db : Store) (purchase_request : uuid)
    (description : string) (quantity : Z) (unit_price : Decimal)
    : result (Store * RequestItem) :=
  RequestItem_save db
    {| item_pk := None; item_purchase_request := purchase_request;
       description := description; quantity := quantity;
       unit_price := unit_price; total_price := {| coef := 0; exp := 0 |} |}.

(** The row of the table with a given key. *)
Definition get_item (db : Store) (k : N) : option RequestItem :=
  head (filter (fun r => item_pk r = Some k) (request_items db)).

(** Values that the declared columns hold as they are, whatever the
    engine: [PositiveIntegerField] and
    [DecimalField(max_digits=10, decimal_places=2)]. *)
Definition valid_quantity (q : Z) : Prop := (0 <= q <= 2147483647)%Z.
Definition valid_money (d : Decimal) : Prop :=
  (-2 <= exp d <= 0)%Z /\ (Z.abs (coef d) * 10 ^ (exp d + 2) < 10 ^ 10)%Z.

(** The value [q * u] of a quantity and a price, with the exponent of
    the price. *)
Definition exact_product (q : Z) (u : Decimal) : Decimal :=
  {| coef := q * coef u; exp := exp u |}.

(** *** The [post_save] receiver of [Approval] *)

(** A [uuid.UUID] object is truthy whatever its value. *)
Definition uuid_truthy (u : uuid) : bool := true.

(** [PurchaseRequest.objects.filter(pk=pk).update(status=s)] *)
Definition update_status (pk : uuid) (s : Status) (db : Store) : Store :=
  set_purchase_requests (alter (set_status s) pk (purchase_requests db)) db.

Definition update_purchase_request_status_on_rejection
    (db : Store) (instance : Approval) (created : bool) : Store :=
  if created && bool_decide (action instance = ActRejected)
     && uuid_truthy (purchase_request_id instance)
  then update_status (purchase_request_id instance) Rejected db
  else db.

Definition set_approval_pk (k : uuid) (a : Approval) : Approval :=
  {| approval_pk := k; purchase_request_id := purchase_request_id a; approver := approver a;
     approval_level := approval_level a; action := action a; comments := comments a;
     approved_at := approved_at a; rejected_at := rejected_at a;
     approval_created_by := approval_created_by a |}.

(** [Approval.save]: writes the row, then [post_save] runs the receiver
    with [created] telling whether the instance was new ([adding]). *)
Definition Approval_save (db : Store) (self : Approval) (adding : bool) : Store :=
  let rows :=
    if adding then self :: approvals db
    else map (fun a => if bool_decide (approval_pk a = approval_pk self) then self else a)
             (approvals db) in
  let created := adding in
  update_purchase_request_status_on_rejection (set_approvals rows db) self created.

(** [Approval.objects.create(...)]: a new instance under a fresh key,
    then [save].  The table is ordered newest first. *)
Definition Approval_objects_create (db : Store) (fields : Approval) : Store * Approval :=
  let self := set_approval_pk (next_pk db) fields in
  (Approval_save (set_next_pk (N.succ (next_pk db)) db) self true, self).

End Models.

(** ** [procurement/permissions.py] *)

Module Permissions.
Import Python Models.

(** [request.user.profile]: the reverse one-to-one accessor raises
    [UserProfile.DoesNotExist] when the user has no profile row. *)
Definition get_profile (u : User) : result UserProfile :=
  of_option (profile u) DoesNotExist.

(** [except UserProfile.DoesNotExist: return False] *)
Definition except_DoesNotExist (body : result bool) : result bool :=
  try_except body (fun e =>
    match e with
    | DoesNotExist => Return false
    | _ => Raise e
    end).

(** In each policy [request_user = None] is the case where
    [request.user] is falsy; an anonymous user is a user that is not
    authenticated. *)

(** [IsStaff.has_permission] *)
Definition IsStaff_has_permission (request_user : option User) : result bool :=
  match request_user with
  | None => Return false
  | Some u =>
      if negb (is_authenticated u) then Return false
      else if is_superuser u then Return true
      else except_DoesNotExist
             (profile ← get_profile u; Return (String.eqb (role profile) "staff"))
  end.

(** [IsApproverLevel1.has_permission] *)
Definition IsApproverLevel1_has_permission (request_user : option User) : result bool :=
  match request_user with
  | None => Return false
  | Some u =>
      if negb (is_authenticated u) then Return false
      else except_DoesNotExist
             (profile ← get_profile u; Return (String.eqb (role profile) "approver_level_1"))
  end.

(** [IsApproverLevel2.has_permission] *)
Definition IsApproverLevel2_has_permission (request_user : option User) : result bool :=
  match request_user with
  | None => Return false
  | Some u =>
      if negb (is_authenticated u) then Return false
      else except_DoesNotExist
             (profile ← get_profile u; Return (String.eqb (role profile) "approver_level_2"))
  end.

(** [IsApprover.has_permission] *)
Definition IsApprover_has_permission (request_user : option User) : result bool :=
  match request_user with
  | None => Return false
  | Some u =>
      if negb (is_authenticated u) then Return false
      else if is_superuser u then Return true
      else except_DoesNotExist
             (profile ← get_profile u;
              Return (bool_decide (role profile ∈ ["approver_level_1"; "approver_level_2"])))
  end.

(** The caller is authenticated and has a profile with exactly that role. *)
Definition has_role (request_user : option User) (r : string) : Prop :=
  exists u p, request_user = Some u /\ is_authenticated u = true
              /\ profile u = Some p /\ role p = r.

End Permissions.

(** ** [procurement/serializers.py] *)

Module Serializers.
Import Python Models.

(** An uploaded file, as far as validation looks at it, and the name
    under which the storage saves it below the directory of its field
    (the upload name made valid and, where that name is taken, changed
    into one that is available). *)
Record UploadedFile := { name : string; size : Z; saved_as : string }.

(** [settings.MAX_UPLOAD_SIZE] and [settings.ALLOWED_FILE_TYPES]; both
    are read from the environment, with the defaults below. *)
Record Settings := { MAX_UPLOAD_SIZE : Z; ALLOWED_FILE_TYPES : list string }.

Definition default_settings : Settings :=
  {| MAX_UPLOAD_SIZE := 10485760; ALLOWED_FILE_TYPES := ["pdf"; "jpg"; "jpeg"; "png"] |}.

(** Truth value of the [proforma] field value: [None] is falsy, a file
    is truthy when it has a name. *)
Definition file_truthy (value : option UploadedFile) : bool :=
  match value with
  | None => false
  | Some f => negb (String.eqb (name f) "")
  end.

(** What a [FileField(upload_to=...)] column holds once the instance
    is saved with the upload assigned to it: the path of the saved file,
    or the empty name of an upload that, being falsy, is not saved. *)
Definition FieldFile_name (upload_to : string) (f : UploadedFile) : string :=
  if file_truthy (Some f) then upload_to +:+ saved_as f else name f.

(** Message texts, without the values interpolated into them. *)
Definition msg_size : string := "File size exceeds maximum allowed size".
Definition msg_type : string := "File type not allowed".
Definition msg_items_json : string := "Invalid JSON format for items".
Definition msg_not_editable : string := "Cannot edit request that is not in pending status.".
Definition msg_request_type : string := "Request type does not exist or is not active.".

Section WithBuiltins.
Context `{Builtins}.

(** [PurchaseRequestCreateSerializer.validate_proforma] *)
Definition validate_proforma (settings : Settings) (value : option UploadedFile)
    : result (option UploadedFile) :=
  match value with
  | Some f =>
      if file_truthy value then
        if (size f >? MAX_UPLOAD_SIZE settings)%Z then
          Raise (ValidationError [("proforma", msg_size)])
        else
          let file_ext := lower (split_dot_last (name f)) in
          if bool_decide (file_ext ∉ ALLOWED_FILE_TYPES settings) then
            Raise (ValidationError [("proforma", msg_type)])
          else Return value
      else Return value
  | None => Return value
  end.

(** [split_dot_last (name f)] is the extension the validator looks at. *)
Definition extension (f : UploadedFile) : string := split_dot_last (name f).

(** The rows that [RequestItem.objects.create] appends: the row as the
    columns hold it, or none when the database refuses it. *)
Definition new_rows (db : Store) (pk : uuid) (description : string) (q : Z) (d : Decimal)
    : list RequestItem :=
  match to_columns (engine db)
          {| item_pk := Some (next_pk db); item_purchase_request := pk;
             description := description; quantity := q; unit_price := d;
             total_price := Decimal_mul (Decimal_of_int q) d |} with
  | Return row => [row]
  | Raise _ => []
  end.

(** The payload of a request once the generated fields ([title],
    [amount], [request_type_id], [proforma]) have parsed their raw input;
    a [Raise] is the [ValidationError] of that field, [None] an absent
    key.  The [items] entry is still raw: a string in a multipart form,
    any JSON value in a JSON body. *)
Record RequestData := {
  data_title : result string;
  data_amount : result Decimal;
  data_request_type_id : option (result uuid);
  data_proforma : option (result (option UploadedFile));
  data_items : option json }.

Definition set_data_items (v : json) (data : RequestData) : RequestData :=
  {| data_title := data_title data; data_amount := data_amount data;
     data_request_type_id := data_request_type_id data;
     data_proforma := data_proforma data; data_items := Some v |}.

(** [validated_data] *)
Record ValidatedData := {
  v_title : string;
  v_amount : Decimal;
  v_request_type_id : option uuid;
  v_proforma : option (option UploadedFile);
  v_items : option (list json) }.

(** Errors of one field, under its name. *)
Definition field_errors {A} (field : string) (r : result A) : list (string * string) :=
  match r with
  | Return _ => []
  | Raise (ValidationError detail) => map (fun '(_, m) => (field, m)) detail
  | Raise _ => [(field, "error")]
  end.

Definition optional_errors {A} (field : string) (r : option (result A))
    : list (string * string) :=
  match r with
  | None => []
  | Some r => field_errors field r
  end.

Definition value_of {A} (r : result A) : option A :=
  match r with
  | Return a => Some a
  | Raise _ => None
  end.

(** [ItemsField.to_internal_value] *)
Definition ItemsField_to_internal_value (data : json) : result (list json) :=
  match data with
  | JStr s =>
      try_except
        (parsed ← json_loads s;
         Return (match parsed with JList l => l | _ => [] end))
        (fun e =>
           match e with
           | JSONDecodeError => Raise (ValidationError [("items", msg_items_json)])
           | TypeError | ValueError => Return []
           | _ => Raise e
           end)
  | JList l => Return l
  | _ => Return []
  end.

(** The [items] field of both serializers is
    [ItemsField(required=False, allow_null=True)]: an absent key is
    skipped, a null is kept, anything else goes to [to_internal_value]. *)
Definition items_run_validation (value : option json) : result (option (list json)) :=
  match value with
  | None => Return None
  | Some JNull => Return None
  | Some v => l ← ItemsField_to_internal_value v; Return (Some l)
  end.

(** The first step of [to_internal_value] of both serializers: "Parse
    items before validation", for a payload that has the key. *)
Definition parse_items_before_validation (items_value : json) (data : RequestData)
    : RequestData :=
  match ItemsField_to_internal_value items_value with
  | Return parsed_items => set_data_items (JList parsed_items) data
  | Raise _ => set_data_items (JList []) data
  end.

Definition get_active_request_type (db : Store) (value : uuid) : result RequestType :=
  match request_types db !! value with
  | Some t => if is_active t then Return t else Raise DoesNotExist
  | None => Raise DoesNotExist
  end.

(** [PurchaseRequestCreateSerializer.validate_request_type_id] *)
Definition validate_request_type_id (db : Store) (value : uuid) : result uuid :=
  try_except (_ ← get_active_request_type db value; Return value)
    (fun e =>
       match e with
       | DoesNotExist => Raise (ValidationError [("request_type_id", msg_request_type)])
       | _ => Raise e
       end).

(** [super().to_internal_value(data)] of the create serializer: every
    declared field is run, with its [validate_<field>] hook where the
    class has one, and the errors are gathered by field. *)
Definition create_fields_to_internal_value (settings : Settings) (db : Store)
    (data : RequestData) : result ValidatedData :=
  let request_type_id :=
    match data_request_type_id data with
    | None => Raise (ValidationError [("request_type_id", "This field is required.")])
    | Some r => value ← r; validate_request_type_id db value
    end in
  let proforma :=
    match data_proforma data with
    | None => Return None
    | Some r => value ← r; v ← validate_proforma settings value; Return (Some v)
    end in
  let items := items_run_validation (data_items data) in
  let errors :=
    field_errors "title" (data_title data) ++ field_errors "amount" (data_amount data)
    ++ field_errors "request_type_id" request_type_id
    ++ field_errors "proforma" proforma ++ field_errors "items" items in
  match data_title data, data_amount data, request_type_id, proforma, items with
  | Return t, Return a, Return rt, Return p, Return i =>
      Return {| v_title := t; v_amount := a; v_request_type_id := Some rt;
                v_proforma := p; v_items := i |}
  | _, _, _, _, _ => Raise (ValidationError errors)
  end.

(** [PurchaseRequestCreateSerializer.to_internal_value] *)
Definition create_to_internal_value (settings : Settings) (db : Store)
    (data : RequestData) : result ValidatedData :=
  let data :=
    match data_items data with
    | Some items_value => parse_items_before_validation items_value data
    | None => set_data_items (JList []) data
    end in
  create_fields_to_internal_value settings db data.

(** The float handed to [RequestItem.objects.create] becomes
    [Decimal(str(unit_price))] inside [save]. *)
Definition create_request_item (db : Store) (purchase_request : uuid)
    (description : string) (quantity : Z) (unit_price : float) : result Store :=
  d ← of_option (Decimal_of_float unit_price) ValueError;
  created ← RequestItem_objects_create db purchase_request description quantity d;
  Return (fst created).

(** One turn of the loop of [PurchaseRequestCreateSerializer.create];
    [except Exception: continue] leaves the store as it was. *)
Definition create_one_item (purchase_request : uuid) (db : Store) (item_data : json) : Store :=
  let attempt :=
    match item_data with
    | JDict item_data =>
        let description := strip (py_str (dict_get item_data "description" (JStr ""))) in
        quantity ← py_int (dict_get item_data "quantity" (JInt 1));
        unit_price ← py_float (dict_get item_data "unit_price" (JInt 0));
        if negb (String.eqb description "") then
          create_request_item db purchase_request description quantity unit_price
        else Return db
    | _ => Return db
    end in
  match attempt with
  | Return db' => db'
  | Raise _ => db
  end.

(** [PurchaseRequest.objects.create], on the validated fields *)
Definition PurchaseRequest_objects_create (db : Store) (row : PurchaseRequest) : Store * uuid :=
  let pk := next_pk db in
  (set_next_pk (N.succ pk) (set_purchase_requests (<[pk := row]> (purchase_requests db)) db), pk).

(** [PurchaseRequestCreateSerializer.create]; [user] is
    [self.context['request'].user]. *)
Definition create (db : Store) (user : User) (validated_data : ValidatedData)
    : result (Store * uuid) :=
  let items_data := default [] (v_items validated_data) in
  request_type_id ← of_option (v_request_type_id validated_data) DoesNotExist;
  _ ← of_option (request_types db !! request_type_id) DoesNotExist;
  let '(db, purchase_request) :=
    PurchaseRequest_objects_create db
      {| title := v_title validated_data; amount := v_amount validated_data;
         status := Pending; request_type := request_type_id;
         created_by := user_pk user; approved_by := None;
         proforma := FieldFile_name "proformas/" <$> mjoin (v_proforma validated_data);
         receipt := None; proforma_extracted_data := None |} in
  let db :=
    if bool_decide (items_data ≠ []) && (0 <? length items_data)%nat
    then foldl (create_one_item purchase_request) db items_data
    else db in
  Return (db, purchase_request).

(** [PurchaseRequestUpdateSerializer.to_internal_value]: as for
    creation, except that an absent [items] key stays absent. *)
Definition update_fields_to_internal_value (data : RequestData) : result ValidatedData :=
  let request_type_id :=
    match data_request_type_id data with
    | None => Return None
    | Some r => value ← r; Return (Some value)
    end in
  let proforma :=
    match data_proforma data with
    | None => Return None
    | Some r => value ← r; Return (Some value)
    end in
  let items := items_run_validation (data_items data) in
  let errors :=
    field_errors "title" (data_title data) ++ field_errors "amount" (data_amount data)
    ++ field_errors "request_type_id" request_type_id
    ++ field_errors "proforma" proforma ++ field_errors "items" items in
  match data_title data, data_amount data, request_type_id, proforma, items with
  | Return t, Return a, Return rt, Return p, Return i =>
      Return {| v_title := t; v_amount := a; v_request_type_id := rt;
                v_proforma := p; v_items := i |}
  | _, _, _, _, _ => Raise (ValidationError errors)
  end.

Definition update_to_internal_value (data : RequestData) : result ValidatedData :=
  let data :=
    match data_items data with
    | Some items_value => parse_items_before_validation items_value data
    | None => data
    end in
  update_fields_to_internal_value data.

(** [PurchaseRequestUpdateSerializer.validate] *)
Definition validate (instance : option PurchaseRequest) (attrs : ValidatedData)
    : result ValidatedData :=
  match instance with
  | Some self_instance =>
      if negb (can_be_edited self_instance) then
        Raise (ValidationError [("non_field_errors", msg_not_editable)])
      else Return attrs
  | None => Return attrs
  end.

(** [serializer.is_valid()] of the update serializer: the fields, then
    [validate]. *)
Definition update_run_validation (instance : option PurchaseRequest) (data : RequestData)
    : result ValidatedData :=
  attrs ← update_to_internal_value data;
  validate instance attrs.

(** One turn of the loop of [PurchaseRequestUpdateSerializer.update]. *)
Definition update_one_item (instance : uuid) (db : Store) (item_data : json) : Store :=
  let from_dict (item_dict : list (string * json)) : result Store :=
    let description := py_str (dict_get item_dict "description" (JStr "")) in
    quantity ← py_int (dict_get item_dict "quantity" (JInt 1));
    unit_price ← py_float (dict_get item_dict "unit_price" (JInt 0));
    create_request_item db instance description quantity unit_price in
  let attempt :=
    match item_data with
    | JDict item_data => from_dict item_data
    | JStr s =>
        item_dict ← json_loads s;
        match item_dict with
        | JDict item_dict => from_dict item_dict
        | _ => Raise AttributeError
        end
    | _ => Return db
    end in
  match attempt with
  | Return db' => db'
  | Raise _ => db
  end.

(** [instance.items.all().delete()] *)
Definition delete_items (instance : uuid) (db : Store) : Store :=
  set_request_items
    (filter (fun r => item_purchase_request r ≠ instance) (request_items db)) db.

(** [PurchaseRequestUpdateSerializer.update]: [pk] is the key of
    [instance], whose fields are written back by [instance.save()]. *)
Definition update (db : Store) (pk : uuid) (instance : PurchaseRequest)
    (validated_data : ValidatedData) : result Store :=
  let items_data := v_items validated_data in
  let request_type_id := v_request_type_id validated_data in
  instance ←
    match request_type_id with
    | Some request_type_id =>
        try_except
          (_ ← get_active_request_type db request_type_id;
           Return (set_request_type request_type_id instance))
          (fun e =>
             match e with
             | DoesNotExist => Raise (ValidationError [("request_type_id", msg_request_type)])
             | _ => Raise e
             end)
    | None => Return instance
    end;
  let instance :=
    {| title := v_title validated_data; amount := v_amount validated_data;
       status := status instance; request_type := request_type instance;
       created_by := created_by instance; approved_by := approved_by instance;
       proforma := match v_proforma validated_data with
                   | Some f => FieldFile_name "proformas/" <$> f
                   | None => proforma instance
                   end;
       receipt := receipt instance;
       proforma_extracted_data := proforma_extracted_data instance |} in
  let db := set_purchase_requests (<[pk := instance]> (purchase_requests db)) db in
  match items_data with
  | Some items_data => Return (foldl (update_one_item pk) (delete_items pk db) items_data)
  | None => Return db
  end.

End WithBuiltins.

End Serializers.

(** ** [procurement/views.py]: [PurchaseRequestViewSet] *)

Module Views.
Import Python Models Serializers.

Inductive Body :=
  | ErrorBody (error : string)
  | ValidationBody (detail : list (string * string))
  | DetailBody (pk : uuid) (purchase_request : PurchaseRequest)
  | NoBody.

Record Response := { body : Body; status_code : Z }.

Definition HTTP_200_OK : Z := 200.
Definition HTTP_400_BAD_REQUEST : Z := 400.
Definition HTTP_401_UNAUTHORIZED : Z := 401.
Definition HTTP_403_FORBIDDEN : Z := 403.
Definition HTTP_404_NOT_FOUND : Z := 404.
Definition HTTP_500_INTERNAL_SERVER_ERROR : Z := 500.

(** What the framework answers when a handler lets an exception out. *)
Definition exception_response (e : exn) : Response :=
  match e with
  | ValidationError detail => {| body := ValidationBody detail; status_code := HTTP_400_BAD_REQUEST |}
  | _ => {| body := NoBody; status_code := HTTP_500_INTERNAL_SERVER_ERROR |}
  end.

(** An incoming request: the caller ([request.user]) and the [status]
    query parameter. *)
Record Request := { user : User; query_status : option string }.

(** [get_queryset]: membership of a row in the queryset of the caller. *)
Definition in_queryset (request : Request) (r : PurchaseRequest) : bool :=
  let user := user request in
  let status_filter (r : PurchaseRequest) :=
    match query_status request with
    | Some s => if String.eqb s "" then true else String.eqb (status_value (status r)) s
    | None => true
    end in
  if negb (is_authenticated user) then false
  else if is_superuser user then status_filter r
  else
    match profile user with
    | Some profile =>
        (if String.eqb (role profile) "staff"
         then bool_decide (created_by r = user_pk user) else true)
        && status_filter r
    | None => false
    end.

(** [self.get_object()]: the row with that key if the queryset has it,
    otherwise the 404 answer. *)
Definition get_object (db : Store) (request : Request) (pk : uuid) : option PurchaseRequest :=
  match purchase_requests db !! pk with
  | Some r => if in_queryset request r then Some r else None
  | None => None
  end.

Definition not_found : Response := {| body := NoBody; status_code := HTTP_404_NOT_FOUND |}.

Definition error (msg : string) (code : Z) : Response :=
  {| body := ErrorBody msg; status_code := code |}.

(** [permission_classes]: the policies are asked in turn before the
    handler runs; a refusal is answered with 401 for a caller who is not
    authenticated and with 403 otherwise. *)
Definition IsAuthenticated_has_permission (request_user : option User) : bool :=
  match request_user with
  | Some u => is_authenticated u
  | None => false
  end.

Definition permission_denied (request : Request) : Response :=
  if is_authenticated (user request)
  then error "You do not have permission to perform this action." HTTP_403_FORBIDDEN
  else error "Authentication credentials were not provided." HTTP_401_UNAUTHORIZED.

Definition granted (verdict : result bool) : bool :=
  match verdict with
  | Return b => b
  | Raise _ => false
  end.

(** [PurchaseRequestDetailSerializer(instance).data], after
    [refresh_from_db]. *)
Definition detail (db : Store) (pk : uuid) (stale : PurchaseRequest) : Body :=
  DetailBody pk (default stale (purchase_requests db !! pk)).

Definition field_file_truthy (f : option string) : bool :=
  match f with
  | Some n => negb (String.eqb n "")
  | None => false
  end.

(** *** Approval levels *)

Fixpoint insert_by_level_number (l : ApprovalLevel) (sorted : list ApprovalLevel)
    : list ApprovalLevel :=
  match sorted with
  | [] => [l]
  | x :: rest =>
      if (level_number l <? level_number x)%N then l :: sorted
      else x :: insert_by_level_number l rest
  end.

(** The order of [.order_by('level_number')] *)
Definition level_le (x y : ApprovalLevel) : Prop := (level_number x <= level_number y)%N.

(** [.order_by('level_number')] *)
Definition order_by_level_number (levels : list ApprovalLevel) : list ApprovalLevel :=
  foldr insert_by_level_number [] levels.

(** [ApprovalLevel.objects.filter(request_type=..., is_required=True)
    .order_by('level_number')] *)
Definition required_levels_of (db : Store) (request_type : uuid) : list ApprovalLevel :=
  order_by_level_number
    (filter (fun l => level_request_type l = request_type /\ is_required l = true)
            (approval_levels db)).

(** The loop that looks for "the approval level that matches user's
    role": the first one in the order of the queryset. *)
Fixpoint find_level_for_role (approval_levels : list ApprovalLevel) (role : string)
    : option ApprovalLevel :=
  match approval_levels with
  | [] => None
  | level :: rest =>
      if String.eqb (approver_role level) role then Some level
      else find_level_for_role rest role
  end.

(** [Approval.objects.filter(purchase_request=..., action='approved')
    .values_list('approval_level', flat=True).distinct().count()] *)
Definition approved_levels_count (db : Store) (pk : uuid) : nat :=
  length (remove_dups
    (map approval_level
       (filter (fun a => purchase_request_id a = pk /\ action a = ActApproved)
               (approvals db)))).

(** Some record of the request [pk] approves at the level [l]. *)
Definition level_approved (db : Store) (pk : uuid) (l : ApprovalLevel) : Prop :=
  exists a, a ∈ approvals db /\ purchase_request_id a = pk
            /\ approval_level a = level_pk l /\ action a = ActApproved.

(** "Every required approval level of the request's type has at least
    one approved-action Approval." *)
Definition every_required_level_approved (db : Store) (pk : uuid) (request_type : uuid)
    : Prop :=
  forall l, l ∈ approval_levels db -> level_request_type l = request_type ->
            is_required l = true -> level_approved db pk l.

(** The [comments] entry of the payload once [ApprovalActionSerializer]
    has parsed it: absent, refused, null or a text. *)
Definition CommentsData := option (result (option string)).

Definition set_timestamps (action : Action) (now : N) (a : Approval) : Approval :=
  {| approval_pk := approval_pk a; purchase_request_id := purchase_request_id a;
     approver := approver a; approval_level := approval_level a; action := Models.action a;
     comments := comments a;
     approved_at := if bool_decide (action = ActApproved) then Some now else approved_at a;
     rejected_at := if bool_decide (action = ActRejected) then Some now else rejected_at a;
     approval_created_by := approval_created_by a |}.

Definition action_name (action : Action) : string :=
  match action with
  | ActApproved => "approved"
  | ActRejected => "rejected"
  end.

(** "Find the approval level that matches user's role"; for a superuser
    ([profile = None]) [approval_levels.last() or approval_levels.first()]. *)
Definition select_approval_level (profile : option UserProfile)
    (approval_levels : list ApprovalLevel) : option ApprovalLevel :=
  match profile with
  | None =>
      match last approval_levels with
      | Some level => Some level
      | None => head approval_levels
      end
  | Some profile => find_level_for_role approval_levels (role profile)
  end.

(** "Create approval record" and "Set timestamps based on action":
    [Approval.objects.create], then [approval.save()] on the record with
    its timestamp. *)
Definition record_decision (db : Store) (user : User) (pk : uuid)
    (user_approval_level : ApprovalLevel) (action : Action) (comments : option string)
    (now : N) : Store :=
  let '(db, approval) :=
    Approval_objects_create db
      {| approval_pk := 0; purchase_request_id := pk; approver := user_pk user;
         approval_level := level_pk user_approval_level; action := action;
         comments := comments; approved_at := None; rejected_at := None;
         approval_created_by := Some (user_pk user) |} in
  let approval := set_timestamps action now approval in
  Approval_save db approval false.

(** The block under [with transaction.atomic()]: the row is read again,
    the decision is recorded and the status of the request follows. *)
Definition approval_transaction (db : Store) (user : User) (pk : uuid)
    (approval_levels : list ApprovalLevel) (user_approval_level : ApprovalLevel)
    (action : Action) (comments : option string) (now : N) : Response * Store :=
  match purchase_requests db !! pk with
  | None => (exception_response DoesNotExist, db)
  | Some purchase_request =>
  if negb (bool_decide (status purchase_request = Pending)) then
    (error ("Request status has changed. Current status: "
            +:+ status_value (status purchase_request)) HTTP_400_BAD_REQUEST, db)
  else
  let db := record_decision db user pk user_approval_level action comments now in
  let db :=
    if bool_decide (action = ActRejected) then
      let purchase_request := set_status Rejected purchase_request in
      set_purchase_requests (<[pk := purchase_request]> (purchase_requests db)) db
    else
      let required_levels := length approval_levels in
      let approved_levels := approved_levels_count db pk in
      if (required_levels <=? approved_levels)%nat then
        let purchase_request :=
          set_approved_by (Some (user_pk user)) (set_status Approved purchase_request) in
        let db := set_purchase_requests (<[pk := purchase_request]> (purchase_requests db)) db in
        delay (generate_purchase_order_task pk) db
      else db in
  ({| body := detail db pk purchase_request; status_code := HTTP_200_OK |}, db)
  end.

(** [_handle_approval_action]; [now] is [timezone.now()]. *)
Definition _handle_approval_action (db : Store) (request : Request) (data : CommentsData)
    (now : N) (pk : uuid) (action : Action) : Response * Store :=
  match get_object db request pk with
  | None => (not_found, db)
  | Some purchase_request =>
  let user := user request in
  match (if is_superuser user then Return None
         else profile ← Permissions.get_profile user; Return (Some profile)) with
  | Raise _ => (error "User profile not found." HTTP_400_BAD_REQUEST, db)
  | Return profile =>
  if negb (bool_decide (status purchase_request = Pending)) then
    (error ("Cannot " +:+ action_name action +:+ " request that is not in pending status.")
           HTTP_400_BAD_REQUEST, db)
  else
  let approval_levels := required_levels_of db (request_type purchase_request) in
  if bool_decide (approval_levels = []) then
    (error "No approval levels configured for this request type." HTTP_400_BAD_REQUEST, db)
  else
  match select_approval_level profile approval_levels with
  | None => (error "User role is not authorized to approve this request type."
                   HTTP_403_FORBIDDEN, db)
  | Some user_approval_level =>
  let existing_approval :=
    head (filter (fun a => purchase_request_id a = pk
                           /\ approval_level a = level_pk user_approval_level
                           /\ approver a = user_pk user) (approvals db)) in
  if bool_decide (is_Some existing_approval) then
    (error "You have already provided approval for this request at this level."
           HTTP_400_BAD_REQUEST, db)
  else
  match (match data with
         | None => Return (Some "")
         | Some r => r
         end) with
  | Raise e => (exception_response e, db)
  | Return comments =>
      approval_transaction db user pk approval_levels user_approval_level action comments now
  end end end end.

(** [permission_classes=[IsAuthenticated, IsApprover]] of the two actions *)
Definition approver_permissions (request : Request) : bool :=
  IsAuthenticated_has_permission (Some (user request))
  && granted (Permissions.IsApprover_has_permission (Some (user request))).

(** The [approve] and [reject] actions. *)
Definition approve (db : Store) (request : Request) (data : CommentsData) (now : N)
    (pk : uuid) : Response * Store :=
  if approver_permissions request
  then _handle_approval_action db request data now pk ActApproved
  else (permission_denied request, db).

Definition reject (db : Store) (request : Request) (data : CommentsData) (now : N)
    (pk : uuid) : Response * Store :=
  if approver_permissions request
  then _handle_approval_action db request data now pk ActRejected
  else (permission_denied request, db).

Section WithBuiltins.
Context `{Builtins}.

(** [PurchaseRequestViewSet.update], behind the [IsAuthenticated] of the
    view set *)
Definition update (db : Store) (request : Request) (data : RequestData) (pk : uuid)
    : Response * Store :=
  if negb (IsAuthenticated_has_permission (Some (user request)))
  then (permission_denied request, db) else
  match get_object db request pk with
  | None => (not_found, db)
  | Some instance =>
  if negb (is_superuser (user request))
     && bool_decide (created_by instance ≠ user_pk (user request)) then
    (error "You can only update your own requests." HTTP_403_FORBIDDEN, db)
  else if negb (is_superuser (user request)) && negb (can_be_edited instance) then
    (error "Cannot update request that is not in pending status." HTTP_400_BAD_REQUEST, db)
  else
  match update_run_validation (Some instance) data with
  | Raise e => (exception_response e, db)
  | Return validated_data =>
  match Serializers.update db pk instance validated_data with
  | Raise e => (exception_response e, db)
  | Return db =>
  let refreshed := default instance (purchase_requests db !! pk) in
  let db :=
    if bool_decide (is_Some (data_proforma data)) && field_file_truthy (proforma refreshed)
    then delay (process_proforma pk) db else db in
  ({| body := DetailBody pk refreshed; status_code := HTTP_200_OK |}, db)
  end end end.

(** [partial_update] hands over to [update]. *)
Definition partial_update (db : Store) (request : Request) (data : RequestData) (pk : uuid)
    : Response * Store :=
  update db request data pk.

End WithBuiltins.

End Views.

(** ** [procurement/document_processing.py]: [validate_receipt] *)

Module DocumentProcessing.
Import Python Models.

(** A discrepancy record; [discrepancy_type] is its ['type'] entry, the
    other arguments are its ['expected'] and ['actual'] entries (and the
    item named in the description). *)
Inductive Discrepancy :=
  | ItemCountMismatch (expected actual : nat)
  | TotalAmountMismatch (expected actual : float)
  | QuantityMismatch (item : string) (expected : Z) (actual : float)
  | UnitPriceMismatch (item : string) (expected : Decimal) (actual : float)
  | ItemNotFound (expected : string)
  | ErrorDiscrepancy.

Definition discrepancy_type (d : Discrepancy) : string :=
  match d with
  | ItemCountMismatch _ _ => "item_count_mismatch"
  | TotalAmountMismatch _ _ => "price_mismatch"
  | QuantityMismatch _ _ _ => "quantity_mismatch"
  | UnitPriceMismatch _ _ _ => "price_mismatch"
  | ItemNotFound _ => "item_mismatch"
  | ErrorDiscrepancy => "error"
  end.

(** The record whose description reads "Total amount mismatch". *)
Definition is_total_level (d : Discrepancy) : bool :=
  match d with
  | TotalAmountMismatch _ _ => true
  | _ => false
  end.

Record ValidationResult := { valid : bool; discrepancies : list Discrepancy }.

(** The literal [0.01]: the binary64 number nearest to one hundredth. *)
Definition tolerance : float := S754_finite false 5764607523034235 (-59).

(** [abs(a - b) > t] *)
Definition differs_by_more_than (a b t : float) : bool :=
  float_gt (float_abs (float_sub a b)) t.

Section WithBuiltins.
Context `{Builtins}.

(** The elements a [for] loop draws from a value, whose number is its
    [len]: the elements of a list, the characters of a string, the keys
    of a dict. *)
Definition py_iter (v : json) : result (list json) :=
  match v with
  | JList l => Return l
  | JStr s => Return (map (fun c => JStr (String c EmptyString)) (list_ascii_of_string s))
  | JDict d => Return (map (fun kv => JStr (fst kv)) d)
  | _ => Raise TypeError
  end.

(** [receipt_item.get(key, default)] *)
Definition item_get (receipt_item : json) (key : string) (default : json) : result json :=
  match receipt_item with
  | JDict d => Return (dict_get d key default)
  | _ => Raise AttributeError
  end.

(** [v.lower()] *)
Definition py_lower (v : json) : result string :=
  match v with
  | JStr s => Return (lower s)
  | _ => Raise AttributeError
  end.

(** The inner loop over the receipt items for one order item: the
    discrepancies of the first receipt item whose description contains
    that of the order item, or [None] when there is none ([found] stays
    false). *)
Fixpoint match_receipt_item (po_item : RequestItem) (receipt_items : list json)
    : result (option (list Discrepancy)) :=
  match receipt_items with
  | [] => Return None
  | receipt_item :: rest =>
      d ← item_get receipt_item "description" (JStr "");
      d ← py_lower d;
      if is_substring (lower (description po_item)) d then
        q ← item_get receipt_item "quantity" (JInt 0);
        receipt_qty ← py_float q;
        p ← item_get receipt_item "unit_price" (JInt 0);
        receipt_price ← py_float p;
        po_qty ← of_option (float_of_int (quantity po_item)) OverflowError;
        po_price ← of_option (float_of_Decimal (unit_price po_item)) OverflowError;
        Return (Some
          ((if differs_by_more_than receipt_qty po_qty tolerance
            then [QuantityMismatch (description po_item) (quantity po_item) receipt_qty]
            else [])
           ++
           (if differs_by_more_than receipt_price po_price tolerance
            then [UnitPriceMismatch (description po_item) (unit_price po_item) receipt_price]
            else [])))
      else match_receipt_item po_item rest
  end.

(** The outer loop over the order items. *)
Fixpoint compare_items (po_items : list RequestItem) (receipt_items : list json)
    : result (list Discrepancy) :=
  match po_items with
  | [] => Return []
  | po_item :: rest =>
      found ← match_receipt_item po_item receipt_items;
      more ← compare_items rest receipt_items;
      Return (match found with
              | Some ds => ds
              | None => [ItemNotFound (description po_item)]
              end ++ more)
  end.

(** The body of the [try] block from "Compare receipt with purchase
    request" on. *)
Definition compare_receipt (receipt_data : json) (po_items : list RequestItem)
    (amount : Decimal) : result (list Discrepancy) :=
  receipt_items ← item_get receipt_data "items" (JList []);
  receipt_items ← py_iter receipt_items;
  let count :=
    if bool_decide (length receipt_items ≠ length po_items)
    then [ItemCountMismatch (length po_items) (length receipt_items)] else [] in
  total ← item_get receipt_data "total" (JInt 0);
  receipt_total ← py_float total;
  po_total ← of_option (float_of_Decimal amount) OverflowError;
  let total :=
    if differs_by_more_than receipt_total po_total tolerance
    then [TotalAmountMismatch po_total receipt_total] else [] in
  items ← compare_items po_items receipt_items;
  Return (count ++ total ++ items).

(** [validate_receipt], given the data extracted from the receipt, the
    items of the request and its amount; [except Exception] answers with
    a single error record. *)
Definition validate_receipt (receipt_data : json) (po_items : list RequestItem)
    (amount : Decimal) : ValidationResult :=
  match compare_receipt receipt_data po_items amount with
  | Return discrepancies =>
      {| valid := bool_decide (length discrepancies = 0%nat); discrepancies := discrepancies |}
  | Raise _ => {| valid := false; discrepancies := [ErrorDiscrepancy] |}
  end.

End WithBuiltins.

End DocumentProcessing.

(** ** [procurement/permissions.py]: the other role policies *)

Module RolePolicies.
Import Python Models Permissions.

(** [IsFinance.has_permission] *)
Definition IsFinance_has_permission (request_user : option User) : result bool :=
  match request_user with
  | None => Return false
  | Some u =>
      if negb (is_authenticated u) then Return false
      else if is_superuser u then Return true
      else except_DoesNotExist
             (profile ← get_profile u; Return (String.eqb (role profile) "finance"))
  end.

(** [IsStaffOrFinance.has_permission] *)
Definition IsStaffOrFinance_has_permission (request_user : option User) : result bool :=
  match request_user with
  | None => Return false
  | Some u =>
      if negb (is_authenticated u) then Return false
      else if is_superuser u then Return true
      else except_DoesNotExist
             (profile ← get_profile u;
              Return (bool_decide (role profile ∈ ["staff"; "finance"])))
  end.

(** [IsAdmin.has_permission] *)
Definition IsAdmin_has_permission (request_user : option User) : result bool :=
  match request_user with
  | None => Return false
  | Some u =>
      if negb (is_authenticated u) then Return false
      else if is_superuser u then Return true
      else except_DoesNotExist
             (profile ← get_profile u; Return (String.eqb (role profile) "admin"))
  end.

(** The seven [has_permission] policies of the module. *)
Definition role_policies : list (option User -> result bool) :=
  [IsStaff_has_permission; IsApproverLevel1_has_permission; IsApproverLevel2_has_permission;
   IsFinance_has_permission; IsApprover_has_permission; IsStaffOrFinance_has_permission;
   IsAdmin_has_permission].

End RolePolicies.

(** ** [procurement/views.py]: the role a caller is reported with *)

Module Accounts.
Import Python Models Permissions.

(** [UserProfile.ROLE_CHOICES] *)
Definition ROLE_CHOICES : list (string * string) :=
  [("staff", "Staff"); ("approver_level_1", "Approver Level 1");
   ("approver_level_2", "Approver Level 2"); ("finance", "Finance")].

(** [profile.get_role_display()]: the label of the role, the role itself
    when the choices do not list it. *)
Definition get_role_display (p : UserProfile) : string :=
  match filter (fun c => fst c = role p) ROLE_CHOICES with
  | c :: _ => snd c
  | [] => role p
  end.

(** The [role] and [role_display] entries of the three answers. *)
Record RoleInfo := { info_role : option string; info_role_display : option string }.

Definition except_no_profile {A} (body : result A) (fallback : A) : result A :=
  try_except body (fun e =>
    match e with
    | DoesNotExist => Return fallback
    | _ => Raise e
    end).

(** [CustomTokenObtainPairSerializer.get_token]: the [role] claim *)
Definition get_token_role (user : User) : result (option string) :=
  if is_superuser user then Return (Some "admin")
  else except_no_profile (profile ← get_profile user; Return (Some (role profile))) None.

(** [CustomTokenObtainPairSerializer.validate]: [data['user']] *)
Definition login_user_info (user : User) : result RoleInfo :=
  if is_superuser user then
    Return {| info_role := Some "admin"; info_role_display := Some "Administrator" |}
  else
    except_no_profile
      (profile ← get_profile user;
       Return {| info_role := Some (role profile);
                 info_role_display := Some (get_role_display profile) |})
      {| info_role := None; info_role_display := None |}.

(** [current_user]: [user_data], with its [is_superuser] entry *)
Definition current_user (user : User) : result (RoleInfo * bool) :=
  if is_superuser user then
    Return ({| info_role := Some "admin"; info_role_display := Some "Administrator" |}, true)
  else
    except_no_profile
      (profile ← get_profile user;
       Return ({| info_role := Some (role profile);
                  info_role_display := Some (get_role_display profile) |}, false))
      ({| info_role := None; info_role_display := None |}, false).

(** The test written out in [RequestTypeViewSet.get_queryset],
    [UserProfileView.update] and [UserDetailView.update]:
    [user.is_superuser or (hasattr(user, 'profile') and
    user.profile.role == 'admin')]. *)
Definition is_admin (user : User) : bool :=
  is_superuser user
  || match profile user with
     | Some profile => String.eqb (role profile) "admin"
     | None => false
     end.

(** [RequestTypeViewSet.get_queryset] *)
Definition request_type_queryset (db : Store) (user : User) : gmap N RequestType :=
  if negb (is_admin user)
  then filter (fun kt => is_active (snd kt) = true) (request_types db)
  else request_types db.

End Accounts.

(** ** [procurement/views.py]: creation and receipt submission *)

Module RequestViews.
Import Python Models Serializers Views.

Definition HTTP_201_CREATED : Z := 201.

Definition set_receipt (f : option string) (r : PurchaseRequest) : PurchaseRequest :=
  {| title := title r; amount := amount r; status := status r; request_type := request_type r;
     created_by := created_by r; approved_by := approved_by r;
     proforma := proforma r; receipt := f;
     proforma_extracted_data := proforma_extracted_data r |}.

(** The row that [PurchaseRequestCreateSerializer.create] inserts for the
    request type [rt]. *)
Definition created_row (user : User) (v : ValidatedData) (rt : uuid) : PurchaseRequest :=
  {| title := v_title v; amount := v_amount v; status := Pending; request_type := rt;
     created_by := user_pk user; approved_by := None;
     proforma := FieldFile_name "proformas/" <$> mjoin (v_proforma v); receipt := None;
     proforma_extracted_data := None |}.

Section WithBuiltins.
Context `{Builtins}.

(** [ReceiptSubmissionSerializer.validate_receipt] *)
Definition validate_receipt_file (settings : Settings) (value : option UploadedFile)
    : result (option UploadedFile) :=
  match value with
  | Some f =>
      if file_truthy value then
        if (size f >? MAX_UPLOAD_SIZE settings)%Z then
          Raise (ValidationError [("receipt", msg_size)])
        else
          let file_ext := lower (split_dot_last (name f)) in
          if bool_decide (file_ext ∉ ALLOWED_FILE_TYPES settings) then
            Raise (ValidationError [("receipt", msg_type)])
          else Return value
      else Return value
  | None => Return value
  end.

(** The payload of a receipt submission once the [FileField] has read
    it: [None] when the key is absent. *)
Definition ReceiptData := option (result UploadedFile).

(** [ReceiptSubmissionSerializer]: the required [receipt] field, then
    its hook. *)
Definition receipt_run_validation (settings : Settings) (data : ReceiptData)
    : result (option UploadedFile) :=
  match data with
  | None => Raise (ValidationError [("receipt", "No file was submitted.")])
  | Some r =>
      match r with
      | Return f => validate_receipt_file settings (Some f)
      | Raise e => Raise (ValidationError (field_errors "receipt" r))
      end
  end.

(** [permission_classes=[IsAuthenticated, IsStaff]] of [submit_receipt] *)
Definition staff_permissions (request : Request) : bool :=
  IsAuthenticated_has_permission (Some (user request))
  && granted (Permissions.IsStaff_has_permission (Some (user request))).

(** [PurchaseRequestViewSet.submit_receipt] *)
Definition submit_receipt (settings : Settings) (db : Store) (request : Request)
    (data : ReceiptData) (pk : uuid) : Response * Store :=
  if negb (staff_permissions request) then (permission_denied request, db) else
  match get_object db request pk with
  | None => (not_found, db)
  | Some purchase_request =>
  if negb (is_superuser (user request))
     && bool_decide (created_by purchase_request ≠ user_pk (user request)) then
    (error "You can only submit receipts for your own requests." HTTP_403_FORBIDDEN, db)
  else if negb (bool_decide (status purchase_request = Approved)) then
    (error "Can only submit receipt for approved requests." HTTP_400_BAD_REQUEST, db)
  else
  match receipt_run_validation settings data with
  | Raise e => (exception_response e, db)
  | Return receipt =>
      let purchase_request :=
        set_receipt (FieldFile_name "receipts/" <$> receipt) purchase_request in
      let db := set_purchase_requests (<[pk := purchase_request]> (purchase_requests db)) db in
      let db := delay (validate_receipt_task pk) db in
      ({| body := DetailBody pk purchase_request; status_code := HTTP_200_OK |}, db)
  end end.

(** The role test at the head of [PurchaseRequestViewSet.create]:
    the refusal, if there is one. *)
Definition only_staff_can_create (user : User) : option Response :=
  if is_superuser user then None
  else
    match Permissions.get_profile user with
    | Return profile =>
        if negb (String.eqb (role profile) "staff")
        then Some (error "Only staff can create purchase requests." HTTP_403_FORBIDDEN)
        else None
    | Raise _ => Some (error "User profile not found." HTTP_400_BAD_REQUEST)
    end.

(** [PurchaseRequestViewSet.create], behind the [IsAuthenticated] of the
    view set *)
Definition create (settings : Settings) (db : Store) (request : Request) (data : RequestData)
    : Response * Store :=
  if negb (IsAuthenticated_has_permission (Some (user request)))
  then (permission_denied request, db) else
  match only_staff_can_create (user request) with
  | Some refusal => (refusal, db)
  | None =>
  match create_to_internal_value settings db data with
  | Raise e => (exception_response e, db)
  | Return validated_data =>
  match Serializers.create db (user request) validated_data with
  | Raise e => (exception_response e, db)
  | Return (db', pk) =>
      match purchase_requests db' !! pk with
      | None => (exception_response DoesNotExist, db')
      | Some purchase_request =>
          let db' :=
            if field_file_truthy (proforma purchase_request)
            then delay (process_proforma pk) db' else db' in
          ({| body := DetailBody pk purchase_request; status_code := HTTP_201_CREATED |}, db')
      end
  end end end.

End WithBuiltins.

End RequestViews.

(** ** [procurement/tasks.py]: [process_proforma] *)

Module Tasks.
Import Python Models Serializers Views DocumentProcessing.

Inductive TaskResult :=
  | TaskSuccess
  | RequestNotFound
  | NoProformaFile
  | TaskRetry (e : exn).

(** The truth value of a value. *)
Definition py_bool (v : json) : bool :=
  match v with
  | JNull => false
  | JBool b => b
  | JInt n => negb (n =? 0)%Z
  | JFloat (S754_zero _) => false
  | JFloat _ => true
  | JStr s => negb (String.eqb s "")
  | JList l => negb (bool_decide (l = []))
  | JDict d => negb (bool_decide (d = []))
  end.

(** [purchase_request.items.exists()] *)
Definition items_exist (db : Store) (request_id : uuid) : bool :=
  bool_decide (Exists (fun r => item_purchase_request r = request_id) (request_items db)).

Section WithBuiltins.
Context `{Builtins}.

(** One turn of the loop over the extracted items; an exception leaves
    the store as it was. *)
Definition proforma_one_item (request_id : uuid) (db : Store) (item_data : json) : Store :=
  let attempt :=
    description ← item_get item_data "description" (JStr "");
    quantity ← item_get item_data "quantity" (JInt 1);
    unit_price ← item_get item_data "unit_price" (JInt 0);
    if py_bool description then
      q ← py_int quantity;
      u ← py_float unit_price;
      create_request_item db request_id (py_str description) q u
    else Return db in
  match attempt with
  | Return db' => db'
  | Raise _ => db
  end.

(** The second half of [process_proforma]: "Automatically create
    RequestItem objects from extracted proforma items", "Only create
    items if none were provided manually". *)
Definition create_items_from_proforma (db : Store) (request_id : uuid)
    (extracted_data : list (string * json)) : TaskResult * Store :=
  match dict_lookup "items" extracted_data with
  | Some items =>
      if py_bool (JDict extracted_data) && py_bool items then
        if negb (items_exist db request_id) then
          match py_iter items with
          | Return items => (TaskSuccess, foldl (proforma_one_item request_id) db items)
          | Raise e => (TaskRetry e, db)
          end
        else (TaskSuccess, db)
      else (TaskSuccess, db)
  | None => (TaskSuccess, db)
  end.

(** [process_proforma], given the dict that [extract_proforma_data]
    returned: the dict is put on the request, which
    [purchase_request.save()] writes back, then the items are looked
    at. *)
Definition process_proforma_task (db : Store) (request_id : uuid)
    (extracted_data : list (string * json)) : TaskResult * Store :=
  match purchase_requests db !! request_id with
  | None => (RequestNotFound, db)
  | Some purchase_request =>
      if negb (field_file_truthy (proforma purchase_request)) then (NoProformaFile, db)
      else
        let purchase_request :=
          set_proforma_extracted_data (Some (JDict extracted_data)) purchase_request in
        let db :=
          set_purchase_requests (<[request_id := purchase_request]> (purchase_requests db)) db in
        create_items_from_proforma db request_id extracted_data
  end.

(** The store once [process_proforma] has written the extracted data on
    the request. *)
Definition with_extracted_data (db : Store) (request_id : uuid)
    (extracted_data : list (string * json)) : Store :=
  match purchase_requests db !! request_id with
  | None => db
  | Some purchase_request =>
      if field_file_truthy (proforma purchase_request) then
        set_purchase_requests
          (<[request_id := set_proforma_extracted_data (Some (JDict extracted_data))
                             purchase_request]> (purchase_requests db)) db
      else db
  end.

End WithBuiltins.

End Tasks.

(** ** [procurement/document_processing.py]: cleaning of extracted data *)

Module ProformaData.
Import Python Models DocumentProcessing.

(** [d[key] = v] on a dict given by its key/value pairs: the binding
    that [dict_lookup] reads is replaced where it stands, a new key comes
    last. *)
Fixpoint dict_set (key : string) (v : json) (d : list (string * json))
    : list (string * json) :=
  match d with
  | [] => [(key, v)]
  | (k, x) :: d' =>
      match dict_lookup key d' with
      | Some _ => (k, x) :: dict_set key v d'
      | None => if String.eqb k key then (k, v) :: d' else (k, x) :: dict_set key v d'
      end
  end.

(** The literal [0.0] *)
Definition float_zero : float := S754_zero false.

Fixpoint mapM {A B} (f : A -> result B) (l : list A) : result (list B) :=
  match l with
  | [] => Return []
  | x :: rest => y ← f x; ys ← mapM f rest; Return (y :: ys)
  end.

Section WithBuiltins.
Context `{Builtins}.

(** [safe_float], local to [extract_proforma_data];
    [except (ValueError, TypeError)] also catches the subclass
    [JSONDecodeError]. *)
Definition safe_float (value : json) (default : float) : result float :=
  match value with
  | JNull => Return default
  | _ =>
      try_except (py_float value) (fun e =>
        match e with
        | ValueError | TypeError | JSONDecodeError => Return default
        | _ => Raise e
        end)
  end.

(** One turn of "Ensure numeric fields are floats": the three
    assignments to the item. *)
Definition clean_item (item : json) : result json :=
  match item with
  | JDict d =>
      q ← safe_float (dict_get d "quantity" JNull) float_zero;
      let d := dict_set "quantity" (JFloat q) d in
      u ← safe_float (dict_get d "unit_price" JNull) float_zero;
      let d := dict_set "unit_price" (JFloat u) d in
      t ← safe_float (dict_get d "total_price" JNull) float_zero;
      Return (JDict (dict_set "total_price" (JFloat t) d))
  | _ => Raise AttributeError
  end.

(** The block "Validate and clean data" of [extract_proforma_data], on
    the value the provider answered.  The loop changes the dicts that
    the list of items holds, so the list is written back. *)
Definition clean_extracted_data (extracted_data : json) : result json :=
  match extracted_data with
  | JDict d =>
      let d := if bool_decide (is_Some (dict_lookup "items" d)) then d
               else dict_set "items" (JList []) d in
      items ← py_iter (dict_get d "items" (JList []));
      cleaned ← mapM clean_item items;
      let d := match dict_get d "items" (JList []) with
               | JList _ => dict_set "items" (JList cleaned) d
               | _ => d
               end in
      s ← safe_float (dict_get d "subtotal" JNull) float_zero;
      let d := dict_set "subtotal" (JFloat s) d in
      x ← safe_float (dict_get d "tax" JNull) float_zero;
      let d := dict_set "tax" (JFloat x) d in
      t ← safe_float (dict_get d "total" JNull) float_zero;
      Return (JDict (dict_set "total" (JFloat t) d))
  | JList l =>
      (* [in] is a membership test; then the list has no [get] *)
      if existsb (fun v => match v with JStr s => String.eqb s "items" | _ => false end) l
      then Raise AttributeError else Raise TypeError
  | JStr s =>
      (* [in] is a substring test; then the string has no [get] *)
      if is_substring "items" s then Raise AttributeError else Raise TypeError
  | _ => Raise TypeError
  end.

End WithBuiltins.

(** The value under a key is a float. *)
Definition float_at (key : string) (d : list (string * json)) : Prop :=
  exists f, dict_lookup key d = Some (JFloat f).

(** An item as the cleaning leaves it. *)
Definition clean_line (item : json) : Prop :=
  exists d, item = JDict d /\ float_at "quantity" d /\ float_at "unit_price" d
            /\ float_at "total_price" d.

(** The shape of cleaned data: the three amounts are floats and the
    items are cleaned items (or an empty string or dict, which the loop
    passes over). *)
Definition cleaned (d : list (string * json)) : Prop :=
  float_at "subtotal" d /\ float_at "tax" d /\ float_at "total" d
  /\ exists items, dict_lookup "items" d = Some items
       /\ match items with
          | JList l => Forall clean_line l
          | JStr s => s = ""
          | JDict keys => keys = []
          | _ => False
          end.

End ProformaData.

(** ** [procurement/serializers.py]: approval level configuration *)

Module Configuration.
Import Python Models.

(** The entries of [attrs] that [ApprovalLevelSerializer.validate] reads. *)
Record LevelAttrs := { attr_request_type : option uuid; attr_level_number : option N }.

(** [a or b] on an optional number: zero is falsy. *)
Definition number_or (a b : option N) : option N :=
  match a with
  | Some n => if (n =? 0)%N then b else Some n
  | None => b
  end.

(** [ApprovalLevelSerializer.validate] *)
Definition ApprovalLevelSerializer_validate (db : Store) (instance : option ApprovalLevel)
    (attrs : LevelAttrs) : result LevelAttrs :=
  let request_type :=
    match attr_request_type attrs with
    | Some t => Some t
    | None => level_request_type <$> instance
    end in
  let level_number := number_or (attr_level_number attrs) (Models.level_number <$> instance) in
  match request_type, level_number with
  | Some request_type, Some level_number =>
      if (level_number =? 0)%N then Return attrs
      else
        let queryset :=
          filter (fun l => level_request_type l = request_type
                           /\ Models.level_number l = level_number) (approval_levels db) in
        let queryset :=
          match instance with
          | Some i => filter (fun l => level_pk l ≠ level_pk i) queryset
          | None => queryset
          end in
        if bool_decide (queryset ≠ []) then
          Raise (ValidationError
                   [("level_number",
                     "An approval level with this number already exists for this request type.")])
        else Return attrs
  | _, _ => Return attrs
  end.

(** The row that is saved once the attributes are accepted. *)
Definition apply_attrs (attrs : LevelAttrs) (l : ApprovalLevel) : ApprovalLevel :=
  {| level_pk := level_pk l;
     level_request_type := default (level_request_type l) (attr_request_type attrs);
     level_number := default (Models.level_number l) (attr_level_number attrs);
     approver_role := approver_role l; is_required := is_required l |}.

(** [unique_together = ['request_type', 'level_number']] *)
Definition levels_unique (table : list ApprovalLevel) : Prop :=
  NoDup (map (fun l => (level_request_type l, level_number l)) table).

End Configuration.

(** ** [procurement/models.py]: [final_approver], and keys of the items *)

Module ModelProperties.
Import Python Models.

(** [PurchaseRequest.final_approver]; the table of approvals is kept
    newest first, the order of [order_by('-created_at')]. *)
Definition final_approver (db : Store) (pk : uuid) (self : PurchaseRequest) : option N :=
  if bool_decide (status self = Approved) then
    match head (filter (fun a => purchase_request_id a = pk /\ action a = ActApproved)
                       (approvals db)) with
    | Some last_approval => Some (approver last_approval)
    | None => None
    end
  else None.

(** Every item row has a key, below the counter, and no key is used twice. *)
Definition items_keyed (db : Store) : Prop :=
  Forall (fun r => exists k, item_pk r = Some k /\ (k < next_pk db)%N) (request_items db)
  /\ NoDup (map item_pk (request_items db)).

(** [db1] is [db] with rows appended to the items, each of them
    satisfying [P]: nothing else differs but the counter of keys, and
    nothing differs at all when no row is appended. *)
Definition appends_items (P : RequestItem -> Prop) (db db1 : Store) : Prop :=
  engine db1 = engine db
  /\ request_types db1 = request_types db /\ approval_levels db1 = approval_levels db
  /\ purchase_requests db1 = purchase_requests db /\ approvals db1 = approvals db
  /\ task_queue db1 = task_queue db
  /\ exists new, request_items db1 = request_items db ++ new /\ Forall P new
                 /\ (new = [] -> db1 = db).

End ModelProperties.

(** ** [procurement/document_processing.py]: receipts against orders *)

Module ReceiptLines.
Import Python Models DocumentProcessing.

Section WithBuiltins.
Context `{Builtins}.

(** The receipt line repeats the order item: it is a dict that has the
    description of the item and whose quantity and unit price convert to
    the floats that the quantity and the unit price of the item convert
    to. *)
Definition repeats (po_item : RequestItem) (line : json) : Prop :=
  exists d q p,
    line = JDict d
    /\ dict_get d "description" (JStr "") = JStr (description po_item)
    /\ py_float (dict_get d "quantity" (JInt 0)) = Return q
    /\ float_of_int (quantity po_item) = Some q
    /\ py_float (dict_get d "unit_price" (JInt 0)) = Return p
    /\ float_of_Decimal (unit_price po_item) = Some p.

(** The receipt line does not name the order item: if it is a dict with
    a text as its description, the text does not contain the description
    of the item, letter case apart. *)
Definition does_not_name (po_item : RequestItem) (line : json) : Prop :=
  forall d s, line = JDict d -> dict_get d "description" (JStr "") = JStr s ->
              is_substring (lower (description po_item)) (lower s) = false.

(** No description of the order is contained in the description of an
    earlier item of the order. *)
Definition no_earlier_match (po_items : list RequestItem) : Prop :=
  forall i j pi pj, (i < j)%nat -> po_items !! i = Some pi -> po_items !! j = Some pj ->
    is_substring (lower (description pj)) (lower (description pi)) = false.

End WithBuiltins.

End ReceiptLines.

(** ** [procurement/management/commands/cleanup_old_media.py] *)

Module CleanupOldMedia.
Import Python.

(** An entry of a media directory: its name, [stat().st_size],
    [stat().st_mtime] in microseconds, whether it is a regular file, and
    whether [unlink] on it raises. *)
Record MediaFile := {
  entry_name : string;
  st_size : Z;
  st_mtime : Z;
  is_file : bool;
  unlink_raises : bool }.

(** The options [--dry-run], [--days] and [--orphaned-only]. *)
Record Options := { dry_run : bool; days : Z; orphaned_only : bool }.

(** The three file columns of a purchase request. *)
Record FileColumns := {
  col_proforma : option string;
  col_purchase_order : option string;
  col_receipt : option string }.

(** The name of a file column that is neither null nor empty. *)
Definition named (column : option string) : option string :=
  match column with
  | Some n => if String.eqb n "" then None else Some n
  | None => None
  end.

(** "Get all referenced file paths from database" *)
Definition referenced_files (rows : list FileColumns) : gset string :=
  list_to_set (omap (fun pr => named (col_proforma pr)) rows)
  ∪ list_to_set (omap (fun pr => named (col_purchase_order pr)) rows)
  ∪ list_to_set (omap (fun pr => named (col_receipt pr)) rows).

(** What the command leaves and reports: the directories under the
    media root, the two counters of the summary line, and the names it
    announced with "Would delete". *)
Record Outcome := {
  media : gmap string (list MediaFile);
  deleted_count : Z;
  deleted_size : Z;
  would_delete : list string }.

(** [timedelta(days=1)], in microseconds *)
Definition day : Z := 86400000000.

(** The decision taken for one regular file. *)
Definition should_delete (options : Options) (referenced : gset string) (cutoff_date : Z)
    (subdir : string) (f : MediaFile) : bool :=
  let file_name := subdir +:+ "/" +:+ entry_name f in
  if orphaned_only options then bool_decide (file_name ∉ referenced)
  else if bool_decide (file_name ∉ referenced) then true
  else bool_decide (st_mtime f < cutoff_date)%Z.

(** One turn of the loop over the entries of a directory; [kept] are the
    entries still in the directory. *)
Definition visit (options : Options) (referenced : gset string) (cutoff_date : Z)
    (subdir : string) (acc : list MediaFile * Outcome) (f : MediaFile)
    : list MediaFile * Outcome :=
  let '(kept, out) := acc in
  if negb (is_file f) then (kept ++ [f], out)
  else if should_delete options referenced cutoff_date subdir f then
    if dry_run options then
      (kept ++ [f],
       {| media := media out; deleted_count := deleted_count out;
          deleted_size := deleted_size out;
          would_delete := would_delete out ++ [subdir +:+ "/" +:+ entry_name f] |})
    else if unlink_raises f then (kept ++ [f], out)
    else
      (kept,
       {| media := media out; deleted_count := deleted_count out + 1;
          deleted_size := deleted_size out + st_size f;
          would_delete := would_delete out |})
  else (kept ++ [f], out).

(** One turn of the loop over the three directories. *)
Definition visit_subdir (options : Options) (referenced : gset string) (cutoff_date : Z)
    (out : Outcome) (subdir : string) : Outcome :=
  match media out !! subdir with
  | None => out
  | Some entries =>
      let '(kept, out) :=
        foldl (visit options referenced cutoff_date subdir) ([], out) entries in
      {| media := <[subdir := kept]> (media out); deleted_count := deleted_count out;
         deleted_size := deleted_size out; would_delete := would_delete out |}
  end.

Definition subdirs : list string := ["proformas"; "purchase_orders"; "receipts"].

(** [Command.handle]: [media_root] is [None] when the media root does
    not exist, in which case the command returns at once; [now] is
    [datetime.now()] in microseconds. *)
Definition handle (options : Options) (media_root : option (gmap string (list MediaFile)))
    (rows : list FileColumns) (now : Z) : option Outcome :=
  match media_root with
  | None => None
  | Some directories =>
      let referenced := referenced_files rows in
      let cutoff_date := (now - days options * day)%Z in
      Some (foldl (visit_subdir options referenced cutoff_date)
              {| media := directories; deleted_count := 0; deleted_size := 0;
                 would_delete := [] |}
              subdirs)
  end.

(** The file goes: it is a regular file that the command decides to
    delete, outside a dry run, and [unlink] succeeds. *)
Definition goes (options : Options) (referenced : gset string) (cutoff_date : Z)
    (subdir : string) (f : MediaFile) : bool :=
  is_file f && should_delete options referenced cutoff_date subdir f
  && negb (dry_run options) && negb (unlink_raises f).

End CleanupOldMedia.

(** ** Sample data *)

Module Examples.
Import Python Models Serializers Views DocumentProcessing.

(** One unit of ink at 5, and the JSON text of the list that holds this
    one item. *)
Definition ink_item : list (string * json) :=
  [("description", JStr "Ink"); ("quantity", JInt 1); ("unit_price", JInt 5)].

Definition quoted (s : string) : string :=
  String "034"%char (s +:+ String "034"%char EmptyString).

Definition ink_items_text : string :=
  "[{" +:+ quoted "description" +:+ ": " +:+ quoted "Ink" +:+ ", "
  +:+ quoted "quantity" +:+ ": 1, " +:+ quoted "unit_price" +:+ ": 5}]".

(** A stand-in for the built-in conversions, enough to run the
    definitions on the samples below: [json.loads] reads the text of the
    empty list and the text of the list with the ink and refuses every
    other text, strings are not read as numbers, only floats that are
    whole numbers, which print as [n.0], are turned into a [Decimal],
    and texts outside ASCII, of which the samples have none, are left as
    they are. *)
Definition sample_json_loads (s : string) : result json :=
  if String.eqb s "[]" then Return (JList [])
  else if String.eqb s ink_items_text then Return (JList [JDict ink_item])
  else Raise JSONDecodeError.

Definition sample_Decimal_of_float (f : float) : option Decimal :=
  match f with
  | S754_zero _ => Some {| coef := 0; exp := -1 |}
  | S754_finite s m e =>
      let sign := (if s then -1 else 1)%Z in
      if (0 <=? e)%Z then Some {| coef := sign * Z.pos m * 2 ^ e * 10; exp := -1 |}
      else if (Z.pos m mod 2 ^ (- e) =? 0)%Z
           then Some {| coef := sign * (Z.pos m / 2 ^ (- e)) * 10; exp := -1 |}
           else None
  | _ => None
  end.

Definition sample_builtins : Builtins :=
  {| json_loads := sample_json_loads;
     repr := fun _ => "None";
     int_of_str := fun _ => Raise ValueError;
     float_of_str := fun _ => Raise ValueError;
     Decimal_of_float := sample_Decimal_of_float;
     unicode_lower := fun s => s;
     unicode_strip := fun s => s |}.

(** *** Users *)

Definition staff_user : User :=
  {| user_pk := 10; is_authenticated := true; is_superuser := false;
     profile := Some {| role := "staff" |} |}.

Definition approver_1 : User :=
  {| user_pk := 11; is_authenticated := true; is_superuser := false;
     profile := Some {| role := "approver_level_1" |} |}.

Definition approver_2 : User :=
  {| user_pk := 12; is_authenticated := true; is_superuser := false;
     profile := Some {| role := "approver_level_2" |} |}.

Definition admin_user : User :=
  {| user_pk := 1; is_authenticated := true; is_superuser := true; profile := None |}.

(** A superuser whose profile says "staff". *)
Definition superuser_staff : User :=
  {| user_pk := 1; is_authenticated := true; is_superuser := true;
     profile := Some {| role := "staff" |} |}.

Definition request_of (u : User) : Request := {| user := u; query_status := None |}.

(** *** Stores *)

Definition empty_store : Store :=
  {| engine := PostgreSQL; request_types := ∅; approval_levels := []; purchase_requests := ∅;
     request_items := []; approvals := []; next_pk := 1; task_queue := [] |}.

(** Two request types, each with a first level for [approver_level_1]
    and a second level for [approver_level_2]. *)
Definition two_types : gmap N RequestType :=
  {[ 1%N := {| rt_name := "Office Supplies"; is_active := true |};
     20%N := {| rt_name := "Equipment"; is_active := true |} ]}.

Definition two_levels_each : list ApprovalLevel :=
  [ {| level_pk := 2; level_request_type := 1; level_number := 1;
       approver_role := "approver_level_1"; is_required := true |};
    {| level_pk := 3; level_request_type := 1; level_number := 2;
       approver_role := "approver_level_2"; is_required := true |};
    {| level_pk := 21; level_request_type := 20; level_number := 1;
       approver_role := "approver_level_1"; is_required := true |};
    {| level_pk := 22; level_request_type := 20; level_number := 2;
       approver_role := "approver_level_2"; is_required := true |} ].

Definition pending_request : PurchaseRequest :=
  {| title := "Test Request"; amount := {| coef := 100000; exp := -2 |};
     status := Pending; request_type := 1; created_by := 10; approved_by := None;
     proforma := None; receipt := None;
     proforma_extracted_data := None |}.

Definition approved_request : PurchaseRequest :=
  {| title := "Test Request"; amount := {| coef := 100000; exp := -2 |};
     status := Approved; request_type := 1; created_by := 10; approved_by := Some 12%N;
     proforma := None; receipt := None;
     proforma_extracted_data := None |}.

(** The request 4 of [staff_user], pending, with no approval yet. *)
Definition store_with_pending_request : Store :=
  {| engine := PostgreSQL; request_types := two_types; approval_levels := two_levels_each;
     purchase_requests := {[ 4%N := pending_request ]};
     request_items := []; approvals := []; next_pk := 30; task_queue := [] |}.

(** The same request once both levels have approved it. *)
Definition store_with_approved_request : Store :=
  {| engine := PostgreSQL; request_types := two_types; approval_levels := two_levels_each;
     purchase_requests := {[ 4%N := approved_request ]};
     request_items := []; approvals := []; next_pk := 30; task_queue := [] |}.

(** A type whose first level belongs to [approver_level_2] and whose
    second and third levels are both held by [approver_level_1]; the
    table lists the third level first. *)
Definition store_with_shared_role_above : Store :=
  {| engine := PostgreSQL; request_types := two_types;
     approval_levels :=
       [ {| level_pk := 5; level_request_type := 1; level_number := 3;
            approver_role := "approver_level_1"; is_required := true |};
         {| level_pk := 3; level_request_type := 1; level_number := 1;
            approver_role := "approver_level_2"; is_required := true |};
         {| level_pk := 4; level_request_type := 1; level_number := 2;
            approver_role := "approver_level_1"; is_required := true |} ];
     purchase_requests := {[ 4%N := pending_request ]};
     request_items := []; approvals := []; next_pk := 30; task_queue := [] |}.

(** *** Records and payloads *)

(** Five items at 200.00 each, carrying a stray total of 1.00 (the
    values of [test_create_request_item]). *)
Definition five_at_200 : RequestItem :=
  {| item_pk := None; item_purchase_request := 7; description := "Test Item";
     quantity := 5; unit_price := {| coef := 20000; exp := -2 |};
     total_price := {| coef := 100; exp := -2 |} |}.

Definition a_rejection : Approval :=
  {| approval_pk := 0; purchase_request_id := 4; approver := 11; approval_level := 2;
     action := ActRejected; comments := Some "Not approved";
     approved_at := None; rejected_at := None; approval_created_by := None |}.

Definition invoice_PDF (size : Z) : UploadedFile :=
  {| name := "invoice.PDF"; size := size; saved_as := "invoice.PDF" |}.

(** An allow-list configured in upper case. *)
Definition uppercase_settings : Settings :=
  {| MAX_UPLOAD_SIZE := 10485760; ALLOWED_FILE_TYPES := ["PDF"] |}.

(** A payload that only names the fields every update has to carry. *)
Definition plain_payload : RequestData :=
  {| data_title := Return "Test Request"; data_amount := Return {| coef := 100000; exp := -2 |};
     data_request_type_id := None; data_proforma := None; data_items := None |}.

(** The same payload, moving the request to the type 20. *)
Definition retype_payload : RequestData :=
  {| data_title := Return "Test Request"; data_amount := Return {| coef := 100000; exp := -2 |};
     data_request_type_id := Some (Return 20%N); data_proforma := None; data_items := None |}.

(** An item with an empty description, one unit at 5. *)
Definition nameless_item : list (string * json) :=
  [("description", JStr ""); ("quantity", JInt 1); ("unit_price", JInt 5)].

Definition payload_with_items (items : json) : RequestData :=
  {| data_title := Return "Test Request"; data_amount := Return {| coef := 100000; exp := -2 |};
     data_request_type_id := Some (Return 1%N); data_proforma := None;
     data_items := Some items |}.

(** The binary64 numbers nearest to 100.01 and equal to 100. *)
Definition float_100_01 : float := S754_finite false 7037578105208177 (-46).
Definition float_100 : float := S754_finite false 7036874417766400 (-46).

(** A receipt without lines whose total reads 100.01. *)
Definition receipt_100_01 : json := JDict [("items", JList []); ("total", JFloat float_100_01)].

End Examples.

(** ** Further sample data *)

Module Scenarios.
Import Python Models Serializers Views DocumentProcessing Examples.

(** The store once [approver_1] has approved the request 4 at the first
    level. *)
Definition store_after_first_approval : Store :=
  snd (approve store_with_pending_request (request_of approver_1) None 100 4%N).

(** A second pending request, 5, of another staff member (user 13), and
    one item row for each of the two requests. *)
Definition request_of_user_13 : PurchaseRequest :=
  {| title := "Other Request"; amount := {| coef := 5000; exp := -2 |};
     status := Pending; request_type := 1; created_by := 13; approved_by := None;
     proforma := None; receipt := None;
     proforma_extracted_data := None |}.

Definition paper (k pk : N) : RequestItem :=
  {| item_pk := Some k; item_purchase_request := pk; description := "Paper";
     quantity := 2; unit_price := {| coef := 500; exp := -2 |};
     total_price := {| coef := 1000; exp := -2 |} |}.

Definition store_with_two_requests : Store :=
  {| engine := PostgreSQL; request_types := two_types; approval_levels := two_levels_each;
     purchase_requests := {[ 4%N := pending_request; 5%N := request_of_user_13 ]};
     request_items := [paper 25 4; paper 26 5]; approvals := []; next_pk := 30;
     task_queue := [] |}.

(** The request 4 with an uploaded proforma and one item entered by
    hand, and the data that an extraction of that proforma returns. *)
Definition store_with_proforma : Store :=
  {| engine := PostgreSQL; request_types := two_types; approval_levels := two_levels_each;
     purchase_requests :=
       {[ 4%N := {| title := "Test Request"; amount := {| coef := 100000; exp := -2 |};
                    status := Pending; request_type := 1; created_by := 10;
                    approved_by := None; proforma := Some "proformas/invoice.pdf";
                    receipt := None; proforma_extracted_data := None |} ]};
     request_items := [paper 25 4]; approvals := []; next_pk := 30; task_queue := [] |}.

Definition extracted_ink : list (string * json) :=
  [("vendor_name", JStr "Acme");
   ("items", JList [JDict [("description", JStr "Ink"); ("quantity", JInt 1);
                           ("unit_price", JInt 5)]])].

(** What a provider may answer: a quantity given as an integer, a unit
    price as a text, no subtotal and a total that is not a number. *)
Definition extracted_raw : json :=
  JDict [("vendor_name", JStr "Acme");
         ("items", JList [JDict [("description", JStr "Ink"); ("quantity", JInt 2);
                                 ("unit_price", JStr "5 EUR")]]);
         ("total", JStr "n/a")].

(** A receipt for two packs of paper at 5 each, 10 in all, and a receipt
    for toner. *)
Definition paper_receipt : list (string * json) :=
  [("items", JList [JDict [("description", JStr "Paper"); ("quantity", JInt 2);
                           ("unit_price", JInt 5)]]);
   ("total", JInt 10)].

Definition toner_receipt : list (string * json) :=
  [("items", JList [JDict [("description", JStr "Toner"); ("quantity", JInt 2);
                           ("unit_price", JInt 5)]]);
   ("total", JInt 10)].

(** A media root whose directory of proformas holds an invoice that the
    request names, last written at time 0, and a file that no request
    names; the clean-up runs a hundred days later. *)
Definition old_invoice : CleanupOldMedia.MediaFile :=
  {| CleanupOldMedia.entry_name := "invoice.pdf"; CleanupOldMedia.st_size := 2048;
     CleanupOldMedia.st_mtime := 0; CleanupOldMedia.is_file := true;
     CleanupOldMedia.unlink_raises := false |}.

Definition stray_file : CleanupOldMedia.MediaFile :=
  {| CleanupOldMedia.entry_name := "draft.pdf"; CleanupOldMedia.st_size := 512;
     CleanupOldMedia.st_mtime := 0; CleanupOldMedia.is_file := true;
     CleanupOldMedia.unlink_raises := false |}.

Definition media_root : gmap string (list CleanupOldMedia.MediaFile) :=
  {[ "proformas" := [old_invoice; stray_file] ]}.

Definition file_columns : list CleanupOldMedia.FileColumns :=
  [ {| CleanupOldMedia.col_proforma := Some "proformas/invoice.pdf";
       CleanupOldMedia.col_purchase_order := None;
       CleanupOldMedia.col_receipt := Some "" |} ].

Definition hundred_days : Z := 100 * CleanupOldMedia.day.

Definition default_options : CleanupOldMedia.Options :=
  {| CleanupOldMedia.dry_run := false; CleanupOldMedia.days := 90;
     CleanupOldMedia.orphaned_only := false |}.

Definition dry_run_options : CleanupOldMedia.Options :=
  {| CleanupOldMedia.dry_run := true; CleanupOldMedia.days := 90;
     CleanupOldMedia.orphaned_only := false |}.

End Scenarios.

(** * Properties *)

(** ** Decimal arithmetic *)

Module PythonFacts.
Import Python.

Lemma ndigits_fuel_le (fuel : nat) : forall (n k : Z),
  (0 <= n < 10 ^ k)%Z -> (1 <= k)%Z -> (ndigits_fuel fuel n <= k)%Z.
Proof.
  induction fuel as [|fuel IH]; intros n k Hn Hk; simpl.
  - lia.
  - destruct (Z.ltb_spec n 10) as [Hlt|Hge]; [lia|].
    assert (Hk2 : (2 <= k)%Z).
    { destruct (Z.eq_dec k 1%Z) as [->|]; [|lia]. simpl in Hn. lia. }
    specialize (IH (n / 10)%Z (k - 1)%Z).
    assert (Hpow : (10 ^ k = 10 * 10 ^ (k - 1))%Z).
    { rewrite <- Z.pow_succ_r by lia. f_equal. lia. }
    assert ((0 <= n / 10 < 10 ^ (k - 1))%Z).
    { split; [apply Z.div_pos; lia|]. apply Z.div_lt_upper_bound; lia. }
    lia.
Qed.

Lemma ndigits_le (c k : Z) :
  (Z.abs c < 10 ^ k)%Z -> (1 <= k)%Z -> (ndigits c <= k)%Z.
Proof.
  intros Hc Hk. unfold ndigits. apply ndigits_fuel_le; [|done]. lia.
Qed.

(** A product whose coefficient has at most 28 digits is exact. *)
Lemma Decimal_mul_exact (a b : Decimal) :
  (Z.abs (coef a * coef b) < 10 ^ 28)%Z ->
  Decimal_mul a b = {| coef := coef a * coef b; exp := exp a + exp b |}.
Proof.
  intros Hc. unfold Decimal_mul, _fix. cbn [coef exp].
  assert (Hd : (ndigits (coef a * coef b) <= context_prec)%Z)
    by (apply ndigits_le; [done|unfold context_prec; lia]).
  apply Z.leb_le in Hd. by rewrite Hd.
Qed.

Lemma lower_ascii_idemp (c : ascii) : lower_ascii (lower_ascii c) = lower_ascii c.
Proof. by destruct c as [[] [] [] [] [] [] [] []]. Qed.

Lemma ascii_lower_idemp (s : string) : ascii_lower (ascii_lower s) = ascii_lower s.
Proof.
  induction s as [|c s IH]; [done|]. simpl. by rewrite lower_ascii_idemp, IH.
Qed.

Lemma lower_ascii_is_ascii (c : ascii) :
  (nat_of_ascii (lower_ascii c) <? 128)%nat = (nat_of_ascii c <? 128)%nat.
Proof. by destruct c as [[] [] [] [] [] [] [] []]. Qed.

Lemma ascii_lower_is_ascii (s : string) : is_ascii (ascii_lower s) = is_ascii s.
Proof.
  induction s as [|c s IH]; [done|]. simpl. by rewrite lower_ascii_is_ascii, IH.
Qed.

Section Lower.
Context `{Builtins}.

(** On a string of ASCII characters [lower] does not look at the
    Unicode tables. *)
Lemma lower_of_ascii (s : string) : is_ascii s = true -> lower s = ascii_lower s.
Proof. intros Hs. unfold lower. by rewrite Hs. Qed.

Lemma lower_idemp_ascii (s : string) : is_ascii s = true -> lower (lower s) = lower s.
Proof.
  intros Hs. rewrite (lower_of_ascii s Hs).
  rewrite lower_of_ascii by by rewrite ascii_lower_is_ascii.
  apply ascii_lower_idemp.
Qed.

End Lower.

End PythonFacts.

(** ** The data model *)

Module ModelsFacts.
Import Python Models PythonFacts Examples.

(** A product that fits the column of [total_price] is far below the
    28 digits of the context. *)
Lemma product_of_columns (q : Z) (u : Decimal) :
  valid_money (exact_product q u) ->
  Decimal_mul (Decimal_of_int q) u = exact_product q u.
Proof.
  intros [He Hc]. cbn [exact_product coef exp] in He, Hc.
  rewrite Decimal_mul_exact; cbn [Decimal_of_int coef exp].
  - unfold exact_product. f_equal.
  - assert (1 <= 10 ^ (exp u + 2))%Z by (apply Z.pow_le_mono_r with (b := 0%Z); lia).
    assert (0 <= Z.abs (q * coef u))%Z by lia.
    assert (10 ^ 10 < 10 ^ 28)%Z by done.
    nia.
Qed.

(** The value of a decimal with at most two places, written with two. *)
Lemma hundredths_exact (e : Engine) (d : Decimal) :
  (-2 <= exp d)%Z -> hundredths e d = (coef d * 10 ^ (exp d + 2))%Z.
Proof.
  intros He. unfold hundredths. cbv zeta.
  by destruct (Z.leb_spec 0 (exp d + 2)); [|lia].
Qed.

Lemma DecimalField_column_valid (e : Engine) (d : Decimal) :
  valid_money d ->
  DecimalField_column e d = Return {| coef := coef d * 10 ^ (exp d + 2); exp := -2 |}.
Proof.
  intros [He Hc]. unfold DecimalField_column. cbv zeta.
  rewrite hundredths_exact by lia.
  assert (0 < 10 ^ (exp d + 2))%Z by (apply Z.pow_pos_nonneg; lia).
  assert (Habs : (Z.abs (coef d * 10 ^ (exp d + 2)) = Z.abs (coef d) * 10 ^ (exp d + 2))%Z)
    by (rewrite Z.abs_mul; f_equal; lia).
  rewrite Habs. by destruct (Z.ltb_spec (Z.abs (coef d) * 10 ^ (exp d + 2)) (10 ^ 10)); [|lia].
Qed.

Lemma PositiveIntegerField_column_valid (e : Engine) (q : Z) :
  valid_quantity q -> PositiveIntegerField_column e q = Return q.
Proof.
  intros Hq. unfold valid_quantity in Hq. unfold PositiveIntegerField_column. destruct e.
  - destruct (Z.leb_spec 0 q); [|lia]. by destruct (Z.leb_spec q 2147483647); [|lia].
  - destruct (Z.ltb_spec 9223372036854775807 (Z.abs q)); [lia|].
    by destruct (Z.leb_spec 0 q); [|lia].
Qed.

(** The columns keep the request of the instance and its description. *)
Lemma to_columns_description (e : Engine) (self row : RequestItem) :
  to_columns e self = Return row ->
  description row = description self
  /\ item_purchase_request row = item_purchase_request self.
Proof.
  unfold to_columns, CharField_column, PositiveIntegerField_column, DecimalField_column.
  destruct e; cbn; repeat (case_match; cbn; try done); by intros [= <-].
Qed.

(** A row that [Model_save_item] has written is in the table. *)
Lemma Model_save_item_stored (db db' : Store) (self saved : RequestItem) :
  Model_save_item db self = Return (db', saved) ->
  exists row, to_columns (engine db) (set_item_pk (item_pk saved) self) = Return row
    /\ row ∈ request_items db'.
Proof.
  unfold Model_save_item. destruct (item_pk self) as [k|] eqn:Hk.
  - destruct (to_columns (engine db) self) as [row|] eqn:Hrow; [|done]. cbn.
    assert (Hself : set_item_pk (Some k) self = self) by (destruct self; cbn in *; by subst).
    assert (Hpk : item_pk row = Some k).
    { unfold to_columns in Hrow. destruct (engine db);
        repeat (match type of Hrow with
                | context [mbind _ ?x] => destruct x; cbn in Hrow; [|done]
                end); injection Hrow as <-; done. }
    case_bool_decide as Hex; intros [= <- <-]; rewrite Hk, Hself; exists row; (split; [done|]).
    + cbn [request_items set_request_items].
      apply Exists_exists in Hex as (r & Hr & Hrk).
      apply list_elem_of_fmap. exists r. split; [|done].
      by rewrite bool_decide_eq_true_2.
    + cbn [request_items set_request_items].
      apply elem_of_app. right. by apply list_elem_of_singleton.
  - destruct (to_columns _ _) as [row|] eqn:Hrow; [|done]. cbn.
    intros [= <- <-]. exists row. split; [done|].
    cbn [request_items set_request_items set_next_pk].
    apply elem_of_app. right. by apply list_elem_of_singleton.
Qed.

(** For a description, a quantity, a unit price and a product that the
    columns hold as they are, the row that [RequestItem.save] writes
    carries the product of its quantity and its unit price, whatever
    [total_price] the caller put on the instance. *)
Lemma RequestItem_save_of_column_values (db : Store) (self : RequestItem) :
  CharField_column (engine db) 200 (description self) = Return (description self) ->
  valid_quantity (quantity self) -> valid_money (unit_price self) ->
  valid_money (exact_product (quantity self) (unit_price self)) ->
  exists db' saved row,
    RequestItem_save db self = Return (db', saved)
    /\ row ∈ request_items db'
    /\ quantity row = quantity self
    /\ unit_price row
       = {| coef := coef (unit_price self) * 10 ^ (exp (unit_price self) + 2); exp := -2 |}
    /\ total_price row = exact_product (quantity row) (unit_price row).
Proof.
  intros Hd Hq Hu Ht. unfold RequestItem_save. cbv zeta.
  set (item := set_total_price _ self).
  assert (Hcols : forall k, to_columns (engine db) (set_item_pk k item)
    = Return {| item_pk := k; item_purchase_request := item_purchase_request self;
                description := description self; quantity := quantity self;
                unit_price := {| coef := coef (unit_price self)
                                         * 10 ^ (exp (unit_price self) + 2); exp := -2 |};
                total_price := {| coef := quantity self * coef (unit_price self)
                                          * 10 ^ (exp (unit_price self) + 2); exp := -2 |} |}).
  { intros k. unfold to_columns. subst item.
    cbn [set_item_pk set_total_price item_pk item_purchase_request description quantity
         unit_price total_price].
    rewrite (product_of_columns _ _ Ht).
    rewrite (PositiveIntegerField_column_valid _ _ Hq), Hd.
    rewrite (DecimalField_column_valid _ _ Hu), (DecimalField_column_valid _ _ Ht).
    by destruct (engine db). }
  destruct (Model_save_item db item) as [[db' saved]|e] eqn:Hsave.
  - destruct (Model_save_item_stored _ _ _ _ Hsave) as (row & Hrow & Hin).
    rewrite Hcols in Hrow. injection Hrow as <-.
    exists db', saved. eexists. split; [done|]. split; [exact Hin|].
    cbn [quantity unit_price total_price exact_product coef exp].
    do 2 (split; [done|]). unfold exact_product. cbn [coef exp]. f_equal.
    symmetry. apply Z.mul_assoc.
  - exfalso. unfold Model_save_item in Hsave.
    destruct (item_pk item) as [k|] eqn:Hk.
    + assert (Hself : set_item_pk (Some k) item = item)
        by (destruct item; cbn in *; by subst).
      rewrite <- Hself, Hcols in Hsave. cbn in Hsave. by case_bool_decide.
    + by rewrite Hcols in Hsave.
Qed.

(** The values of [test_create_request_item]: five at 200.00, with a
    stray total of 1.00, are stored with the total 1000.00. *)
Lemma RequestItem_save_of_column_values_sample :
  exists db' saved row,
    RequestItem_save empty_store five_at_200 = Return (db', saved)
    /\ row ∈ request_items db'
    /\ quantity row = 5%Z
    /\ unit_price row = {| coef := 20000; exp := -2 |}
    /\ total_price row = {| coef := 100000; exp := -2 |}.
Proof.
  assert (Hq : valid_quantity (quantity five_at_200)) by (unfold valid_quantity; simpl; lia).
  assert (Hu : valid_money (unit_price five_at_200)) by (unfold valid_money; simpl; lia).
  assert (Ht : valid_money (exact_product (quantity five_at_200) (unit_price five_at_200)))
    by (unfold valid_money; simpl; lia).
  destruct (RequestItem_save_of_column_values empty_store five_at_200 eq_refl Hq Hu Ht)
    as (db' & saved & row & Hs & Hin & Hqr & Hur & Htr).
  exists db', saved, row. do 3 (split; [done|]). split; [done|].
  by rewrite Htr, Hqr, Hur.
Defined.

(** C5 fails on the code.  A unit price with a third decimal, 0.126,
    saved with the quantity 3: [save] multiplies before the columns
    round, so the row holds the unit price 0.13 and the total 0.38, for
    either engine and whatever the store, while three times 0.13 is
    0.39. *)
Theorem RequestItem_save_total_of_unrounded_price (db : Store) :
  let self := {| item_pk := None; item_purchase_request := 4; description := "Ink";
                 quantity := 3; unit_price := {| coef := 126; exp := -3 |};
                 total_price := {| coef := 0; exp := 0 |} |} in
  let row := {| item_pk := Some (next_pk db); item_purchase_request := 4;
                description := "Ink"; quantity := 3;
                unit_price := {| coef := 13; exp := -2 |};
                total_price := {| coef := 38; exp := -2 |} |} in
  RequestItem_save db self
  = Return (set_next_pk (N.succ (next_pk db))
              (set_request_items (request_items db ++ [row]) db),
            set_item_pk (Some (next_pk db))
              (set_total_price {| coef := 378; exp := -3 |} self))
  /\ Decimal_mul (Decimal_of_int (quantity row)) (unit_price row) = {| coef := 39; exp := -2 |}
  /\ total_price row ≠ Decimal_mul (Decimal_of_int (quantity row)) (unit_price row).
Proof.
  cbv zeta. split; [|split; [done|by vm_compute]].
  unfold RequestItem_save, Model_save_item. cbn [item_pk set_total_price quantity unit_price].
  unfold to_columns. by destruct (engine db).
Qed.

(** *** The rejection receiver *)

Lemma receiver_sets_rejected (db : Store) (instance : Approval) (r : PurchaseRequest) :
  action instance = ActRejected ->
  purchase_requests db !! purchase_request_id instance = Some r ->
  purchase_requests (update_purchase_request_status_on_rejection db instance true)
    !! purchase_request_id instance = Some (set_status Rejected r).
Proof.
  intros Ha Hr. unfold update_purchase_request_status_on_rejection, uuid_truthy.
  rewrite (bool_decide_eq_true_2 _ Ha). cbn [andb update_status purchase_requests
    set_purchase_requests].
  by rewrite lookup_alter_eq, Hr.
Qed.

(** The receiver leaves every other request alone. *)
Lemma receiver_other_requests (db : Store) (instance : Approval) (created : bool) (pk : uuid) :
  pk ≠ purchase_request_id instance ->
  purchase_requests (update_purchase_request_status_on_rejection db instance created) !! pk
  = purchase_requests db !! pk.
Proof.
  intros Hne. unfold update_purchase_request_status_on_rejection.
  destruct (_ && _); [|done]. cbn. by rewrite lookup_alter_ne.
Qed.

(** C2. Saving a new [Approval] whose action is rejected, be it through
    [Approval.objects.create] or through [save] on a fresh instance,
    leaves the request it belongs to with the status rejected, whatever
    the status of that request was and whatever approval levels and
    approvals the store holds; the new record is in the table. *)
Theorem rejected_approval_rejects_request (db : Store) (fields : Approval)
    (r : PurchaseRequest) :
  action fields = ActRejected ->
  purchase_requests db !! purchase_request_id fields = Some r ->
  (let '(db', saved) := Approval_objects_create db fields in
   purchase_requests db' !! purchase_request_id fields = Some (set_status Rejected r)
   /\ status (set_status Rejected r) = Rejected
   /\ saved ∈ approvals db')
  /\ (let db' := Approval_save db fields true in
      purchase_requests db' !! purchase_request_id fields = Some (set_status Rejected r)
      /\ fields ∈ approvals db').
Proof.
  intros Ha Hr. split.
  - unfold Approval_objects_create, Approval_save.
    set (self := set_approval_pk (next_pk db) fields).
    assert (Hs : action self = ActRejected) by done.
    assert (Hp : purchase_request_id self = purchase_request_id fields) by done.
    split; [|split; [done|]].
    + rewrite <- Hp. apply receiver_sets_rejected; [done|]. by rewrite Hp.
    + unfold update_purchase_request_status_on_rejection.
      destruct (_ && _); cbn; apply list_elem_of_here.
  - unfold Approval_save. split.
    + by apply receiver_sets_rejected.
    + unfold update_purchase_request_status_on_rejection.
      destruct (_ && _); cbn; apply list_elem_of_here.
Qed.

Lemma rejected_approval_rejects_request_witness :
  status <$> purchase_requests (fst (Approval_objects_create store_with_approved_request
                                       a_rejection)) !! 4%N = Some Rejected.
Proof.
  pose proof (rejected_approval_rejects_request store_with_approved_request a_rejection
                approved_request eq_refl eq_refl) as [Hc _].
  destruct (Approval_objects_create store_with_approved_request a_rejection) as [db' saved].
  destruct Hc as (Hl & _ & _). cbn [fst]. cbn in Hl. by rewrite Hl.
Defined.

End ModelsFacts.

(** ** The permission policies *)

Module PermissionsFacts.
Import Python Models Permissions Examples.

Lemma level_policy_spec (r : string) (request_user : option User) :
  let policy :=
    match request_user with
    | None => Return false
    | Some u =>
        if negb (is_authenticated u) then Return false
        else except_DoesNotExist
               (profile ← get_profile u; Return (String.eqb (role profile) r))
    end in
  (exists b, policy = Return b) /\ (policy = Return true <-> has_role request_user r).
Proof.
  unfold has_role. destruct request_user as [u|]; cbn.
  - destruct (is_authenticated u) eqn:Hauth; cbn.
    + unfold get_profile. destruct (profile u) as [p|] eqn:Hp; cbn.
      * split; [by eexists|]. split.
        -- intros [= Heq]. apply String.eqb_eq in Heq. by exists u, p.
        -- intros (u' & p' & [= <-] & _ & Hp' & Hr). rewrite Hp in Hp'.
           injection Hp' as <-. f_equal. by apply String.eqb_eq.
      * split; [by eexists|]. split; [done|].
        intros (u' & p' & [= <-] & _ & Hp' & _). congruence.
    + split; [by eexists|]. split; [done|].
      intros (u' & p' & [= <-] & Ha & _). congruence.
  - split; [by eexists|]. split; [done|]. intros (u' & p' & [=] & _).
Qed.

(** C6. Each of the two level policies returns a verdict for every
    caller (no exception escapes), grants exactly when the caller is
    authenticated and has a profile with that very role, refuses a
    superuser whose profile has another role and refuses a caller who has
    no profile. *)
Theorem approver_level_policies (request_user : option User) :
  ((exists b, IsApproverLevel1_has_permission request_user = Return b)
   /\ (IsApproverLevel1_has_permission request_user = Return true
       <-> has_role request_user "approver_level_1"))
  /\ ((exists b, IsApproverLevel2_has_permission request_user = Return b)
      /\ (IsApproverLevel2_has_permission request_user = Return true
          <-> has_role request_user "approver_level_2"))
  /\ (forall u p, request_user = Some u -> is_superuser u = true -> profile u = Some p ->
        (role p ≠ "approver_level_1" ->
         IsApproverLevel1_has_permission request_user = Return false)
        /\ (role p ≠ "approver_level_2" ->
            IsApproverLevel2_has_permission request_user = Return false))
  /\ (forall u, request_user = Some u -> profile u = None ->
        IsApproverLevel1_has_permission request_user = Return false
        /\ IsApproverLevel2_has_permission request_user = Return false).
Proof.
  pose proof (level_policy_spec "approver_level_1" request_user) as H1.
  pose proof (level_policy_spec "approver_level_2" request_user) as H2.
  cbv zeta in H1, H2.
  change (match request_user with
          | Some u => _
          | None => Return false
          end) with (IsApproverLevel1_has_permission request_user) in H1.
  change (match request_user with
          | Some u => _
          | None => Return false
          end) with (IsApproverLevel2_has_permission request_user) in H2.
  split; [exact H1|]. split; [exact H2|].
  destruct H1 as [[b1 Hb1] Hi1], H2 as [[b2 Hb2] Hi2]. split.
  - intros u p -> Hs Hp. split; intros Hr.
    + destruct b1; [|done]. apply Hi1 in Hb1 as (u' & p' & [= <-] & _ & Hp' & Hr').
      congruence.
    + destruct b2; [|done]. apply Hi2 in Hb2 as (u' & p' & [= <-] & _ & Hp' & Hr').
      congruence.
  - intros u -> Hp. split.
    + destruct b1; [|done]. apply Hi1 in Hb1 as (u' & p' & [= <-] & _ & Hp' & _).
      congruence.
    + destruct b2; [|done]. apply Hi2 in Hb2 as (u' & p' & [= <-] & _ & Hp' & _).
      congruence.
Qed.

Lemma approver_level_policies_witness :
  IsApprover_has_permission (Some superuser_staff) = Return true
  /\ IsApproverLevel1_has_permission (Some superuser_staff) = Return false
  /\ IsApproverLevel2_has_permission (Some superuser_staff) = Return false.
Proof.
  destruct (approver_level_policies (Some superuser_staff)) as (_ & _ & Hsuper & _).
  destruct (Hsuper superuser_staff {| role := "staff" |} eq_refl eq_refl eq_refl) as [H1 H2].
  split; [reflexivity|]. split; [apply H1 | apply H2]; discriminate.
Defined.

End PermissionsFacts.

(** ** The serializers *)

Module SerializersFacts.
Import Python Models Serializers PythonFacts Examples.

(** *** Proforma validation *)

Section ProformaValidation.
Context `{Builtins}.

Lemma validate_proforma_cases (settings : Settings) (f : UploadedFile) :
  name f ≠ "" ->
  validate_proforma settings (Some f) =
    if (size f >? MAX_UPLOAD_SIZE settings)%Z
    then Raise (ValidationError [("proforma", msg_size)])
    else if bool_decide (lower (extension f) ∈ ALLOWED_FILE_TYPES settings)
         then Return (Some f)
         else Raise (ValidationError [("proforma", msg_type)]).
Proof.
  intros Hn. unfold validate_proforma, file_truthy, extension.
  assert (String.eqb (name f) "" = false) as -> by by apply String.eqb_neq.
  cbn [negb]. destruct (size f >? _)%Z; [done|].
  case_bool_decide as Hin; case_bool_decide as Hin'; done.
Qed.

(** In an allow-list written in lower case, looking up the lowercased
    extension is a comparison that ignores case. *)
Lemma lowercase_allow_list (allowed : list string) (ext : string) :
  is_ascii ext = true ->
  Forall (fun a => lower a = a) allowed ->
  lower ext ∈ allowed <-> exists a, a ∈ allowed /\ lower a = lower ext.
Proof.
  intros Hext Hl. split.
  - intros Hin. exists (lower ext). split; [done|]. by apply lower_idemp_ascii.
  - intros (a & Hin & Ha). rewrite Forall_forall in Hl.
    rewrite <- Ha, (Hl a Hin). done.
Qed.

(** The size test and the look-up, for every configuration and every
    named file: a file no larger than the maximum whose lowercased
    extension is an entry of the allow-list is accepted, the size being
    the maximum included; a file above the maximum, one byte over
    included, is refused with the size message; a file within the size
    whose lowercased extension is not an entry is refused with the type
    message. *)
Lemma validate_proforma_boundaries (settings : Settings) (f : UploadedFile) :
  name f ≠ "" ->
  let listed := lower (extension f) ∈ ALLOWED_FILE_TYPES settings in
  ((size f <= MAX_UPLOAD_SIZE settings)%Z -> listed ->
     validate_proforma settings (Some f) = Return (Some f))
  /\ ((MAX_UPLOAD_SIZE settings < size f)%Z ->
      validate_proforma settings (Some f) = Raise (ValidationError [("proforma", msg_size)]))
  /\ ((size f <= MAX_UPLOAD_SIZE settings)%Z -> ~ listed ->
      validate_proforma settings (Some f) = Raise (ValidationError [("proforma", msg_type)])).
Proof.
  intros Hn listed. rewrite (validate_proforma_cases settings f Hn).
  repeat split.
  - intros Hs Hl. destruct (Z.gtb_spec (size f) (MAX_UPLOAD_SIZE settings)); [lia|].
    by rewrite bool_decide_eq_true_2.
  - intros Hs. destruct (Z.gtb_spec (size f) (MAX_UPLOAD_SIZE settings)); [done|lia].
  - intros Hs Hl. destruct (Z.gtb_spec (size f) (MAX_UPLOAD_SIZE settings)); [lia|].
    by rewrite bool_decide_eq_false_2.
Qed.

(** With the default settings [invoice.PDF] passes at 10485760 bytes and
    fails at 10485761. *)
Lemma validate_proforma_default_settings :
  validate_proforma default_settings (Some (invoice_PDF 10485760))
    = Return (Some (invoice_PDF 10485760))
  /\ validate_proforma default_settings (Some (invoice_PDF 10485761))
     = Raise (ValidationError [("proforma", msg_size)]).
Proof.
  split.
  - destruct (validate_proforma_boundaries default_settings (invoice_PDF 10485760))
      as (Hok & _); [discriminate|].
    apply Hok; [simpl; lia|]. vm_compute. apply list_elem_of_here.
  - destruct (validate_proforma_boundaries default_settings (invoice_PDF 10485761))
      as (_ & Hbig & _); [discriminate|].
    apply Hbig. simpl. lia.
Qed.

(** C7 fails on the code.  The validator lowercases the extension of
    the file and looks it up among the entries as they are configured.
    With the default allow-list the one-byte file [invoice.PDF] is
    accepted; with the allow-list [PDF], where its extension is an entry
    letter for letter, the same file is refused with the type message. *)
Theorem validate_proforma_uppercase_allow_list :
  validate_proforma default_settings (Some (invoice_PDF 1)) = Return (Some (invoice_PDF 1))
  /\ extension (invoice_PDF 1) ∈ ALLOWED_FILE_TYPES uppercase_settings
  /\ (size (invoice_PDF 1) <= MAX_UPLOAD_SIZE uppercase_settings)%Z
  /\ validate_proforma uppercase_settings (Some (invoice_PDF 1))
     = Raise (ValidationError [("proforma", msg_type)]).
Proof.
  split; [reflexivity|].
  split; [vm_compute; apply list_elem_of_here|]. split; [simpl; lia|]. reflexivity.
Qed.

End ProformaValidation.

(** *** The [items] field *)

Section WithBuiltins.
Context `{Builtins}.

Lemma field_errors_key {A} (field : string) (r : result A) (k m : string) :
  (k, m) ∈ field_errors field r -> k = field.
Proof.
  destruct r as [a|e]; cbn; [by intros ?%elem_of_nil|].
  destruct e; cbn; try (intros ?%list_elem_of_singleton; congruence).
  intros ([k' m'] & [= -> ->] & _)%list_elem_of_fmap. done.
Qed.

(** A text that [json.loads] refuses is refused by the field itself. *)
Lemma ItemsField_refuses_bad_json (s : string) :
  json_loads s = Raise JSONDecodeError ->
  ItemsField_to_internal_value (JStr s) = Raise (ValidationError [("items", msg_items_json)]).
Proof. intros Hs. unfold ItemsField_to_internal_value. by rewrite Hs. Qed.

Lemma create_succeeds_without_items (db : Store) (user : User) (v : ValidatedData)
    (rt : uuid) :
  v_request_type_id v = Some rt -> is_Some (request_types db !! rt) ->
  v_items v = Some [] ->
  exists db' pk, create db user v = Return (db', pk)
    /\ request_items db' = request_items db
    /\ is_Some (purchase_requests db' !! pk).
Proof.
  intros Hrt [t Ht] Hi. unfold create. rewrite Hrt, Hi. cbn. rewrite Ht. cbn.
  eexists _, _. split; [done|]. split; [done|].
  cbn [purchase_requests set_next_pk set_purchase_requests].
  rewrite lookup_insert_eq. by eexists.
Qed.

(** C9. When the [items] entry of a creation payload is a text that is
    not valid JSON, the payload is validated as if the entry were the
    empty list: the errors, if there are any, do not mention [items]; if
    there are none, the validated items are the empty list and [create]
    stores the request without adding a single [RequestItem] row. *)
Theorem invalid_items_json_is_empty_list (settings : Settings) (db : Store) (user : User)
    (data : RequestData) (s : string) :
  data_items data = Some (JStr s) ->
  json_loads s = Raise JSONDecodeError ->
  create_to_internal_value settings db data
    = create_fields_to_internal_value settings db (set_data_items (JList []) data)
  /\ (forall e, create_to_internal_value settings db data = Raise e ->
        exists detail, e = ValidationError detail /\ forall m, ("items", m) ∉ detail)
  /\ (forall validated_data,
        create_to_internal_value settings db data = Return validated_data ->
        v_items validated_data = Some []
        /\ exists db' pk, create db user validated_data = Return (db', pk)
             /\ request_items db' = request_items db
             /\ is_Some (purchase_requests db' !! pk)).
Proof.
  intros Hd Hs.
  assert (Hstep : create_to_internal_value settings db data
    = create_fields_to_internal_value settings db (set_data_items (JList []) data)).
  { unfold create_to_internal_value, parse_items_before_validation.
    by rewrite Hd, (ItemsField_refuses_bad_json s Hs). }
  split; [done|]. rewrite Hstep. unfold create_fields_to_internal_value.
  cbn [data_items set_data_items data_title data_amount data_request_type_id
       data_proforma items_run_validation ItemsField_to_internal_value].
  set (rt := match data_request_type_id data with
             | Some r => _
             | None => _
             end).
  set (pf := match data_proforma data with
             | Some r => _
             | None => _
             end).
  cbn [mbind result_bind field_errors mret result_ret].
  rewrite app_nil_r. split.
  - intros e He.
    match type of He with context [ValidationError ?d] => exists d end. split.
    + clearbody rt pf.
      destruct (data_title data), (data_amount data), rt, pf; try done;
        by injection He as <-.
    + intros m Hm.
      repeat (apply elem_of_app in Hm as [Hm|Hm]);
        apply field_errors_key in Hm; discriminate.
  - intros v Hv.
    destruct (data_title data) as [t|]; [|done].
    destruct (data_amount data) as [a|]; [|done].
    destruct rt as [rtv|] eqn:Hrt; [|done].
    destruct pf as [p|]; [|done].
    injection Hv as <-. split; [done|].
    apply (create_succeeds_without_items db user _ rtv); [done| |done].
    subst rt. destruct (data_request_type_id data) as [[u|e]|]; try done.
    cbn in Hrt. unfold validate_request_type_id, get_active_request_type in Hrt.
    destruct (request_types db !! u) as [t'|] eqn:Ht'; [|done].
    destruct (is_active t'); [|done]. cbn in Hrt. injection Hrt as <-. by eexists.
Qed.

End WithBuiltins.

(** A creation payload whose items read [not json] is valid, and the
    request is created without items. *)
Lemma invalid_items_json_is_empty_list_witness :
  exists validated_data db' pk,
    @create_to_internal_value sample_builtins default_settings store_with_pending_request
      (payload_with_items (JStr "not json")) = Return validated_data
    /\ v_items validated_data = Some []
    /\ @create sample_builtins store_with_pending_request staff_user validated_data
       = Return (db', pk)
    /\ request_items db' = [].
Proof.
  destruct (@invalid_items_json_is_empty_list sample_builtins default_settings
              store_with_pending_request staff_user
              (payload_with_items (JStr "not json")) "not json" eq_refl eq_refl)
    as (_ & _ & Hvalid).
  destruct (Hvalid _ eq_refl) as (Hitems & db' & pk & Hcreate & Hrows & _).
  eexists _, db', pk. split; [reflexivity|]. split; [exact Hitems|].
  split; [exact Hcreate | exact Hrows].
Defined.

(** *** Items on update *)

Section ItemsOnUpdate.
Context `{Builtins}.

(** What one call of [RequestItem.objects.create] within a [try] leaves
    in the table. *)
Lemma create_request_item_rows (db : Store) (pk : uuid) (description : string) (q : Z)
    (u : float) (d : Decimal) :
  Decimal_of_float u = Some d ->
  request_items match create_request_item db pk description q u with
                | Return db' => db'
                | Raise _ => db
                end
  = request_items db ++ new_rows db pk description q d.
Proof.
  intros Hd. unfold create_request_item, RequestItem_objects_create, RequestItem_save,
    Model_save_item, new_rows.
  rewrite Hd. cbn [of_option mbind result_bind item_pk set_item_pk set_total_price
    item_purchase_request Models.description quantity unit_price total_price].
  destruct (to_columns _ _) as [row|e]; cbn; [done|by rewrite app_nil_r].
Qed.

(** C4 fails on the code.  For an item whose description is the empty
    string and whose quantity and unit price convert, the loop of
    [PurchaseRequestCreateSerializer.create] adds nothing, while
    [PurchaseRequestUpdateSerializer.update] replaces the items of the
    request by the row that [RequestItem.objects.create] writes for the
    empty description. *)
Theorem update_stores_item_without_description (db : Store) (pk : uuid)
    (instance : PurchaseRequest) (validated_data : ValidatedData)
    (item : list (string * json)) (q : Z) (u : float) (d : Decimal) :
  v_request_type_id validated_data = None ->
  v_items validated_data = Some [JDict item] ->
  dict_get item "description" (JStr "") = JStr "" ->
  py_int (dict_get item "quantity" (JInt 1)) = Return q ->
  py_float (dict_get item "unit_price" (JInt 0)) = Return u ->
  Decimal_of_float u = Some d ->
  foldl (create_one_item pk) db [JDict item] = db
  /\ (exists db', Serializers.update db pk instance validated_data = Return db'
       /\ request_items db'
          = filter (fun r => item_purchase_request r ≠ pk) (request_items db)
            ++ new_rows db pk "" q d)
  /\ Forall (fun row => description row = "" /\ item_purchase_request row = pk)
       (new_rows db pk "" q d).
Proof.
  intros Hrt Hitems Hdesc Hq Hu Hd. split; [|split].
  - cbn. unfold create_one_item. rewrite Hdesc, Hq, Hu. done.
  - unfold Serializers.update. rewrite Hrt, Hitems. cbn [mbind result_bind foldl].
    unfold update_one_item. rewrite Hdesc, Hq, Hu. cbn [mbind result_bind py_str].
    eexists. split; [done|].
    match goal with
    | |- context [create_request_item ?db0 pk "" q u] =>
        rewrite (create_request_item_rows db0 pk "" q u d Hd)
    end.
    done.
  - unfold new_rows. destruct (to_columns _ _) as [row|e] eqn:Hrow; [|done].
    apply Forall_singleton. by apply ModelsFacts.to_columns_description in Hrow.
Qed.

End ItemsOnUpdate.

(** The nameless item, sent as the whole list of an update of request 4. *)
Lemma update_stores_item_without_description_witness :
  foldl (@create_one_item sample_builtins 4%N) store_with_pending_request
        [JDict nameless_item] = store_with_pending_request
  /\ exists db',
       @Serializers.update sample_builtins store_with_pending_request 4%N pending_request
         {| v_title := "Test Request"; v_amount := {| coef := 100000; exp := -2 |};
            v_request_type_id := None; v_proforma := None;
            v_items := Some [JDict nameless_item] |} = Return db'
       /\ request_items db'
          = [ {| item_pk := Some 30%N; item_purchase_request := 4; description := "";
                 quantity := 1; unit_price := {| coef := 500; exp := -2 |};
                 total_price := {| coef := 500; exp := -2 |} |} ].
Proof.
  destruct (@update_stores_item_without_description sample_builtins
              store_with_pending_request 4%N pending_request
              {| v_title := "Test Request"; v_amount := {| coef := 100000; exp := -2 |};
                 v_request_type_id := None; v_proforma := None;
                 v_items := Some [JDict nameless_item] |}
              nameless_item 1%Z (S754_finite false 5629499534213120 (-50))
              {| coef := 50; exp := -1 |}
              eq_refl eq_refl eq_refl eq_refl eq_refl eq_refl) as (Hcreate & Hupdate & _).
  split; [exact Hcreate | exact Hupdate].
Defined.

End SerializersFacts.

(** ** Receipt validation *)

Module DocumentProcessingFacts.
Import Python Models DocumentProcessing Examples.

Section WithBuiltins.
Context `{Builtins}.

Lemma match_receipt_item_not_total (po_item : RequestItem) (receipt_items : list json)
    (ds : list Discrepancy) :
  match_receipt_item po_item receipt_items = Return (Some ds) ->
  filter (fun d => is_total_level d = true) ds = [].
Proof.
  induction receipt_items as [|receipt_item rest IH]; cbn; [done|].
  destruct (item_get receipt_item "description" (JStr "")) as [v|]; cbn; [|done].
  destruct (py_lower v) as [d|]; cbn; [|done].
  destruct (is_substring _ d); [|exact IH].
  destruct (item_get receipt_item "quantity" (JInt 0)) as [qv|]; cbn; [|done].
  destruct (py_float qv) as [rq|]; cbn; [|done].
  destruct (item_get receipt_item "unit_price" (JInt 0)) as [pv|]; cbn; [|done].
  destruct (py_float pv) as [rp|]; cbn; [|done].
  destruct (float_of_int (quantity po_item)) as [pq|]; cbn; [|done].
  destruct (float_of_Decimal (unit_price po_item)) as [pp|]; cbn; [|done].
  intros [= <-].
  by destruct (differs_by_more_than rq pq tolerance),
              (differs_by_more_than rp pp tolerance).
Qed.

Lemma compare_items_not_total (po_items : list RequestItem) (receipt_items : list json) :
  forall ds, compare_items po_items receipt_items = Return ds ->
  filter (fun d => is_total_level d = true) ds = [].
Proof.
  induction po_items as [|po_item rest IH]; cbn; intros ds.
  - by intros [= <-].
  - destruct (match_receipt_item po_item receipt_items) as [found|] eqn:Hf; cbn; [|done].
    destruct (compare_items rest receipt_items) as [more|]; cbn; [|done].
    intros [= <-]. rewrite filter_app, (IH more eq_refl), app_nil_r.
    destruct found as [ds'|]; [|done]. by apply match_receipt_item_not_total in Hf.
Qed.

(** Whenever the comparison runs to its end, its total-level records
    are the single one made when the float difference of the two totals
    exceeds the float [0.01], and none otherwise. *)
Lemma total_level_records (receipt_data : json) (po_items : list RequestItem)
    (amount : Decimal) (ds : list Discrepancy) :
  compare_receipt receipt_data po_items amount = Return ds ->
  exists receipt_total po_total,
    (total ← item_get receipt_data "total" (JInt 0); py_float total) = Return receipt_total
    /\ float_of_Decimal amount = Some po_total
    /\ filter (fun d => is_total_level d = true) ds
       = if differs_by_more_than receipt_total po_total tolerance
         then [TotalAmountMismatch po_total receipt_total] else [].
Proof.
  unfold compare_receipt.
  destruct (item_get receipt_data "items" (JList [])) as [iv|]; cbn; [|done].
  destruct (py_iter iv) as [receipt_items|]; cbn; [|done].
  destruct (item_get receipt_data "total" (JInt 0)) as [tv|]; cbn; [|done].
  destruct (py_float tv) as [receipt_total|]; cbn; [|done].
  destruct (float_of_Decimal amount) as [po_total|]; cbn; [|done].
  destruct (compare_items po_items receipt_items) as [items|] eqn:Hi; cbn; [|done].
  intros [= <-]. exists receipt_total, po_total. split; [done|]. split; [done|].
  rewrite !filter_app, (compare_items_not_total _ _ _ Hi), app_nil_r.
  case_bool_decide; destruct (differs_by_more_than _ _ _); done.
Qed.

(** C8 fails on the code.  The request amounts to 100.00 and the receipt
    total reads 100.01, one cent apart; in binary64 the difference of the
    two floats is above the float [0.01], and [validate_receipt] reports
    a total-level [price_mismatch]. *)
Theorem one_cent_apart_is_reported :
  float_of_Decimal {| coef := 10001; exp := -2 |} = Some float_100_01
  /\ float_of_Decimal {| coef := 10000; exp := -2 |} = Some float_100
  /\ float_of_Decimal {| coef := 1; exp := -2 |} = Some tolerance
  /\ float_sub float_100_01 float_100 = S754_finite false 5764607523037184 (-59)
  /\ validate_receipt receipt_100_01 [] {| coef := 10000; exp := -2 |}
     = {| valid := false; discrepancies := [TotalAmountMismatch float_100 float_100_01] |}.
Proof. repeat split; vm_compute; reflexivity. Qed.

End WithBuiltins.

End DocumentProcessingFacts.

(** ** The purchase-request views *)

Module ViewsFacts.
Import Python Models Serializers Views Examples.

(** *** Updating a request in a final status *)

Section Update.
Context `{Builtins}.

Lemma update_to_internal_value_raises (data : RequestData) (e : exn) :
  update_to_internal_value data = Raise e -> exists detail, e = ValidationError detail.
Proof.
  unfold update_to_internal_value, update_fields_to_internal_value.
  set (d := match data_items data with
            | Some items_value => _
            | None => data
            end).
  clearbody d.
  destruct (data_title d), (data_amount d),
    (match data_request_type_id d with Some r => _ | None => _ end),
    (match data_proforma d with Some r => _ | None => _ end),
    (items_run_validation (data_items d)); try done; intros [= <-]; by eexists.
Qed.

Lemma final_status_not_editable (r : PurchaseRequest) :
  is_final_status r = true -> can_be_edited r = false.
Proof.
  unfold is_final_status, can_be_edited. by destruct (status r).
Qed.

(** C3 fails on the code in its second half.  Whoever the caller is,
    superuser or not, an update of a request in a final status is
    answered with a 4xx code and changes nothing; a superuser, whom the
    view lets pass, is stopped with 400 by the [validate] of the
    serializer. *)
Theorem update_of_final_status_refused (db : Store) (request : Request) (data : RequestData)
    (pk : uuid) (r : PurchaseRequest) :
  purchase_requests db !! pk = Some r -> is_final_status r = true ->
  (400 <= status_code (fst (Views.update db request data pk)) < 500)%Z
  /\ snd (Views.update db request data pk) = db
  /\ (is_superuser (user request) = true -> in_queryset request r = true ->
      status_code (fst (Views.update db request data pk)) = HTTP_400_BAD_REQUEST).
Proof.
  intros Hr Hfinal. pose proof (final_status_not_editable r Hfinal) as Hedit.
  unfold Views.update, get_object, permission_denied. rewrite Hr.
  cbn [IsAuthenticated_has_permission].
  destruct (is_authenticated (user request)) eqn:Hauth; cbn [negb].
  2:{ cbn. repeat split; try done. intros _. unfold in_queryset. by rewrite Hauth. }
  destruct (in_queryset request r); [|by cbn].
  destruct (is_superuser (user request)); cbn [negb andb].
  - unfold update_run_validation.
    destruct (update_to_internal_value data) as [attrs|e] eqn:Hv; cbn.
    + rewrite Hedit. by cbn.
    + apply update_to_internal_value_raises in Hv as [detail ->]. by cbn.
  - case_bool_decide; [by cbn|]. rewrite Hedit. by cbn.
Qed.

End Update.

(** A superuser sends a well-formed update of the approved request 4:
    the answer is the 400 of the serializer, the store is unchanged. *)
Lemma update_of_final_status_refused_witness :
  is_superuser admin_user = true
  /\ @Views.update sample_builtins store_with_approved_request (request_of admin_user)
       plain_payload 4%N
     = ({| body := ValidationBody [("non_field_errors", msg_not_editable)];
           status_code := HTTP_400_BAD_REQUEST |},
        store_with_approved_request)
  /\ status_code (fst (@Views.update sample_builtins store_with_approved_request
                         (request_of admin_user) plain_payload 4%N)) = HTTP_400_BAD_REQUEST.
Proof.
  destruct (@update_of_final_status_refused sample_builtins store_with_approved_request
              (request_of admin_user) plain_payload 4%N approved_request eq_refl eq_refl)
    as (_ & _ & Hsuper).
  split; [reflexivity|]. split; [reflexivity|]. exact (Hsuper eq_refl eq_refl).
Defined.


(** *** The level a decision is recorded at *)

Lemma insert_by_level_number_elem (l x : ApprovalLevel) (sorted : list ApprovalLevel) :
  x ∈ insert_by_level_number l sorted <-> x = l \/ x ∈ sorted.
Proof.
  induction sorted as [|y rest IH]; cbn.
  - rewrite list_elem_of_singleton, elem_of_nil. tauto.
  - destruct (level_number l <? level_number y)%N.
    + by rewrite elem_of_cons.
    + rewrite !elem_of_cons, IH. tauto.
Qed.

Lemma insert_by_level_number_sorted (l : ApprovalLevel) (sorted : list ApprovalLevel) :
  StronglySorted level_le sorted ->
  StronglySorted level_le (insert_by_level_number l sorted).
Proof.
  induction 1 as [|y rest Hs IH Hy]; cbn.
  - by repeat constructor.
  - destruct (N.ltb_spec (level_number l) (level_number y)) as [Hlt|Hge].
    + constructor; [by constructor|]. constructor; [unfold level_le; lia|].
      eapply Forall_impl; [exact Hy|]. unfold level_le. intros z Hz. cbn in Hz. lia.
    + constructor; [done|]. apply Forall_forall. intros z Hz.
      apply insert_by_level_number_elem in Hz as [->|Hz]; [done|].
      rewrite Forall_forall in Hy. by apply Hy.
Qed.

Lemma order_by_level_number_elem (x : ApprovalLevel) (levels : list ApprovalLevel) :
  x ∈ order_by_level_number levels <-> x ∈ levels.
Proof.
  induction levels as [|l rest IH]; cbn; [done|].
  by rewrite insert_by_level_number_elem, elem_of_cons, IH.
Qed.

Lemma order_by_level_number_sorted (levels : list ApprovalLevel) :
  StronglySorted level_le (order_by_level_number levels).
Proof.
  induction levels as [|l rest IH]; cbn; [constructor|].
  by apply insert_by_level_number_sorted.
Qed.

Lemma required_levels_of_elem (db : Store) (t : uuid) (x : ApprovalLevel) :
  x ∈ required_levels_of db t
  <-> x ∈ approval_levels db /\ level_request_type x = t /\ is_required x = true.
Proof.
  unfold required_levels_of. rewrite order_by_level_number_elem, list_elem_of_filter. tauto.
Qed.

(** In a list sorted by level number the loop stops at a level of the
    wanted role that no other level of that role precedes in number. *)
Lemma find_level_for_role_lowest (levels : list ApprovalLevel) (r : string)
    (x : ApprovalLevel) :
  StronglySorted level_le levels ->
  find_level_for_role levels r = Some x ->
  x ∈ levels /\ approver_role x = r
  /\ forall y, y ∈ levels -> approver_role y = r -> level_le x y.
Proof.
  induction 1 as [|l rest Hs IH Hl]; cbn; [done|].
  destruct (String.eqb_spec (approver_role l) r) as [Heq|Hne].
  - intros [= <-]. split; [apply list_elem_of_here|]. split; [done|].
    intros y Hy _. apply elem_of_cons in Hy as [->|Hy]; [unfold level_le; lia|].
    rewrite Forall_forall in Hl. by apply Hl.
  - intros Hf. destruct (IH Hf) as (Hin & Hr & Hmin).
    split; [by apply list_elem_of_further|]. split; [done|].
    intros y Hy Hyr. apply elem_of_cons in Hy as [->|Hy]; [done|]. by apply Hmin.
Qed.

(** What a 200 answer of the handler means. *)
Lemma approval_action_accepted (db : Store) (request : Request) (data : CommentsData)
    (now : N) (pk : uuid) (action : Action) (response : Response) (db' : Store) :
  _handle_approval_action db request data now pk action = (response, db') ->
  status_code response = HTTP_200_OK ->
  exists r level comments,
    purchase_requests db !! pk = Some r /\ status r = Pending
    /\ select_approval_level
         (if is_superuser (user request) then None else profile (user request))
         (required_levels_of db (request_type r)) = Some level
    /\ (is_superuser (user request) = false -> is_Some (profile (user request)))
    /\ approval_transaction db (user request) pk (required_levels_of db (request_type r))
         level action comments now = (response, db').
Proof.
  unfold _handle_approval_action, get_object.
  destruct (purchase_requests db !! pk) as [r|] eqn:Hr; [|by intros [= <- <-]].
  destruct (in_queryset request r); [|by intros [= <- <-]].
  unfold Permissions.get_profile.
  destruct (is_superuser (user request)) eqn:Hsuper.
  - case_bool_decide as Hst; cbn [negb]; [|by intros [= <- <-]].
    case_bool_decide as Hlv; [by intros [= <- <-]|].
    destruct (select_approval_level None _) as [level|] eqn:Hsel; [|by intros [= <- <-]].
    case_bool_decide as Hex; [by intros [= <- <-]|].
    destruct (match data with Some r0 => r0 | None => Return (Some "") end) as [c|e].
    + intros Ht Hc. exists r, level, c. by repeat split.
    + intros [= <- <-]. by destruct e.
  - destruct (profile (user request)) as [p|] eqn:Hp; cbn; [|by intros [= <- <-]].
    case_bool_decide as Hst; cbn [negb]; [|by intros [= <- <-]].
    case_bool_decide as Hlv; [by intros [= <- <-]|].
    destruct (find_level_for_role _ _) as [level|] eqn:Hsel; [|by intros [= <- <-]].
    case_bool_decide as Hex; [by intros [= <- <-]|].
    destruct (match data with Some r0 => r0 | None => Return (Some "") end) as [c|e].
    + intros Ht Hc. exists r, level, c. repeat split; try done.
    + intros [= <- <-]. by destruct e.
Qed.

(** An answer other than 200 leaves the store as it was. *)
Lemma approval_action_refused (db : Store) (request : Request) (data : CommentsData)
    (now : N) (pk : uuid) (action : Action) (response : Response) (db' : Store) :
  _handle_approval_action db request data now pk action = (response, db') ->
  status_code response ≠ HTTP_200_OK -> db' = db.
Proof.
  unfold _handle_approval_action, approval_transaction.
  repeat case_match; intros [= <- <-]; done.
Qed.

(** The receiver writes to the requests only. *)
Lemma receiver_approvals (db : Store) (instance : Approval) (created : bool) :
  approvals (update_purchase_request_status_on_rejection db instance created) = approvals db.
Proof. unfold update_purchase_request_status_on_rejection. by destruct (_ && _). Qed.

(** The table of approvals once a decision is recorded: the new record
    at its head. *)
Lemma record_decision_approvals (db : Store) (user : User) (pk : uuid)
    (level : ApprovalLevel) (action : Action) (comments : option string) (now : N) :
  exists a rest,
    approvals (record_decision db user pk level action comments now) = a :: rest
    /\ length rest = length (approvals db)
    /\ (Forall (fun x => approval_pk x ≠ next_pk db) (approvals db) -> rest = approvals db)
    /\ purchase_request_id a = pk /\ approver a = user_pk user
    /\ Models.action a = action /\ approval_level a = level_pk level.
Proof.
  unfold record_decision, Approval_objects_create, Approval_save.
  rewrite !receiver_approvals. cbn [approvals set_approvals set_next_pk map].
  cbn [approval_pk set_timestamps set_approval_pk].
  rewrite bool_decide_eq_true_2 by done.
  eexists _, _. split; [done|]. split; [by rewrite length_map|]. split; [|done].
  intros Hfresh. induction (approvals db) as [|x l IH]; [done|].
  apply Forall_cons in Hfresh as [Hx Hl]. cbn. rewrite bool_decide_eq_false_2 by done.
  f_equal. by apply IH.
Qed.

Lemma approval_transaction_approvals (db : Store) (user : User) (pk : uuid)
    (levels : list ApprovalLevel) (level : ApprovalLevel) (action : Action)
    (comments : option string) (now : N) (response : Response) (db' : Store) :
  approval_transaction db user pk levels level action comments now = (response, db') ->
  status_code response = HTTP_200_OK ->
  approvals db' = approvals (record_decision db user pk level action comments now).
Proof.
  unfold approval_transaction.
  destruct (purchase_requests db !! pk) as [r|]; [|by intros [= <- <-]].
  case_bool_decide; cbn [negb]; [|by intros [= <- <-]].
  intros [= _ <-] _.
  case_bool_decide; [done|]. by destruct (_ <=? _)%nat.
Qed.

(** The loop finds a level whenever the list has one of the role. *)
Lemma find_level_for_role_is_Some (levels : list ApprovalLevel) (r : string)
    (l : ApprovalLevel) :
  l ∈ levels -> approver_role l = r -> is_Some (find_level_for_role levels r).
Proof.
  induction levels as [|x rest IH]; cbn; [by intros ?%elem_of_nil|].
  intros Hl Hr. destruct (String.eqb_spec (approver_role x) r) as [Heq|Hne]; [by eexists|].
  apply elem_of_cons in Hl as [->|Hl]; [done|]. by apply IH.
Qed.

(** C10. When a caller who is not a superuser gets a 200 answer from the
    approve or reject action, the decision is the new head of the
    approvals table and names a required level of the type of the
    request whose role is the role of the caller and whose number is the
    lowest among the required levels of that type with that role; any
    other answer leaves the store unchanged.  So no decision of such a
    caller is ever recorded at a higher-numbered level of the same role.
    And the scan does reach that level: for a pending request that the
    caller can see, when some required level of its type has the role
    of the caller and the comments are valid, the answer is 200, unless
    the caller has a decision on the request at the lowest-numbered
    level of that role already. *)
Theorem decision_recorded_at_lowest_level_of_role (db : Store) (request : Request)
    (data : CommentsData) (now : N) (pk : uuid) (action : Action) (p : UserProfile)
    (response : Response) (db' : Store) :
  is_superuser (user request) = false ->
  profile (user request) = Some p ->
  _handle_approval_action db request data now pk action = (response, db') ->
  ((status_code response ≠ HTTP_200_OK /\ db' = db)
   \/ (status_code response = HTTP_200_OK
       /\ exists r level a rest,
            purchase_requests db !! pk = Some r
            /\ level ∈ approval_levels db
            /\ level_request_type level = request_type r /\ is_required level = true
            /\ approver_role level = role p
            /\ (forall l, l ∈ approval_levels db -> level_request_type l = request_type r ->
                  is_required l = true -> approver_role l = role p ->
                  (level_number level <= level_number l)%N)
            /\ approvals db' = a :: rest /\ length rest = length (approvals db)
            /\ purchase_request_id a = pk /\ approver a = user_pk (user request)
            /\ Models.action a = action /\ approval_level a = level_pk level))
  /\ (forall r l comments,
        get_object db request pk = Some r -> status r = Pending ->
        l ∈ approval_levels db -> level_request_type l = request_type r ->
        is_required l = true -> approver_role l = role p ->
        match data with Some c => c | None => Return (Some "") end = Return comments ->
        status_code response = HTTP_200_OK
        \/ (response = error "You have already provided approval for this request at this level."
                         HTTP_400_BAD_REQUEST
            /\ exists level a,
                 level ∈ approval_levels db
                 /\ level_request_type level = request_type r /\ is_required level = true
                 /\ approver_role level = role p
                 /\ (forall l', l' ∈ approval_levels db ->
                       level_request_type l' = request_type r ->
                       is_required l' = true -> approver_role l' = role p ->
                       (level_number level <= level_number l')%N)
                 /\ a ∈ approvals db /\ purchase_request_id a = pk
                 /\ approval_level a = level_pk level
                 /\ approver a = user_pk (user request))).
Proof.
  intros Hsuper Hp Hrun. split.
  - destruct (decide (status_code response = HTTP_200_OK)) as [Hok|Hno].
    + right. split; [done|].
      destruct (approval_action_accepted _ _ _ _ _ _ _ _ Hrun Hok)
        as (r & level & c & Hr & _ & Hsel & _ & Htx).
      rewrite Hsuper, Hp in Hsel. cbn in Hsel.
      destruct (find_level_for_role_lowest _ _ _
                  (order_by_level_number_sorted _) Hsel) as (Hin & Hrole & Hmin).
      apply required_levels_of_elem in Hin as (Hin & Hty & Hreq).
      destruct (record_decision_approvals db (user request) pk level action c now)
        as (a & rest & Happ & Hlen & _ & Hfields).
      exists r, level, a, rest. split; [done|]. repeat (split; [done|]).
      split.
      { intros l Hl Hlt Hlr Hlrole. apply Hmin; [|done].
        by apply required_levels_of_elem. }
      rewrite (approval_transaction_approvals _ _ _ _ _ _ _ _ _ _ Htx Hok).
      by split.
    + left. split; [done|]. by eapply approval_action_refused.
  - intros r l c Hobj Hst Hl Hty Hreq Hrole Hc.
    assert (Hin : l ∈ required_levels_of db (request_type r))
      by by apply required_levels_of_elem.
    destruct (find_level_for_role_is_Some _ _ _ Hin Hrole) as [level Hsel].
    destruct (find_level_for_role_lowest _ _ _
                (order_by_level_number_sorted _) Hsel) as (Hlin & Hlrole & Hmin).
    apply required_levels_of_elem in Hlin as (Hlin & Hlty & Hlreq).
    assert (Hr : purchase_requests db !! pk = Some r).
    { unfold get_object in Hobj. destruct (purchase_requests db !! pk) as [r'|]; [|done].
      by destruct (in_queryset request r'); [injection Hobj as ->|]. }
    unfold _handle_approval_action in Hrun.
    rewrite Hobj, Hsuper in Hrun. unfold Permissions.get_profile in Hrun.
    rewrite Hp in Hrun. cbn [mbind result_bind of_option mret result_ret] in Hrun.
    rewrite (bool_decide_eq_true_2 _ Hst) in Hrun. cbn [negb] in Hrun.
    rewrite bool_decide_eq_false_2 in Hrun by (intros Hnil; rewrite Hnil in Hin;
      by apply elem_of_nil in Hin).
    cbn [select_approval_level] in Hrun. rewrite Hsel, Hc in Hrun.
    destruct (filter _ (approvals db)) as [|a rest] eqn:Hfil.
    + left. rewrite bool_decide_eq_false_2 in Hrun by (cbn; by intros [? ?]).
      unfold approval_transaction in Hrun. rewrite Hr in Hrun.
      rewrite (bool_decide_eq_true_2 _ Hst) in Hrun. cbn [negb] in Hrun.
      by injection Hrun as <- _.
    + right. rewrite bool_decide_eq_true_2 in Hrun by (cbn; by eexists).
      injection Hrun as <- <-. split; [done|].
      assert (Ha : a ∈ filter (fun a => purchase_request_id a = pk
                                        /\ approval_level a = level_pk level
                                        /\ approver a = user_pk (user request))
                         (approvals db)) by (rewrite Hfil; apply list_elem_of_here).
      apply list_elem_of_filter in Ha as [(Hapk & Hal & Hau) Ha].
      exists level, a. repeat (split; [done|]). split; [|done].
      intros l' Hl' Hty' Hreq' Hrole'. apply Hmin; [|done].
      by apply required_levels_of_elem.
Qed.

(** On the sample store whose first level has another role and whose
    second and third levels share the role of the caller, listed with
    the third level first, the approval is answered 200 and lands on
    level 4, the one numbered 2. *)
Lemma decision_recorded_at_lowest_level_of_role_witness :
  status_code (fst (approve store_with_shared_role_above (request_of approver_1) None 100 4%N))
  = HTTP_200_OK
  /\ exists a rest,
       approvals (snd (approve store_with_shared_role_above (request_of approver_1)
                         None 100 4%N))
       = a :: rest
       /\ approval_level a = 4%N.
Proof.
  destruct (decision_recorded_at_lowest_level_of_role store_with_shared_role_above
              (request_of approver_1) None 100 4%N ActApproved
              {| role := "approver_level_1" |} _ _ eq_refl eq_refl
              (surjective_pairing _)) as [Hrecorded Hreached].
  assert (Hok : status_code (fst (approve store_with_shared_role_above
                                    (request_of approver_1) None 100 4%N)) = HTTP_200_OK).
  { destruct (Hreached pending_request
                {| level_pk := 4; level_request_type := 1; level_number := 2;
                   approver_role := "approver_level_1"; is_required := true |}
                (Some "") eq_refl eq_refl) as [Hok|[Hno _]];
      [vm_compute; do 2 apply list_elem_of_further; apply list_elem_of_here
      |done|done|done|done|exact Hok|discriminate Hno]. }
  split; [exact Hok|].
  destruct Hrecorded as [[Hno _]|[_ (r & level & a & rest & _ & _ & _ & _ & _ & _ & Happ & _)]].
  - exfalso. apply Hno. exact Hok.
  - exists a, rest. split; [exact Happ|].
    vm_compute in Happ. injection Happ as <- _. reflexivity.
Defined.

(** *** Completion of the approvals *)

Section Completion.
Context `{Builtins}.

Lemma insert_by_level_number_perm (l : ApprovalLevel) (sorted : list ApprovalLevel) :
  insert_by_level_number l sorted ≡ₚ l :: sorted.
Proof.
  induction sorted as [|x rest IH]; cbn; [done|].
  destruct (level_number l <? level_number x)%N; [done|].
  by rewrite IH, Permutation_swap.
Qed.

Lemma order_by_level_number_perm (levels : list ApprovalLevel) :
  order_by_level_number levels ≡ₚ levels.
Proof.
  induction levels as [|l rest IH]; cbn; [done|].
  by rewrite insert_by_level_number_perm, IH.
Qed.

(** Distinct keys in the table of levels are distinct keys among the
    required levels of a type. *)
Lemma required_levels_of_NoDup (db : Store) (t : uuid) :
  NoDup (map level_pk (approval_levels db)) ->
  NoDup (map level_pk (required_levels_of db t)).
Proof.
  intros Hnd. unfold required_levels_of.
  change (NoDup (level_pk <$> order_by_level_number
    (filter (fun l => level_request_type l = t /\ is_required l = true)
            (approval_levels db)))).
  rewrite order_by_level_number_perm.
  eapply sublist_NoDup; [exact Hnd|].
  apply (fmap_sublist level_pk), sublist_filter.
Qed.

Lemma select_approval_level_elem (p : option UserProfile) (levels : list ApprovalLevel)
    (level : ApprovalLevel) :
  select_approval_level p levels = Some level -> level ∈ levels.
Proof.
  destruct p as [p|]; cbn.
  - induction levels as [|l rest IH]; cbn; [done|].
    destruct (String.eqb _ _).
    + intros [= <-]. apply list_elem_of_here.
    + intros Hf. by apply list_elem_of_further, IH.
  - destruct (last levels) as [l|] eqn:Hl.
    + intros [= <-]. by apply last_Some_elem_of.
    + apply head_Some_elem_of.
Qed.

(** Recording an approval touches the approvals only. *)
Lemma record_approval_rest (db : Store) (user : User) (pk : uuid) (level : ApprovalLevel)
    (comments : option string) (now : N) :
  let db1 := record_decision db user pk level ActApproved comments now in
  purchase_requests db1 = purchase_requests db
  /\ approval_levels db1 = approval_levels db
  /\ task_queue db1 = task_queue db.
Proof. done. Qed.

(** The levels counted by [approved_levels_count]. *)
Lemma approved_level_elem (db : Store) (pk x : uuid) :
  x ∈ remove_dups (map approval_level
        (filter (fun a => purchase_request_id a = pk /\ Models.action a = ActApproved)
                (approvals db)))
  <-> exists a, a ∈ approvals db /\ purchase_request_id a = pk
                /\ approval_level a = x /\ Models.action a = ActApproved.
Proof.
  rewrite elem_of_remove_dups. split.
  - intros (a & -> & Ha)%list_elem_of_fmap. apply list_elem_of_filter in Ha as [[? ?] ?].
    by exists a.
  - intros (a & Hin & Hpk & <- & Hact). apply list_elem_of_fmap. exists a.
    split; [done|]. by apply list_elem_of_filter.
Qed.

(** The two counts agree with the claim when the approved records of the
    request all name required levels of its type and level keys are
    distinct. *)
Lemma counts_decide_completion (db : Store) (pk t : uuid) :
  NoDup (map level_pk (approval_levels db)) ->
  (forall a, a ∈ approvals db -> purchase_request_id a = pk ->
             Models.action a = ActApproved ->
             exists l, l ∈ required_levels_of db t /\ approval_level a = level_pk l) ->
  (length (required_levels_of db t) <= approved_levels_count db pk)%nat
  <-> every_required_level_approved db pk t.
Proof.
  intros Hnd Hstale. unfold approved_levels_count.
  set (A := remove_dups _).
  set (R := map level_pk (required_levels_of db t)).
  assert (HA : NoDup A) by apply NoDup_remove_dups.
  assert (HR : NoDup R) by by apply required_levels_of_NoDup.
  assert (HAR : forall x, x ∈ A -> x ∈ R).
  { intros x (a & Hin & Hpk & <- & Hact)%approved_level_elem.
    destruct (Hstale a Hin Hpk Hact) as (l & Hl & ->).
    apply list_elem_of_fmap. by exists l. }
  replace (length (required_levels_of db t)) with (length R)
    by apply length_map.
  split.
  - intros Hlen l Hl Ht Hreq.
    assert (Hperm : A ≡ₚ R)
      by (apply submseteq_length_Permutation; [by apply NoDup_submseteq|done]).
    assert (Hin : level_pk l ∈ A).
    { rewrite Hperm. apply list_elem_of_fmap. exists l. split; [done|].
      by apply required_levels_of_elem. }
    apply approved_level_elem in Hin as (a & ? & ? & ? & ?). by exists a.
  - intros Hall. apply submseteq_length, NoDup_submseteq; [done|].
    intros x (l & -> & Hl)%list_elem_of_fmap.
    apply required_levels_of_elem in Hl as (Hl & Ht & Hreq).
    destruct (Hall l Hl Ht Hreq) as (a & ? & ? & ? & ?).
    apply approved_level_elem. by exists a.
Qed.

(** A 200 answer of [approve] comes from the handler. *)
Lemma approve_accepted (db : Store) (request : Request) (data : CommentsData) (now : N)
    (pk : uuid) (response : Response) (db' : Store) :
  approve db request data now pk = (response, db') ->
  status_code response = HTTP_200_OK ->
  approver_permissions request = true
  /\ _handle_approval_action db request data now pk ActApproved = (response, db').
Proof.
  unfold approve, permission_denied. destruct (approver_permissions request); [done|].
  destruct (is_authenticated (user request)); by intros [= <- <-].
Qed.

(** Where the two counts do decide completion.  In a store whose keys
    are distinct and in which every approved record of the request names
    a required level of its type, a 200 answer of [approve] leaves the
    request approved by the caller, with the purchase order ordered,
    exactly when every required level of the type has an approved
    record, and leaves it as it was otherwise. *)
Lemma approve_completes_without_stale_approvals (db : Store) (request : Request)
    (data : CommentsData) (now : N) (pk : uuid) (r : PurchaseRequest)
    (response : Response) (db' : Store) :
  approve db request data now pk = (response, db') ->
  status_code response = HTTP_200_OK ->
  purchase_requests db !! pk = Some r ->
  NoDup (map level_pk (approval_levels db)) ->
  Forall (fun x => approval_pk x ≠ next_pk db) (approvals db) ->
  (forall a, a ∈ approvals db -> purchase_request_id a = pk ->
             Models.action a = ActApproved ->
             exists l, l ∈ required_levels_of db (request_type r)
                       /\ approval_level a = level_pk l) ->
  status r = Pending
  /\ (every_required_level_approved db' pk (request_type r) ->
      purchase_requests db' !! pk
        = Some (set_approved_by (Some (user_pk (user request))) (set_status Approved r))
      /\ task_queue db' = task_queue db ++ [generate_purchase_order_task pk])
  /\ (~ every_required_level_approved db' pk (request_type r) ->
      purchase_requests db' !! pk = Some r /\ task_queue db' = task_queue db).
Proof.
  intros Hrun Hok Hr Hnd Hfresh Hstale.
  apply approve_accepted in Hrun as [_ Hrun]; [|done].
  destruct (approval_action_accepted _ _ _ _ _ _ _ _ Hrun Hok)
    as (r0 & level & c & Hr0 & Hpending & Hsel & _ & Htx).
  rewrite Hr in Hr0. injection Hr0 as <-. split; [done|].
  apply select_approval_level_elem in Hsel.
  set (t := request_type r) in *.
  set (db1 := record_decision db (user request) pk level ActApproved c now).
  destruct (record_decision_approvals db (user request) pk level ActApproved c now)
    as (a & rest & Happ & _ & Hrest & Hapk & _ & Haact & Halevel).
  rewrite (Hrest Hfresh) in Happ. fold db1 in Happ.
  destruct (record_approval_rest db (user request) pk level c now) as (Hreqs & Hlevels & Hq).
  fold db1 in Hreqs, Hlevels, Hq.
  assert (Hsame : required_levels_of db1 t = required_levels_of db t)
    by (unfold required_levels_of; by rewrite Hlevels).
  assert (Hcount : (length (required_levels_of db t) <= approved_levels_count db1 pk)%nat
                   <-> every_required_level_approved db1 pk t).
  { rewrite <- Hsame. apply counts_decide_completion.
    - by rewrite Hlevels.
    - intros x Hx Hxpk Hxact. rewrite Hsame. rewrite Happ in Hx.
      apply elem_of_cons in Hx as [->|Hx].
      + exists level. by split.
      + by apply Hstale. }
  unfold approval_transaction in Htx. rewrite Hr, Hpending in Htx.
  rewrite bool_decide_eq_true_2 in Htx by done. cbn [negb] in Htx.
  rewrite bool_decide_eq_false_2 in Htx by done. fold db1 in Htx.
  destruct (Nat.leb_spec (length (required_levels_of db t)) (approved_levels_count db1 pk))
    as [Hle|Hgt]; injection Htx as _ <-.
  - split.
    + intros _. cbn [purchase_requests task_queue delay set_purchase_requests].
      rewrite lookup_insert_eq, Hq. done.
    + intros Hnot. exfalso. apply Hnot. apply Hcount in Hle.
      intros l Hl. apply Hle. cbn in Hl. by rewrite Hlevels.
  - split.
    + intros Hall. exfalso. apply Hcount in Hall; lia.
    + intros _. by rewrite Hreqs, Hq.
Qed.

(** C1 fails on the code.  The first level of the type 1 approves the
    request 4, which stays pending; its owner moves it to the type 20
    through the update view; the same approver approves again, now at the
    first level of the type 20.  The two records count as two approved
    levels, as many as the type 20 requires: the request is approved and
    the purchase order is ordered, while the second level of the type 20
    has no approval at all. *)
Theorem approved_with_a_required_level_missing :
  let '(response1, db1) :=
    approve store_with_pending_request (request_of approver_1) None 100 4%N in
  let '(response2, db2) := Views.update db1 (request_of staff_user) retype_payload 4%N in
  let '(response3, db3) := approve db2 (request_of approver_1) None 200 4%N in
  (status_code response1 = HTTP_200_OK
   /\ purchase_requests db1 !! 4%N = Some pending_request
   /\ task_queue db1 = [])
  /\ (status_code response2 = HTTP_200_OK
      /\ purchase_requests db2 !! 4%N = Some (set_request_type 20 pending_request)
      /\ map approval_level (approvals db2) = [2%N])
  /\ (status_code response3 = HTTP_200_OK
      /\ purchase_requests db3 !! 4%N
         = Some (set_approved_by (Some 11%N)
                   (set_status Approved (set_request_type 20 pending_request)))
      /\ task_queue db3 = [generate_purchase_order_task 4]
      /\ map approval_level (approvals db3) = [21%N; 2%N]
      /\ ~ every_required_level_approved db3 4 20).
Proof.
  vm_compute. repeat split.
  intros Hall.
  destruct (Hall {| level_pk := 22; level_request_type := 20; level_number := 2;
                    approver_role := "approver_level_2"; is_required := true |})
    as (a & Ha & _ & Hl & _); [|done|done|].
  - do 3 apply list_elem_of_further. apply list_elem_of_here.
  - apply elem_of_cons in Ha as [->|Ha]; [done|].
    apply elem_of_cons in Ha as [->|Ha]; [done|].
    by apply elem_of_nil in Ha.
Qed.

End Completion.

End ViewsFacts.

(** * Further properties *)

(** ** The role policies *)

Module RolePoliciesFacts.
Import Python Models Permissions RolePolicies Views Examples.

Lemma role_in_pair (r a b : string) :
  bool_decide (r ∈ [a; b]) = String.eqb r a || String.eqb r b.
Proof.
  destruct (String.eqb_spec r a) as [->|Ha]; cbn.
  - apply bool_decide_eq_true_2, list_elem_of_here.
  - destruct (String.eqb_spec r b) as [->|Hb].
    + apply bool_decide_eq_true_2, list_elem_of_further, list_elem_of_here.
    + apply bool_decide_eq_false_2. rewrite !elem_of_cons, elem_of_nil. tauto.
Qed.

(** X1. The two policies that name two roles grant exactly what their
    single-role policies grant together: [IsStaffOrFinance] grants when
    [IsStaff] or [IsFinance] does, and [IsApprover] grants an
    authenticated superuser and otherwise when [IsApproverLevel1] or
    [IsApproverLevel2] does. *)
Theorem composite_policies_are_unions (request_user : option User) :
  IsStaffOrFinance_has_permission request_user
  = Return (granted (IsStaff_has_permission request_user)
            || granted (IsFinance_has_permission request_user))
  /\ IsApprover_has_permission request_user
     = Return (match request_user with
               | Some u => is_authenticated u && is_superuser u
               | None => false
               end
               || granted (IsApproverLevel1_has_permission request_user)
               || granted (IsApproverLevel2_has_permission request_user)).
Proof.
  destruct request_user as [[pk auth su [[r]|]]|]; [| |done].
  - destruct auth, su; cbn; try done. by rewrite !role_in_pair.
  - by destruct auth, su.
Qed.

(** X2. No role policy lets an exception out, and none grants a caller
    who is absent or not authenticated, nor a caller who is neither a
    superuser nor the holder of a profile. *)
Theorem role_policies_answer (request_user : option User) :
  Forall (fun has_permission =>
            exists b, has_permission request_user = Return b
                      /\ (b = true ->
                          exists u, request_user = Some u /\ is_authenticated u = true
                                    /\ (is_superuser u = true \/ is_Some (profile u))))
         role_policies.
Proof.
  unfold role_policies. repeat apply Forall_cons_2; [..|apply Forall_nil_2].
  all: destruct request_user as [[pk auth su [[r]|]]|]; cbn;
    try (by eexists; split; [done|intros [=]]).
  all: destruct auth; cbn; try (by eexists; split; [done|intros [=]]).
  all: try destruct su; cbn; try (by eexists; split; [done|intros [=]]).
  all: eexists; (split; [done|]); intros _; eexists; (split; [done|]); split; [done|];
    eauto.
Qed.

End RolePoliciesFacts.

(** ** The role a caller is reported with *)

Module AccountsFacts.
Import Python Models Permissions RolePolicies Serializers Accounts Examples.

(** X3. The login answer, the token and [current_user] never fail and
    report one and the same role.  For a superuser it is [admin], shown
    as [Administrator], whatever the profile says; for any other user it
    is the role of the profile with the label of that role, and nothing
    when the user has no profile.  The [role] claim of the token is the
    [role] entry of the user data of the login answer, and
    [current_user] answers with that same user data. *)
Theorem reported_role_is_consistent (u : User) :
  let info :=
    if is_superuser u
    then {| info_role := Some "admin"; info_role_display := Some "Administrator" |}
    else {| info_role := role <$> profile u;
            info_role_display := get_role_display <$> profile u |} in
  login_user_info u = Return info
  /\ current_user u = Return (info, is_superuser u)
  /\ get_token_role u = Return (info_role info).
Proof.
  unfold login_user_info, current_user, get_token_role, get_profile.
  destruct (is_superuser u); [done|].
  by destruct (profile u).
Qed.

(** X4. For an authenticated caller the three admin tests agree: the
    token carries the role admin exactly when [IsAdmin] grants, and
    exactly when the test written out in the views holds. *)
Theorem admin_tests_agree (u : User) :
  is_authenticated u = true ->
  (get_token_role u = Return (Some "admin")
   <-> IsAdmin_has_permission (Some u) = Return true)
  /\ (is_admin u = true <-> IsAdmin_has_permission (Some u) = Return true).
Proof.
  unfold get_token_role, IsAdmin_has_permission, is_admin, get_profile.
  intros ->. cbn. destruct (is_superuser u); [done|].
  destruct (profile u) as [[r]|]; cbn; [|by split; split].
  destruct (String.eqb_spec r "admin") as [->|Hr]; [done|].
  split; split; try done. intros [=]. done.
Qed.

Lemma admin_tests_agree_witness :
  get_token_role admin_user = Return (Some "admin")
  <-> IsAdmin_has_permission (Some admin_user) = Return true.
Proof. exact (proj1 (admin_tests_agree admin_user eq_refl)). Defined.

(** X5. The request types that a caller who is not an admin is listed
    are exactly the ones the creation of a request accepts: a key is in
    the queryset of [RequestTypeViewSet] if and only if
    [validate_request_type_id] returns it. *)
Theorem listed_request_types_are_accepted (db : Store) (u : User) (k : uuid) :
  is_admin u = false ->
  is_Some (request_type_queryset db u !! k) <-> validate_request_type_id db k = Return k.
Proof.
  unfold request_type_queryset, validate_request_type_id, get_active_request_type.
  intros ->. cbn.
  destruct (request_types db !! k) as [t|] eqn:Ht.
  - destruct (is_active t) eqn:Hact; cbn.
    + split; [done|]. intros _. exists t. by apply map_lookup_filter_Some.
    + split; [|done]. intros [t' Ht']. apply map_lookup_filter_Some in Ht' as [Ht' Ha].
      cbn in Ha. congruence.
  - cbn. split; [|done]. intros [t' Ht']. apply map_lookup_filter_Some in Ht' as [Ht' _].
    congruence.
Qed.

Lemma listed_request_types_are_accepted_witness :
  is_Some (request_type_queryset store_with_pending_request staff_user !! 20%N)
  <-> validate_request_type_id store_with_pending_request 20%N = Return 20%N.
Proof. exact (listed_request_types_are_accepted store_with_pending_request staff_user 20%N eq_refl). Defined.

End AccountsFacts.

(** ** Decisions of the approvers *)

Module ApprovalFacts.
Import Python Models Serializers Views ModelProperties Examples ViewsFacts.

Lemma insert_after_alter (m : gmap N PurchaseRequest) (pk : uuid)
    (f : PurchaseRequest -> PurchaseRequest) (x : PurchaseRequest) :
  <[pk := x]> (alter f pk m) = <[pk := x]> m.
Proof.
  apply map_eq. intros k. destruct (decide (k = pk)) as [->|Hk].
  - by rewrite !lookup_insert_eq.
  - by rewrite !lookup_insert_ne, lookup_alter_ne.
Qed.

(** Recording a decision writes to the approvals, takes one key, and
    through the receiver changes at most the status of the request. *)
Lemma record_decision_store (db : Store) (user : User) (pk : uuid) (level : ApprovalLevel)
    (action : Action) (c : option string) (now : N) :
  let db1 := record_decision db user pk level action c now in
  request_types db1 = request_types db /\ approval_levels db1 = approval_levels db
  /\ request_items db1 = request_items db /\ task_queue db1 = task_queue db
  /\ purchase_requests db1
     = if bool_decide (action = ActRejected)
       then alter (set_status Rejected) pk (purchase_requests db)
       else purchase_requests db.
Proof. by destruct action. Qed.

(** The store that the transaction leaves behind a 200 answer. *)
Lemma approval_transaction_store (db : Store) (user : User) (pk : uuid)
    (levels : list ApprovalLevel) (level : ApprovalLevel) (action : Action)
    (c : option string) (now : N) (response : Response) (db' : Store) (r : PurchaseRequest) :
  purchase_requests db !! pk = Some r -> status r = Pending ->
  approval_transaction db user pk levels level action c now = (response, db') ->
  request_types db' = request_types db /\ approval_levels db' = approval_levels db
  /\ request_items db' = request_items db
  /\ approvals db' = approvals (record_decision db user pk level action c now)
  /\ ((action = ActRejected
       /\ purchase_requests db' = <[pk := set_status Rejected r]> (purchase_requests db)
       /\ task_queue db' = task_queue db
       /\ response = {| body := DetailBody pk (set_status Rejected r);
                        status_code := HTTP_200_OK |})
      \/ (action = ActApproved
          /\ purchase_requests db'
             = <[pk := set_approved_by (Some (user_pk user)) (set_status Approved r)]>
                 (purchase_requests db)
          /\ task_queue db' = task_queue db ++ [generate_purchase_order_task pk])
      \/ (action = ActApproved
          /\ purchase_requests db' = purchase_requests db
          /\ task_queue db' = task_queue db)).
Proof.
  intros Hr Hst. unfold approval_transaction. rewrite Hr, Hst.
  rewrite bool_decide_eq_true_2 by done. cbn [negb].
  destruct (record_decision_store db user pk level action c now)
    as (Ht & Hl & Hi & Hq & Hp).
  set (db1 := record_decision db user pk level action c now) in *. clearbody db1.
  destruct action.
  - rewrite bool_decide_eq_false_2 by done.
    rewrite bool_decide_eq_false_2 in Hp by done.
    destruct (_ <=? _)%nat; intros [= <- <-]; cbn.
    + repeat (split; [done|]). right. left. by rewrite Hp, Hq.
    + repeat (split; [done|]). right. right. by rewrite Hp, Hq.
  - rewrite bool_decide_eq_true_2 by done.
    rewrite bool_decide_eq_true_2 in Hp by done.
    intros [= <- <-]. cbn. repeat (split; [done|]). left.
    rewrite Hp, insert_after_alter. repeat (split; [done|]).
    unfold detail. cbn. by rewrite lookup_insert_eq.
Qed.

(** A 200 answer of the handler, with what the checks before the
    transaction have established. *)
Lemma approval_action_checked (db : Store) (request : Request) (data : CommentsData)
    (now : N) (pk : uuid) (action : Action) (response : Response) (db' : Store) :
  _handle_approval_action db request data now pk action = (response, db') ->
  status_code response = HTTP_200_OK ->
  exists r level comments,
    get_object db request pk = Some r /\ status r = Pending
    /\ select_approval_level
         (if is_superuser (user request) then None else profile (user request))
         (required_levels_of db (request_type r)) = Some level
    /\ filter (fun a => purchase_request_id a = pk /\ approval_level a = level_pk level
                        /\ approver a = user_pk (user request)) (approvals db) = []
    /\ approval_transaction db (user request) pk (required_levels_of db (request_type r))
         level action comments now = (response, db').
Proof.
  unfold _handle_approval_action.
  destruct (get_object db request pk) as [r|] eqn:Hr; [|by intros [= <- <-]].
  unfold Permissions.get_profile.
  destruct (is_superuser (user request)) eqn:Hsuper.
  - case_bool_decide as Hst; cbn [negb]; [|by intros [= <- <-]].
    case_bool_decide as Hlv; [by intros [= <- <-]|].
    destruct (select_approval_level None _) as [level|] eqn:Hsel; [|by intros [= <- <-]].
    case_bool_decide as Hex; [by intros [= <- <-]|].
    destruct (match data with Some r0 => r0 | None => Return (Some "") end) as [c|e].
    + intros Ht Hc. exists r, level, c. repeat (split; [done|]). split; [|done].
      destruct (filter _ _); [done|]. exfalso. apply Hex. by eexists.
    + intros [= <- <-]. by destruct e.
  - destruct (profile (user request)) as [p|] eqn:Hp; cbn; [|by intros [= <- <-]].
    case_bool_decide as Hst; cbn [negb]; [|by intros [= <- <-]].
    case_bool_decide as Hlv; [by intros [= <- <-]|].
    destruct (find_level_for_role _ _) as [level|] eqn:Hsel; [|by intros [= <- <-]].
    case_bool_decide as Hex; [by intros [= <- <-]|].
    destruct (match data with Some r0 => r0 | None => Return (Some "") end) as [c|e].
    + intros Ht Hc. exists r, level, c. repeat (split; [done|]). split; [|done].
      destruct (filter _ _); [done|]. exfalso. apply Hex. by eexists.
    + intros [= <- <-]. by destruct e.
Qed.

Lemma get_object_Some (db : Store) (request : Request) (pk : uuid) (r : PurchaseRequest) :
  get_object db request pk = Some r ->
  purchase_requests db !! pk = Some r /\ in_queryset request r = true.
Proof.
  unfold get_object. destruct (purchase_requests db !! pk) as [r0|]; [|done].
  destruct (in_queryset request r0) eqn:Hq; [|done]. by intros [= <-].
Qed.

(** X6. A decision, accepted or not, touches one request at most.  The
    request types, the approval levels, the items and every request
    other than the one decided on are left as they were; the decided
    request is left as it was too, unless it was pending, in which case
    a rejection may set its status to rejected and an approval may set
    its status to approved, with the caller as [approved_by]. *)
Theorem decision_touches_one_pending_request (db : Store) (request : Request)
    (data : CommentsData) (now : N) (pk : uuid) (action : Action) :
  let db' := snd (_handle_approval_action db request data now pk action) in
  request_types db' = request_types db /\ approval_levels db' = approval_levels db
  /\ request_items db' = request_items db
  /\ (forall k, k ≠ pk -> purchase_requests db' !! k = purchase_requests db !! k)
  /\ (purchase_requests db' !! pk = purchase_requests db !! pk
      \/ exists r, purchase_requests db !! pk = Some r /\ status r = Pending
           /\ ((action = ActRejected
                /\ purchase_requests db' !! pk = Some (set_status Rejected r))
               \/ (action = ActApproved
                   /\ purchase_requests db' !! pk
                      = Some (set_approved_by (Some (user_pk (user request)))
                                (set_status Approved r))))).
Proof.
  destruct (_handle_approval_action db request data now pk action) as [response db'] eqn:Hrun.
  cbn [snd].
  destruct (decide (status_code response = HTTP_200_OK)) as [Hok|Hno].
  - destruct (approval_action_checked _ _ _ _ _ _ _ _ Hrun Hok)
      as (r & level & c & Hr & Hst & _ & _ & Htx).
    apply get_object_Some in Hr as [Hr _].
    destruct (approval_transaction_store _ _ _ _ _ _ _ _ _ _ _ Hr Hst Htx)
      as (Ht & Hl & Hi & _ & Hcases).
    repeat (split; [done|]).
    destruct Hcases as [(Ha & Hp & _)|[(Ha & Hp & _)|(Ha & Hp & _)]]; rewrite Hp.
    + split; [intros k Hk; by rewrite lookup_insert_ne|].
      right. exists r. repeat (split; [done|]). left. by rewrite lookup_insert_eq.
    + split; [intros k Hk; by rewrite lookup_insert_ne|].
      right. exists r. repeat (split; [done|]). right. by rewrite lookup_insert_eq.
    + split; [done|]. by left.
  - apply approval_action_refused in Hrun as ->; [|done]. repeat (split; [done|]). by left.
Qed.

(** X7. A rejection that is answered 200 closes the request at once,
    whatever approvals it holds: the request is stored with the status
    rejected and its other fields as before, no task is queued, and the
    answer shows the rejected request. *)
Theorem reject_closes_the_request (db : Store) (request : Request) (data : CommentsData)
    (now : N) (pk : uuid) :
  status_code (fst (reject db request data now pk)) = HTTP_200_OK ->
  exists r,
    purchase_requests db !! pk = Some r /\ status r = Pending
    /\ purchase_requests (snd (reject db request data now pk)) !! pk
       = Some (set_status Rejected r)
    /\ task_queue (snd (reject db request data now pk)) = task_queue db
    /\ body (fst (reject db request data now pk)) = DetailBody pk (set_status Rejected r).
Proof.
  unfold reject. destruct (approver_permissions request); cbn [fst snd].
  - destruct (_handle_approval_action db request data now pk ActRejected)
      as [response db'] eqn:Hrun. cbn [fst snd]. intros Hok.
    destruct (approval_action_checked _ _ _ _ _ _ _ _ Hrun Hok)
      as (r & level & c & Hr & Hst & _ & _ & Htx).
    apply get_object_Some in Hr as [Hr _].
    destruct (approval_transaction_store _ _ _ _ _ _ _ _ _ _ _ Hr Hst Htx)
      as (_ & _ & _ & _ & [(_ & Hp & Hq & ->)|[(Ha & _)|(Ha & _)]]); [|done|done].
    exists r. repeat (split; [done|]). rewrite Hp, lookup_insert_eq. done.
  - unfold permission_denied. by destruct (is_authenticated (user request)).
Qed.

Lemma reject_closes_the_request_witness :
  exists r,
    purchase_requests store_with_pending_request !! 4%N = Some r /\ status r = Pending
    /\ purchase_requests
         (snd (reject store_with_pending_request (request_of approver_2) None 100 4%N)) !! 4%N
       = Some (set_status Rejected r)
    /\ task_queue (snd (reject store_with_pending_request (request_of approver_2) None 100 4%N))
       = task_queue store_with_pending_request
    /\ body (fst (reject store_with_pending_request (request_of approver_2) None 100 4%N))
       = DetailBody 4%N (set_status Rejected r).
Proof.
  exact (reject_closes_the_request store_with_pending_request (request_of approver_2)
           None 100 4%N eq_refl).
Defined.



(** In a list sorted by level number no level exceeds the last one. *)
Lemma last_of_sorted (levels : list ApprovalLevel) (x : ApprovalLevel) :
  StronglySorted level_le levels -> last levels = Some x ->
  forall y, y ∈ levels -> level_le y x.
Proof.
  induction 1 as [|l rest Hs IH Hl]; [done|]. destruct rest as [|l2 rest'].
  - cbn. intros [= <-] y Hy. apply list_elem_of_singleton in Hy as ->. unfold level_le. lia.
  - change (last (l :: l2 :: rest')) with (last (l2 :: rest')). intros Hlast y Hy.
    apply elem_of_cons in Hy as [->|Hy]; [|by apply IH].
    rewrite Forall_forall in Hl. apply Hl. by apply last_Some_elem_of.
Qed.

(** X9. The decision of a superuser is recorded at the last of the
    required levels of the type of the request: when the handler answers
    a superuser with 200, the new head of the approvals names a required
    level of that type that no required level of the type exceeds in
    number. *)
Theorem superuser_decision_recorded_at_highest_level (db : Store) (request : Request)
    (data : CommentsData) (now : N) (pk : uuid) (action : Action) :
  is_superuser (user request) = true ->
  status_code (fst (_handle_approval_action db request data now pk action)) = HTTP_200_OK ->
  exists r level a rest,
    purchase_requests db !! pk = Some r
    /\ level ∈ approval_levels db
    /\ level_request_type level = request_type r /\ is_required level = true
    /\ (forall l, l ∈ approval_levels db -> level_request_type l = request_type r ->
          is_required l = true -> (level_number l <= level_number level)%N)
    /\ approvals (snd (_handle_approval_action db request data now pk action)) = a :: rest
    /\ purchase_request_id a = pk /\ approver a = user_pk (user request)
    /\ Models.action a = action /\ approval_level a = level_pk level.
Proof.
  intros Hsuper.
  destruct (_handle_approval_action db request data now pk action) as [response db'] eqn:Hrun.
  cbn [fst snd]. intros Hok.
  destruct (approval_action_checked _ _ _ _ _ _ _ _ Hrun Hok)
    as (r & level & c & Hr & Hst & Hsel & _ & Htx).
  apply get_object_Some in Hr as [Hr _].
  rewrite Hsuper in Hsel. unfold select_approval_level in Hsel.
  destruct (last (required_levels_of db (request_type r))) as [l0|] eqn:Hlast;
    [injection Hsel as ->|by apply last_None in Hlast; rewrite Hlast in Hsel].
  pose proof (last_of_sorted _ _ (order_by_level_number_sorted _) Hlast) as Hmax.
  apply last_Some_elem_of, required_levels_of_elem in Hlast as (Hin & Hty & Hreq).
  destruct (approval_transaction_store _ _ _ _ _ _ _ _ _ _ _ Hr Hst Htx)
    as (_ & _ & _ & Happ & _).
  destruct (record_decision_approvals db (user request) pk level action c now)
    as (a & rest & Ha & _ & _ & Hfields).
  exists r, level, a, rest. repeat (split; [done|]). split.
  - intros l Hl Hlt Hlr. apply Hmax. by apply required_levels_of_elem.
  - by rewrite Happ.
Qed.

Lemma superuser_decision_recorded_at_highest_level_witness :
  exists a rest,
    approvals (snd (_handle_approval_action store_with_pending_request
                      (request_of admin_user) None 100 4%N ActApproved)) = a :: rest
    /\ approval_level a = 3%N.
Proof.
  destruct (superuser_decision_recorded_at_highest_level store_with_pending_request
              (request_of admin_user) None 100 4%N ActApproved eq_refl eq_refl)
    as (r & level & a & rest & _ & _ & _ & _ & _ & Happ & _).
  exists a, rest. split; [exact Happ|].
  vm_compute in Happ. injection Happ as <- _. reflexivity.
Defined.

(** X10. After an approval that completes a request, [final_approver]
    and [approved_by] name the same user, the caller: when [approve] is
    answered 200 and leaves the request approved, the newest approved
    record of the request is the one of the caller. *)
Theorem final_approver_is_approved_by (db : Store) (request : Request) (data : CommentsData)
    (now : N) (pk : uuid) (r' : PurchaseRequest) :
  status_code (fst (approve db request data now pk)) = HTTP_200_OK ->
  purchase_requests (snd (approve db request data now pk)) !! pk = Some r' ->
  status r' = Approved ->
  final_approver (snd (approve db request data now pk)) pk r' = Some (user_pk (user request))
  /\ approved_by r' = Some (user_pk (user request)).
Proof.
  destruct (approve db request data now pk) as [response db'] eqn:Hrun. cbn [fst snd].
  intros Hok Hr' Hst'.
  apply approve_accepted in Hrun as [_ Hrun]; [|done].
  destruct (approval_action_checked _ _ _ _ _ _ _ _ Hrun Hok)
    as (r & level & c & Hr & Hst & _ & _ & Htx).
  apply get_object_Some in Hr as [Hr _].
  destruct (approval_transaction_store _ _ _ _ _ _ _ _ _ _ _ Hr Hst Htx)
    as (_ & _ & _ & Happ & [([=] & _)|[(_ & Hp & _)|(_ & Hp & _)]]); rewrite Hp in Hr'.
  - rewrite lookup_insert_eq in Hr'. injection Hr' as <-. split; [|done].
    destruct (record_decision_approvals db (user request) pk level ActApproved c now)
      as (a & rest & Ha & _ & _ & Hapk & Hau & Hact & _).
    unfold final_approver. cbn [status set_approved_by set_status].
    rewrite bool_decide_eq_true_2 by done.
    rewrite Happ, Ha, filter_cons_True by done. cbn. by rewrite Hau.
  - rewrite Hr in Hr'. injection Hr' as <-. congruence.
Qed.

Lemma final_approver_is_approved_by_witness :
  final_approver
    (snd (approve Scenarios.store_after_first_approval (request_of approver_2) None 200 4%N))
    4%N (set_approved_by (Some 12%N) (set_status Approved pending_request))
  = Some 12%N.
Proof.
  exact (proj1 (final_approver_is_approved_by Scenarios.store_after_first_approval
                  (request_of approver_2) None 200 4%N
                  (set_approved_by (Some 12%N) (set_status Approved pending_request))
                  eq_refl eq_refl eq_refl)).
Defined.

End ApprovalFacts.

(** ** Rows added to the items *)

Module ItemsFacts.
Import Python Models Serializers Views ModelProperties Tasks DocumentProcessing.

Lemma appends_items_refl (P : RequestItem -> Prop) (db : Store) : appends_items P db db.
Proof. repeat (split; [done|]). exists []. by rewrite app_nil_r. Qed.

Lemma appends_items_trans (P : RequestItem -> Prop) (db db1 db2 : Store) :
  appends_items P db db1 -> appends_items P db1 db2 -> appends_items P db db2.
Proof.
  intros (? & ? & ? & ? & ? & ? & new1 & Hnew1 & HP1 & Hsame1)
         (? & ? & ? & ? & ? & ? & new2 & Hnew2 & HP2 & Hsame2).
  repeat (split; [congruence|]). exists (new1 ++ new2).
  split; [by rewrite Hnew2, Hnew1, app_assoc|]. split; [by apply Forall_app|].
  intros [-> ->]%app_eq_nil. by rewrite Hsame2, Hsame1.
Qed.

Lemma appends_items_impl (P Q : RequestItem -> Prop) (db db1 : Store) :
  (forall r, P r -> Q r) -> appends_items P db db1 -> appends_items Q db db1.
Proof.
  intros HPQ (? & ? & ? & ? & ? & ? & new & ? & HP & ?). repeat (split; [done|]).
  exists new. split; [done|]. split; [by eapply Forall_impl|done].
Qed.

Lemma foldl_appends_items {A} (P : RequestItem -> Prop) (f : Store -> A -> Store)
    (l : list A) :
  (forall db x, appends_items P db (f db x)) ->
  forall db, appends_items P db (foldl f db l).
Proof.
  intros Hf. induction l as [|x l IH]; intros db; cbn; [apply appends_items_refl|].
  eapply appends_items_trans; [apply Hf|apply IH].
Qed.

Section WithBuiltins.
Context `{Builtins}.

(** [RequestItem.objects.create] appends one row, of the request and
    with the description it is given. *)
Lemma create_request_item_appends (db db1 : Store) (pk : uuid) (desc : string) (q : Z)
    (u : float) :
  create_request_item db pk desc q u = Return db1 ->
  appends_items (fun r => item_purchase_request r = pk /\ description r = desc) db db1.
Proof.
  unfold create_request_item, RequestItem_objects_create, RequestItem_save, Model_save_item.
  destruct (Decimal_of_float u) as [d|]; [|done].
  cbn [of_option mbind result_bind item_pk set_item_pk set_total_price].
  destruct (to_columns _ _) as [row|e] eqn:Hrow; [|done]. cbn.
  apply ModelsFacts.to_columns_description in Hrow as [Hdesc Hpk].
  intros [= <-]. repeat (split; [done|]). exists [row]. split; [done|].
  split; [|done]. by apply Forall_singleton.
Qed.

Lemma update_one_item_appends (pk : uuid) (db : Store) (item : json) :
  appends_items (fun r => item_purchase_request r = pk) db (update_one_item pk db item).
Proof.
  unfold update_one_item.
  match goal with |- context [match ?a with Return _ => _ | Raise _ => _ end] =>
    destruct a as [db1|e] eqn:Ha end; [|apply appends_items_refl].
  assert (Hdict : forall d, (quantity ← py_int (dict_get d "quantity" (JInt 1));
                   unit_price ← py_float (dict_get d "unit_price" (JInt 0));
                   create_request_item db pk (py_str (dict_get d "description" (JStr "")))
                     quantity unit_price) = Return db1 ->
                  appends_items (fun r => item_purchase_request r = pk) db db1).
  { intros d. destruct (py_int _) as [q|]; [|done]. destruct (py_float _) as [u|]; [|done].
    cbn. intros Hc%create_request_item_appends.
    eapply appends_items_impl; [|exact Hc]. by intros r [? _]. }
  destruct item as [| | | |s| |d]; try (injection Ha as <-; apply appends_items_refl).
  - destruct (json_loads s) as [[| | | | | |d]|]; try done. by apply (Hdict d).
  - by apply (Hdict d).
Qed.

Lemma create_one_item_appends (pk : uuid) (db : Store) (item : json) :
  appends_items (fun r => item_purchase_request r = pk /\ description r ≠ "")
    db (create_one_item pk db item).
Proof.
  unfold create_one_item.
  match goal with |- context [match ?a with Return _ => _ | Raise _ => _ end] =>
    destruct a as [db1|e] eqn:Ha end; [|apply appends_items_refl].
  destruct item as [| | | | | |d]; try (injection Ha as <-; apply appends_items_refl).
  destruct (py_int _) as [q|]; [|done]. destruct (py_float _) as [u|]; [|done].
  cbn in Ha.
  destruct (String.eqb_spec (strip (py_str (dict_get d "description" (JStr "")))) "")
    as [He|Hne]; cbn in Ha.
  - injection Ha as <-. apply appends_items_refl.
  - apply create_request_item_appends in Ha.
    eapply appends_items_impl; [|exact Ha]. intros r [? ->]. done.
Qed.

Lemma proforma_one_item_appends (pk : uuid) (db : Store) (item : json) :
  appends_items (fun r => item_purchase_request r = pk) db (proforma_one_item pk db item).
Proof.
  unfold proforma_one_item.
  match goal with |- context [match ?a with Return _ => _ | Raise _ => _ end] =>
    destruct a as [db1|e] eqn:Ha end; [|apply appends_items_refl].
  destruct item as [| | | | | |d]; try done. cbn in Ha.
  destruct (py_bool _); [|injection Ha as <-; apply appends_items_refl].
  destruct (py_int _) as [q|]; [|done]. destruct (py_float _) as [u|]; [|done].
  cbn in Ha. apply create_request_item_appends in Ha.
  eapply appends_items_impl; [|exact Ha]. by intros r [? _].
Qed.

End WithBuiltins.

End ItemsFacts.

(** ** Updating a request *)

Module UpdateFacts.
Import Python Models Serializers Views ModelProperties Examples ViewsFacts ApprovalFacts
  ItemsFacts.

Section WithBuiltins.
Context `{Builtins}.

(** Replacing the items of a request: the rows of the request go, rows
    of the request are appended, the rest of the store stays. *)
Lemma replace_items_store (pk : uuid) (db0 : Store) (l : list json) :
  let db1 := foldl (update_one_item pk) (delete_items pk db0) l in
  purchase_requests db1 = purchase_requests db0 /\ approvals db1 = approvals db0
  /\ approval_levels db1 = approval_levels db0 /\ request_types db1 = request_types db0
  /\ task_queue db1 = task_queue db0
  /\ exists new,
       request_items db1
       = filter (fun r => item_purchase_request r ≠ pk) (request_items db0) ++ new
       /\ Forall (fun r => item_purchase_request r = pk) new
       /\ (l = [] -> new = []).
Proof.
  destruct (foldl_appends_items _ _ l (update_one_item_appends pk) (delete_items pk db0))
    as (He & Ht & Hl & Hp & Ha & Hq & new & Hnew & HP & _).
  cbn zeta. repeat (split; [done|]). exists new. repeat (split; [done|]).
  intros ->. cbn in Hnew. symmetry in Hnew. rewrite <- (app_nil_r (filter _ _)) in Hnew at 2.
  by apply app_inv_head in Hnew.
Qed.

(** The store that [PurchaseRequestUpdateSerializer.update] returns. *)
Lemma serializer_update_store (db db1 : Store) (pk : uuid) (instance : PurchaseRequest)
    (v : ValidatedData) :
  Serializers.update db pk instance v = Return db1 ->
  exists instance',
    status instance' = status instance /\ created_by instance' = created_by instance
    /\ approved_by instance' = approved_by instance /\ receipt instance' = receipt instance
    /\ title instance' = v_title v /\ amount instance' = v_amount v
    /\ purchase_requests db1 = <[pk := instance']> (purchase_requests db)
    /\ approvals db1 = approvals db /\ approval_levels db1 = approval_levels db
    /\ request_types db1 = request_types db /\ task_queue db1 = task_queue db
    /\ match v_items v with
       | Some l =>
           exists new,
             request_items db1
             = filter (fun r => item_purchase_request r ≠ pk) (request_items db) ++ new
             /\ Forall (fun r => item_purchase_request r = pk) new
             /\ (l = [] -> new = [])
       | None => request_items db1 = request_items db
       end.
Proof.
  unfold Serializers.update.
  assert (Hsaved : forall instance',
            match v_items v with
            | Some l =>
                Return (foldl (update_one_item pk)
                          (delete_items pk
                             (set_purchase_requests
                                (<[pk := instance']> (purchase_requests db)) db)) l)
            | None =>
                Return (set_purchase_requests (<[pk := instance']> (purchase_requests db)) db)
            end = Return db1 ->
            purchase_requests db1 = <[pk := instance']> (purchase_requests db)
            /\ approvals db1 = approvals db /\ approval_levels db1 = approval_levels db
            /\ request_types db1 = request_types db /\ task_queue db1 = task_queue db
            /\ match v_items v with
               | Some l =>
                   exists new,
                     request_items db1
                     = filter (fun r => item_purchase_request r ≠ pk) (request_items db)
                       ++ new
                     /\ Forall (fun r => item_purchase_request r = pk) new
                     /\ (l = [] -> new = [])
               | None => request_items db1 = request_items db
               end).
  { intros instance'. destruct (v_items v) as [l|]; intros [= <-]; [|done].
    exact (replace_items_store pk
             (set_purchase_requests (<[pk := instance']> (purchase_requests db)) db) l). }
  destruct (v_request_type_id v) as [t|].
  - destruct (get_active_request_type db t) as [rt|[]]; cbn; try done.
    intros Hrun.
    match type of Hrun with context [<[pk := ?x]> _] => exists x end.
    do 6 (split; [done|]). by apply Hsaved.
  - cbn. intros Hrun.
    match type of Hrun with context [<[pk := ?x]> _] => exists x end.
    do 6 (split; [done|]). by apply Hsaved.
Qed.

(** The items entry of the validated data of an update. *)
Lemma update_to_internal_value_items (data : RequestData) (v : ValidatedData) :
  update_to_internal_value data = Return v ->
  v_items v = match data_items data with
              | Some x => Some (match ItemsField_to_internal_value x with
                                | Return l => l
                                | Raise _ => []
                                end)
              | None => None
              end.
Proof.
  unfold update_to_internal_value, update_fields_to_internal_value,
    parse_items_before_validation.
  destruct (data_items data) as [x|] eqn:Hx.
  - destruct (ItemsField_to_internal_value x) as [l|e]; cbn; rewrite ?Hx.
    all: destruct (data_title data), (data_amount data),
      (match data_request_type_id data with Some r => _ | None => _ end),
      (match data_proforma data with Some r => _ | None => _ end); try done.
    all: by intros [= <-].
  - rewrite Hx. cbn.
    destruct (data_title data), (data_amount data),
      (match data_request_type_id data with Some r => _ | None => _ end),
      (match data_proforma data with Some r => _ | None => _ end); try done.
    by intros [= <-].
Qed.

(** What a 200 answer of the update view means. *)
Lemma update_accepted (db : Store) (request : Request) (data : RequestData) (pk : uuid)
    (response : Response) (db' : Store) :
  Views.update db request data pk = (response, db') ->
  status_code response = HTTP_200_OK ->
  exists instance v db1,
    purchase_requests db !! pk = Some instance
    /\ is_authenticated (user request) = true
    /\ (is_superuser (user request) = true \/ created_by instance = user_pk (user request))
    /\ status instance = Pending
    /\ update_to_internal_value data = Return v
    /\ Serializers.update db pk instance v = Return db1
    /\ (db' = db1 \/ db' = delay (process_proforma pk) db1).
Proof.
  unfold Views.update, permission_denied. cbn [IsAuthenticated_has_permission].
  destruct (is_authenticated (user request)) eqn:Hauth; cbn [negb]; [|by intros [= <- <-]].
  destruct (get_object db request pk) as [instance|] eqn:Hobj; [|by intros [= <- <-]].
  apply get_object_Some in Hobj as [Hobj _].
  destruct (negb (is_superuser (user request)) && bool_decide _) eqn:Hown;
    [by intros [= <- <-]|].
  destruct (negb (is_superuser (user request)) && negb (can_be_edited instance)) eqn:Hedit;
    [by intros [= <- <-]|].
  unfold update_run_validation.
  destruct (update_to_internal_value data) as [v|e] eqn:Hv; cbn.
  2:{ apply update_to_internal_value_raises in Hv as [d ->]. by intros [= <- <-]. }
  unfold validate. destruct (can_be_edited instance) eqn:Hcan; cbn; [|by intros [= <- <-]].
  destruct (Serializers.update db pk instance v) as [db1|e] eqn:Hupd.
  2:{ intros [= <- <-]. destruct e; done. }
  intros [= <- <-] _. exists instance, v, db1. repeat (split; [done|]).
  split.
  { destruct (is_superuser (user request)); [by left|right]. cbn in Hown.
    by apply bool_decide_eq_false, dec_stable in Hown. }
  split; [by apply bool_decide_eq_true in Hcan|]. repeat (split; [done|]).
  case_match; [by right|by left].
Qed.

(** An answer other than 200 leaves the store as it was. *)
Lemma update_refused (db : Store) (request : Request) (data : RequestData) (pk : uuid)
    (response : Response) (db' : Store) :
  Views.update db request data pk = (response, db') ->
  status_code response ≠ HTTP_200_OK -> db' = db.
Proof.
  unfold Views.update. repeat case_match; intros [= <- <-]; done.
Qed.

(** X11. A caller who is not a superuser cannot update the request of
    somebody else: the answer is 401, 403 or 404 and nothing is written.
    A caller with the role staff is answered 404, since the queryset of
    a staff member holds only their own requests. *)
Theorem update_of_another_users_request_refused (db : Store) (request : Request)
    (data : RequestData) (pk : uuid) (r : PurchaseRequest) :
  is_superuser (user request) = false ->
  purchase_requests db !! pk = Some r ->
  created_by r ≠ user_pk (user request) ->
  snd (Views.update db request data pk) = db
  /\ status_code (fst (Views.update db request data pk))
       ∈ [HTTP_401_UNAUTHORIZED; HTTP_403_FORBIDDEN; HTTP_404_NOT_FOUND]
  /\ (forall p, is_authenticated (user request) = true -> profile (user request) = Some p ->
        role p = "staff" -> fst (Views.update db request data pk) = not_found).
Proof.
  intros Hsuper Hr Hother.
  unfold Views.update, get_object, in_queryset, permission_denied.
  cbn [IsAuthenticated_has_permission]. rewrite Hr, Hsuper.
  destruct (is_authenticated (user request)); cbn [negb].
  2:{ split; [done|]. split; [apply list_elem_of_here|]. by intros p [=]. }
  destruct (profile (user request)) as [p|].
  2:{ split; [done|]. split; [|done]. do 2 apply list_elem_of_further. apply list_elem_of_here. }
  destruct (String.eqb_spec (role p) "staff") as [Hstaff|Hstaff].
  - rewrite bool_decide_eq_false_2 by done. cbn.
    split; [done|]. split; [|done]. do 2 apply list_elem_of_further. apply list_elem_of_here.
  - cbn [andb]. destruct (match query_status request with Some s => _ | None => true end).
    + rewrite bool_decide_eq_true_2 by done. cbn.
      split; [done|]. split; [apply list_elem_of_further, list_elem_of_here|].
      intros p' _ [= <-]. done.
    + cbn. split; [done|]. split; [|by intros p' _ [= <-]].
      do 2 apply list_elem_of_further. apply list_elem_of_here.
Qed.

(** X12. An update never moves a request through the workflow.
    Whatever the payload and whoever the caller, the approvals, the
    approval levels, the request types and every other request are left
    as they were, and the request itself keeps its status, its creator,
    its [approved_by] and its receipt. *)
Theorem update_keeps_the_workflow_fields (db : Store) (request : Request)
    (data : RequestData) (pk : uuid) :
  let db' := snd (Views.update db request data pk) in
  approvals db' = approvals db /\ approval_levels db' = approval_levels db
  /\ request_types db' = request_types db
  /\ (forall k, k ≠ pk -> purchase_requests db' !! k = purchase_requests db !! k)
  /\ option_Forall2
       (fun r' r => status r' = status r /\ created_by r' = created_by r
                    /\ approved_by r' = approved_by r /\ receipt r' = receipt r)
       (purchase_requests db' !! pk) (purchase_requests db !! pk).
Proof.
  destruct (Views.update db request data pk) as [response db'] eqn:Hrun. cbn [snd].
  destruct (decide (status_code response = HTTP_200_OK)) as [Hok|Hno].
  - destruct (update_accepted _ _ _ _ _ _ Hrun Hok)
      as (instance & v & db1 & Hr & _ & _ & _ & _ & Hupd & Hdb').
    apply serializer_update_store in Hupd
      as (instance' & Hst & Hcb & Hab & Hrc & _ & _ & Hp & Ha & Hl & Ht & _).
    assert (Hsame : purchase_requests db' = purchase_requests db1
                    /\ approvals db' = approvals db1
                    /\ approval_levels db' = approval_levels db1
                    /\ request_types db' = request_types db1)
      by (by destruct Hdb' as [->| ->]).
    destruct Hsame as (-> & -> & -> & ->). repeat (split; [done|]). rewrite Hp, Hr.
    split; [intros k Hk; by rewrite lookup_insert_ne|].
    rewrite lookup_insert_eq. by constructor.
  - apply update_refused in Hrun as ->; [|done]. repeat (split; [done|]).
    destruct (purchase_requests db !! pk); by constructor.
Qed.

(** The items after a 200 answer of the update view. *)
Lemma update_items_after (db : Store) (request : Request) (data : RequestData) (pk : uuid)
    (response : Response) (db' : Store) :
  Views.update db request data pk = (response, db') ->
  status_code response = HTTP_200_OK ->
  match data_items data with
  | None => request_items db' = request_items db
  | Some x =>
      exists new,
        request_items db'
        = filter (fun r => item_purchase_request r ≠ pk) (request_items db) ++ new
        /\ Forall (fun r => item_purchase_request r = pk) new
        /\ ((forall l, ItemsField_to_internal_value x = Return l -> l = []) -> new = [])
  end.
Proof.
  intros Hrun Hok.
  destruct (update_accepted _ _ _ _ _ _ Hrun Hok)
    as (instance & v & db1 & _ & _ & _ & _ & Hv & Hupd & Hdb').
  apply update_to_internal_value_items in Hv.
  apply serializer_update_store in Hupd as (_ & _ & _ & _ & _ & _ & _ & _ & _ & _ & _ & _ & Hi).
  assert (Hsame : request_items db' = request_items db1) by (by destruct Hdb' as [->| ->]).
  rewrite Hsame, Hv in *. destruct (data_items data) as [x|]; [|done].
  destruct Hi as (new & Hnew & HP & Hnil). exists new. repeat (split; [done|]).
  intros Hx. apply Hnil. destruct (ItemsField_to_internal_value x); [by apply Hx|done].
Qed.

(** X13. An update that is answered 200 replaces the items as a whole
    or leaves them alone.  Without an [items] entry in the payload the
    items are as before; with one, every row of the request is deleted
    and the rows stored afterwards for the request are new ones, while
    the rows of the other requests stay in place. *)
Theorem update_replaces_the_items (db : Store) (request : Request) (data : RequestData)
    (pk : uuid) :
  status_code (fst (Views.update db request data pk)) = HTTP_200_OK ->
  match data_items data with
  | None => request_items (snd (Views.update db request data pk)) = request_items db
  | Some _ =>
      exists new,
        request_items (snd (Views.update db request data pk))
        = filter (fun r => item_purchase_request r ≠ pk) (request_items db) ++ new
        /\ Forall (fun r => item_purchase_request r = pk) new
  end.
Proof.
  destruct (Views.update db request data pk) as [response db'] eqn:Hrun. cbn [fst snd].
  intros Hok. pose proof (update_items_after _ _ _ _ _ _ Hrun Hok) as Hi.
  destruct (data_items data); [|done].
  destruct Hi as (new & ? & ? & _). by exists new.
Qed.

(** X14. An [items] entry that is present but is not a list with
    elements costs the request its items: when the field reads the
    entry as the empty list or refuses it (a text that is not JSON, a
    JSON text that is not a list, a null, a number), an update that is
    answered 200 deletes every row of the request and stores none. *)
Theorem unreadable_items_on_update_delete_the_items (db : Store) (request : Request)
    (data : RequestData) (pk : uuid) (x : json) :
  data_items data = Some x ->
  (forall l, ItemsField_to_internal_value x = Return l -> l = []) ->
  status_code (fst (Views.update db request data pk)) = HTTP_200_OK ->
  request_items (snd (Views.update db request data pk))
  = filter (fun r => item_purchase_request r ≠ pk) (request_items db).
Proof.
  destruct (Views.update db request data pk) as [response db'] eqn:Hrun. cbn [fst snd].
  intros Hx Hnil Hok. pose proof (update_items_after _ _ _ _ _ _ Hrun Hok) as Hi.
  rewrite Hx in Hi. destruct Hi as (new & -> & _ & Hnew).
  by rewrite (Hnew Hnil), app_nil_r.
Qed.

End WithBuiltins.

(** The staff member 10 asks to update the request 5 of the user 13. *)
Lemma update_of_another_users_request_refused_witness :
  fst (@Views.update sample_builtins Scenarios.store_with_two_requests
         (request_of staff_user) plain_payload 5%N) = not_found.
Proof.
  apply (proj2 (proj2 (@update_of_another_users_request_refused sample_builtins
                         Scenarios.store_with_two_requests (request_of staff_user)
                         plain_payload 5%N Scenarios.request_of_user_13
                         eq_refl eq_refl ltac:(done)))
           {| role := "staff" |}); reflexivity.
Defined.

(** The owner of the request 4 sends one item: the row 25 goes, the row
    of the request 5 stays. *)
Lemma update_replaces_the_items_witness :
  exists new,
    request_items (snd (@Views.update sample_builtins Scenarios.store_with_two_requests
                          (request_of staff_user)
                          (payload_with_items (JList [JDict nameless_item])) 4%N))
    = [Scenarios.paper 26 5] ++ new
    /\ Forall (fun r => item_purchase_request r = 4%N) new.
Proof.
  exact (@update_replaces_the_items sample_builtins Scenarios.store_with_two_requests
           (request_of staff_user) (payload_with_items (JList [JDict nameless_item])) 4%N
           eq_refl).
Defined.

(** The owner of the request 4 sends a text that is not JSON as its
    items: the request is left without items. *)
Lemma unreadable_items_on_update_delete_the_items_witness :
  request_items (snd (@Views.update sample_builtins Scenarios.store_with_two_requests
                        (request_of staff_user) (payload_with_items (JStr "not json")) 4%N))
  = [Scenarios.paper 26 5].
Proof.
  apply (@unreadable_items_on_update_delete_the_items sample_builtins
           Scenarios.store_with_two_requests (request_of staff_user)
           (payload_with_items (JStr "not json")) 4%N (JStr "not json") eq_refl);
    [intros l; discriminate|reflexivity].
Defined.

End UpdateFacts.

(** ** Creating a request *)

Module CreateFacts.
Import Python Models Serializers Views ModelProperties RequestViews Examples ViewsFacts
  ItemsFacts.

Section WithBuiltins.
Context `{Builtins}.

(** The request type of validated data is an active one. *)
Lemma create_to_internal_value_request_type (settings : Settings) (db : Store)
    (data : RequestData) (v : ValidatedData) :
  create_to_internal_value settings db data = Return v ->
  exists rt t, v_request_type_id v = Some rt /\ request_types db !! rt = Some t
               /\ is_active t = true.
Proof.
  unfold create_to_internal_value, create_fields_to_internal_value.
  set (d := match data_items data with
            | Some items_value => _
            | None => _
            end).
  clearbody d.
  destruct (data_title d), (data_amount d); try done.
  all: destruct (data_request_type_id d) as [[k|e]|]; cbn; try done.
  all: unfold validate_request_type_id, get_active_request_type.
  all: destruct (request_types db !! k) as [t|] eqn:Hk; cbn; try done.
  all: destruct (is_active t) eqn:Hact; cbn; try done.
  all: destruct (match data_proforma d with Some r => _ | None => _ end),
         (items_run_validation (data_items d)); try done.
  intros [= <-]. by exists k, t.
Qed.

(** The items entry of the validated data of a creation. *)
Lemma create_to_internal_value_items (settings : Settings) (db : Store)
    (data : RequestData) (v : ValidatedData) :
  create_to_internal_value settings db data = Return v ->
  v_items v = Some match data_items data with
                   | Some x => match ItemsField_to_internal_value x with
                               | Return l => l
                               | Raise _ => []
                               end
                   | None => []
                   end.
Proof.
  unfold create_to_internal_value, create_fields_to_internal_value,
    parse_items_before_validation.
  destruct (data_items data) as [x|] eqn:Hx.
  - destruct (ItemsField_to_internal_value x) as [l|e]; cbn.
    all: destruct (data_title data), (data_amount data),
      (match data_request_type_id data with Some r => _ | None => _ end),
      (match data_proforma data with Some r => _ | None => _ end); try done.
    all: by intros [= <-].
  - cbn.
    destruct (data_title data), (data_amount data),
      (match data_request_type_id data with Some r => _ | None => _ end),
      (match data_proforma data with Some r => _ | None => _ end); try done.
    by intros [= <-].
Qed.

(** The store that [PurchaseRequestCreateSerializer.create] returns. *)
Lemma serializer_create_store (db db' : Store) (user : User) (v : ValidatedData)
    (pk : uuid) :
  Serializers.create db user v = Return (db', pk) ->
  exists rt,
    v_request_type_id v = Some rt /\ pk = next_pk db
    /\ appends_items (fun r => item_purchase_request r = pk /\ description r ≠ "")
         (set_next_pk (N.succ pk)
            (set_purchase_requests (<[pk := created_row user v rt]> (purchase_requests db))
               db))
         db'.
Proof.
  unfold Serializers.create. destruct (v_request_type_id v) as [rt|]; [|done]. cbn.
  destruct (request_types db !! rt); [|done]. cbn.
  intros [= <- <-]. exists rt. repeat (split; [done|]).
  destruct (_ && _); [|apply appends_items_refl].
  apply foldl_appends_items, create_one_item_appends.
Qed.

(** What a 201 answer of the create view means. *)
Lemma create_accepted (settings : Settings) (db : Store) (request : Request)
    (data : RequestData) (response : Response) (db' : Store) :
  RequestViews.create settings db request data = (response, db') ->
  status_code response = HTTP_201_CREATED ->
  exists v db1 pk row,
    is_authenticated (user request) = true
    /\ only_staff_can_create (user request) = None
    /\ create_to_internal_value settings db data = Return v
    /\ Serializers.create db (user request) v = Return (db1, pk)
    /\ purchase_requests db1 !! pk = Some row
    /\ response = {| body := DetailBody pk row; status_code := HTTP_201_CREATED |}
    /\ db' = if field_file_truthy (proforma row) then delay (process_proforma pk) db1
             else db1.
Proof.
  unfold RequestViews.create, permission_denied. cbn [IsAuthenticated_has_permission].
  destruct (is_authenticated (user request)) eqn:Hauth; cbn [negb]; [|by intros [= <- <-]].
  destruct (only_staff_can_create (user request)) as [refusal|] eqn:Hrole.
  { unfold only_staff_can_create in Hrole. intros [= <- <-].
    destruct (is_superuser (user request)); [done|].
    destruct (Permissions.get_profile (user request)); [|by injection Hrole as <-].
    destruct (negb _); [by injection Hrole as <-|done]. }
  destruct (create_to_internal_value settings db data) as [v|e] eqn:Hv.
  2:{ intros [= <- <-]. by destruct e. }
  destruct (Serializers.create db (user request) v) as [[db1 pk]|e] eqn:Hc.
  2:{ intros [= <- <-]. by destruct e. }
  destruct (purchase_requests db1 !! pk) as [row|] eqn:Hrow; [|by intros [= <- <-]].
  intros [= <- <-] _. by exists v, db1, pk, row.
Qed.

(** An answer other than 201 leaves the store as it was. *)
Lemma create_refused (settings : Settings) (db : Store) (request : Request)
    (data : RequestData) (response : Response) (db' : Store) :
  RequestViews.create settings db request data = (response, db') ->
  status_code response ≠ HTTP_201_CREATED -> db' = db.
Proof.
  unfold RequestViews.create.
  destruct (negb _); [by intros [= <- <-]|].
  destruct (only_staff_can_create (user request)); [by intros [= <- <-]|].
  destruct (create_to_internal_value settings db data); [|by intros [= <- <-]].
  destruct (Serializers.create db (user request) a) as [[db1 pk]|e] eqn:Hc;
    [|by intros [= <- <-]].
  apply serializer_create_store in Hc as (rt & _ & -> & (_ & _ & _ & Hp & _)).
  cbn [purchase_requests set_next_pk set_purchase_requests] in Hp.
  rewrite Hp, lookup_insert_eq. by intros [= <- <-].
Qed.

(** X15. A request that the create view answers with 201 is stored
    pending, in the name of the caller, with no approver and no receipt
    and with an active request type; the caller is authenticated and is
    a superuser or has the role staff.  The other requests and the
    approvals are untouched, and the task that reads the proforma is
    queued exactly when the stored request carries a proforma. *)
Theorem created_request_is_pending_and_owned (settings : Settings) (db : Store)
    (request : Request) (data : RequestData) :
  status_code (fst (RequestViews.create settings db request data)) = HTTP_201_CREATED ->
  let db' := snd (RequestViews.create settings db request data) in
  exists pk row t,
    body (fst (RequestViews.create settings db request data)) = DetailBody pk row
    /\ purchase_requests db' !! pk = Some row
    /\ status row = Pending /\ created_by row = user_pk (user request)
    /\ approved_by row = None /\ receipt row = None
    /\ request_types db !! request_type row = Some t /\ is_active t = true
    /\ is_authenticated (user request) = true
    /\ (is_superuser (user request) = true
        \/ exists p, profile (user request) = Some p /\ role p = "staff")
    /\ (forall k, k ≠ pk -> purchase_requests db' !! k = purchase_requests db !! k)
    /\ approvals db' = approvals db
    /\ task_queue db'
       = task_queue db
         ++ (if field_file_truthy (proforma row) then [process_proforma pk] else []).
Proof.
  destruct (RequestViews.create settings db request data) as [response db'] eqn:Hrun.
  cbn [fst snd]. intros Hok.
  destruct (create_accepted _ _ _ _ _ _ Hrun Hok)
    as (v & db1 & pk & row & Hauth & Hrole & Hv & Hc & Hrow & -> & ->).
  apply create_to_internal_value_request_type in Hv as (rt & t & Hrt & Ht & Hact).
  apply serializer_create_store in Hc as (rt' & Hrt' & Hpk & Happ).
  rewrite Hrt in Hrt'. injection Hrt' as <-.
  destruct Happ as (_ & _ & _ & Hp & Ha & Hq & _).
  cbn [purchase_requests approvals task_queue set_next_pk set_purchase_requests] in Hp, Ha, Hq.
  rewrite Hp, lookup_insert_eq in Hrow. injection Hrow as <-.
  exists pk, (created_row (user request) v rt), t. split; [done|].
  assert (Hrole' : is_superuser (user request) = true
                   \/ exists p, profile (user request) = Some p /\ role p = "staff").
  { unfold only_staff_can_create, Permissions.get_profile in Hrole.
    destruct (is_superuser (user request)); [by left|right].
    destruct (profile (user request)) as [p|]; [|done]. cbn in Hrole.
    destruct (String.eqb_spec (role p) "staff"); [|done]. by exists p. }
  destruct (field_file_truthy (proforma (created_row (user request) v rt))).
  - cbn [purchase_requests approvals task_queue delay]. rewrite Hp, Ha, Hq.
    rewrite lookup_insert_eq. repeat (split; [done|]).
    split; [intros k Hk; by rewrite lookup_insert_ne|done].
  - rewrite Hp, Ha, Hq, lookup_insert_eq, app_nil_r. repeat (split; [done|]).
    split; [intros k Hk; by rewrite lookup_insert_ne|done].
Qed.

(** X16. The items that come with a creation are stored only when they
    are described: every row that the create view adds has a description
    that is not empty and belongs to the request shown in the answer,
    the rows that were there stay as they were, and a call that is not
    answered 201 adds no row. *)
Theorem created_items_are_described (settings : Settings) (db : Store)
    (request : Request) (data : RequestData) :
  exists new,
    request_items (snd (RequestViews.create settings db request data))
    = request_items db ++ new
    /\ Forall (fun r => description r ≠ ""
                        /\ forall pk row,
                             body (fst (RequestViews.create settings db request data))
                             = DetailBody pk row -> item_purchase_request r = pk) new
    /\ (status_code (fst (RequestViews.create settings db request data)) ≠ HTTP_201_CREATED ->
        new = []).
Proof.
  destruct (RequestViews.create settings db request data) as [response db'] eqn:Hrun.
  cbn [fst snd].
  destruct (decide (status_code response = HTTP_201_CREATED)) as [Hok|Hno].
  - destruct (create_accepted _ _ _ _ _ _ Hrun Hok)
      as (v & db1 & pk & row & _ & _ & _ & Hc & _ & -> & ->).
    apply serializer_create_store in Hc as (rt & _ & Hpk & Happ).
    destruct Happ as (_ & _ & _ & _ & _ & _ & new & Hnew & HP & _).
    exists new. split; [by destruct (field_file_truthy _)|]. split; [|done].
    eapply Forall_impl; [exact HP|]. cbn. intros r [Hr Hd]. split; [done|].
    by intros pk' row' [= <- _].
  - apply create_refused in Hrun as ->; [|done]. exists []. by rewrite app_nil_r.
Qed.

End WithBuiltins.

(** The staff member 10 creates a request of the type 1 without items. *)
Lemma created_request_is_pending_and_owned_witness :
  exists pk row,
    body (fst (@RequestViews.create sample_builtins default_settings
                 store_with_pending_request (request_of staff_user)
                 (payload_with_items (JList []))))
    = DetailBody pk row
    /\ status row = Pending /\ created_by row = 10%N.
Proof.
  destruct (@created_request_is_pending_and_owned sample_builtins default_settings
              store_with_pending_request (request_of staff_user)
              (payload_with_items (JList [])) eq_refl)
    as (pk & row & t & Hb & _ & Hs & Hc & _).
  exists pk, row. split; [exact Hb|]. split; [exact Hs|exact Hc].
Defined.

End CreateFacts.

(** ** Submitting a receipt *)

Module ReceiptFacts.
Import Python Models Permissions Serializers Views RequestViews Examples ApprovalFacts.

Section WithBuiltins.
Context `{Builtins}.

(** A file that [validate_receipt] lets through. *)
Lemma validate_receipt_file_accepts (settings : Settings) (f : UploadedFile)
    (value : option UploadedFile) :
  validate_receipt_file settings (Some f) = Return value ->
  value = Some f
  /\ (name f ≠ "" -> (size f <= MAX_UPLOAD_SIZE settings)%Z
                     /\ lower (extension f) ∈ ALLOWED_FILE_TYPES settings).
Proof.
  unfold validate_receipt_file, file_truthy, extension.
  destruct (String.eqb_spec (name f) "") as [He|Hne]; cbn.
  - by intros [= <-].
  - destruct (Z.gtb_spec (size f) (MAX_UPLOAD_SIZE settings)); [done|].
    case_bool_decide as Hext; [done|]. intros [= <-]. split; [done|]. intros _.
    by split.
Qed.

(** What a 200 answer of [submit_receipt] means. *)
Lemma submit_receipt_accepted (settings : Settings) (db : Store) (request : Request)
    (data : ReceiptData) (pk : uuid) (response : Response) (db' : Store) :
  submit_receipt settings db request data pk = (response, db') ->
  status_code response = HTTP_200_OK ->
  exists r f,
    staff_permissions request = true
    /\ get_object db request pk = Some r
    /\ (is_superuser (user request) = true \/ created_by r = user_pk (user request))
    /\ status r = Approved
    /\ data = Some (Return f)
    /\ validate_receipt_file settings (Some f) = Return (Some f)
    /\ response = {| body := DetailBody pk (set_receipt (Some (FieldFile_name "receipts/" f)) r);
                     status_code := HTTP_200_OK |}
    /\ db' = delay (validate_receipt_task pk)
               (set_purchase_requests
                  (<[pk := set_receipt (Some (FieldFile_name "receipts/" f)) r]>
                     (purchase_requests db)) db).
Proof.
  unfold submit_receipt, permission_denied.
  destruct (staff_permissions request); cbn [negb].
  2:{ destruct (is_authenticated (user request)); by intros [= <- <-]. }
  destruct (get_object db request pk) as [r|]; [|by intros [= <- <-]].
  destruct (negb (is_superuser (user request)) && bool_decide _) eqn:Hown;
    [by intros [= <- <-]|].
  destruct (bool_decide (status r = Approved)) eqn:Hst; cbn [negb]; [|by intros [= <- <-]].
  apply bool_decide_eq_true in Hst.
  destruct data as [[f|e]|]; cbn -[validate_receipt_file].
  - destruct (validate_receipt_file settings (Some f)) as [value|e] eqn:Hf.
    + pose proof (validate_receipt_file_accepts _ _ _ Hf) as [-> _].
      intros [= <- <-] _. exists r, f. repeat (split; [done|]). split; [|done].
      destruct (is_superuser (user request)); [by left|right]. cbn in Hown.
      by apply bool_decide_eq_false, dec_stable in Hown.
    + intros [= <- <-]. unfold validate_receipt_file in Hf. repeat case_match; try done.
      all: by injection Hf as <-.
  - by intros [= <- <-].
  - by intros [= <- <-].
Qed.

(** An answer other than 200 leaves the store as it was. *)
Lemma submit_receipt_refused (settings : Settings) (db : Store) (request : Request)
    (data : ReceiptData) (pk : uuid) (response : Response) (db' : Store) :
  submit_receipt settings db request data pk = (response, db') ->
  status_code response ≠ HTTP_200_OK -> db' = db.
Proof.
  unfold submit_receipt. repeat case_match; intros [= <- <-]; done.
Qed.

(** X17. A receipt is taken for an approved request only, from its
    creator or a superuser, and only when the file passes the size and
    type checks: then the request holds, as its receipt, the path under
    which the storage saved the file below [receipts/], one task that
    validates the receipt is queued, and nothing else changes.  *)
Theorem receipt_accepted_for_approved_requests_only (settings : Settings) (db : Store)
    (request : Request) (data : ReceiptData) (pk : uuid) :
  status_code (fst (submit_receipt settings db request data pk)) = HTTP_200_OK ->
  let db' := snd (submit_receipt settings db request data pk) in
  exists r f,
    purchase_requests db !! pk = Some r /\ status r = Approved
    /\ (is_superuser (user request) = true \/ created_by r = user_pk (user request))
    /\ data = Some (Return f)
    /\ (name f ≠ "" -> (size f <= MAX_UPLOAD_SIZE settings)%Z
                       /\ lower (extension f) ∈ ALLOWED_FILE_TYPES settings)
    /\ purchase_requests db'
       = <[pk := set_receipt (Some (FieldFile_name "receipts/" f)) r]> (purchase_requests db)
    /\ (name f ≠ "" -> FieldFile_name "receipts/" f = "receipts/" +:+ saved_as f)
    /\ task_queue db' = task_queue db ++ [validate_receipt_task pk]
    /\ request_items db' = request_items db /\ approvals db' = approvals db
    /\ approval_levels db' = approval_levels db /\ request_types db' = request_types db
    /\ forall k, k ≠ pk -> purchase_requests db' !! k = purchase_requests db !! k.
Proof.
  destruct (submit_receipt settings db request data pk) as [response db'] eqn:Hrun.
  cbn [fst snd]. intros Hok.
  destruct (submit_receipt_accepted _ _ _ _ _ _ _ Hrun Hok)
    as (r & f & _ & Hr & Hown & Hst & Hdata & Hf & _ & ->).
  apply get_object_Some in Hr as [Hr _].
  apply validate_receipt_file_accepts in Hf as [_ Hf].
  exists r, f. do 5 (split; [done|]). split; [done|]. split.
  { intros Hn. unfold FieldFile_name, file_truthy.
    by apply String.eqb_neq in Hn as ->. }
  do 5 (split; [done|]).
  intros k Hk. cbn [purchase_requests delay set_purchase_requests].
  by rewrite lookup_insert_ne.
Qed.

(** X18. [submit_receipt] never answers that the caller can only submit
    receipts for their own requests: the policy lets in only superusers,
    who are exempt from that check, and staff members, whose queryset
    holds no request of another user, so that such a request is answered
    404 before the check is reached. *)
Theorem receipt_for_another_users_request_is_not_found (settings : Settings) (db : Store)
    (request : Request) (data : ReceiptData) (pk : uuid) :
  fst (submit_receipt settings db request data pk)
  ≠ error "You can only submit receipts for your own requests." HTTP_403_FORBIDDEN.
Proof.
  unfold submit_receipt, staff_permissions, permission_denied, get_object, in_queryset.
  unfold IsStaff_has_permission, get_profile. cbn [IsAuthenticated_has_permission].
  destruct (is_authenticated (user request)); cbn [negb andb fst]; [|done].
  destruct (is_superuser (user request)); cbn [negb andb granted fst].
  - destruct (purchase_requests db !! pk) as [r|]; [|done].
    destruct (match query_status request with Some s => _ | None => true end); [|done].
    case_bool_decide; cbn [negb]; [|done].
    destruct (receipt_run_validation settings data) as [f|[]]; done.
  - destruct (profile (user request)) as [p|]; cbn; [|done].
    destruct (String.eqb (role p) "staff"); cbn; [|done].
    destruct (purchase_requests db !! pk) as [r|]; [|done].
    case_bool_decide as Hown; cbn [andb]; [|done].
    destruct (match query_status request with Some s => _ | None => true end); [|done].
    rewrite bool_decide_eq_false_2 by (by intros ?).
    case_bool_decide; cbn [negb]; [|done].
    destruct (receipt_run_validation settings data) as [f|[]]; done.
Qed.

End WithBuiltins.

(** The owner of the approved request 4 sends [receipt.PDF], which the
    storage, having a file of that name already, saves as
    [receipt_x7Kp2aB.PDF]. *)
Lemma receipt_accepted_for_approved_requests_only_witness :
  let upload := {| name := "receipt.PDF"; size := 100; saved_as := "receipt_x7Kp2aB.PDF" |} in
  task_queue
    (snd (@submit_receipt sample_builtins default_settings store_with_approved_request
            (request_of staff_user) (Some (Return upload)) 4%N))
  = [validate_receipt_task 4%N]
  /\ purchase_requests
       (snd (@submit_receipt sample_builtins default_settings store_with_approved_request
               (request_of staff_user) (Some (Return upload)) 4%N)) !! 4%N
     = Some (set_receipt (Some "receipts/receipt_x7Kp2aB.PDF") approved_request).
Proof.
  cbv zeta.
  destruct (@receipt_accepted_for_approved_requests_only sample_builtins default_settings
              store_with_approved_request (request_of staff_user)
              (Some (Return {| name := "receipt.PDF"; size := 100;
                               saved_as := "receipt_x7Kp2aB.PDF" |})) 4%N eq_refl)
    as (r & f & Hr & Hst & _ & Hf & _ & Hp & _ & Hq & _).
  split; [exact Hq|]. rewrite Hp, lookup_insert_eq.
  injection Hf as <-. injection Hr as <-. reflexivity.
Defined.

End ReceiptFacts.

(** ** The task that reads a proforma *)

Module TasksFacts.
Import Python Models Serializers Views DocumentProcessing ModelProperties Tasks Examples
  ItemsFacts.

Section WithBuiltins.
Context `{Builtins}.

(** The rows that the second half of the task adds are rows of the
    request. *)
Lemma create_items_from_proforma_appends (db : Store) (request_id : uuid)
    (extracted_data : list (string * json)) :
  appends_items (fun r => item_purchase_request r = request_id) db
    (snd (create_items_from_proforma db request_id extracted_data)).
Proof.
  unfold create_items_from_proforma. repeat case_match; cbn [snd];
    try apply appends_items_refl.
  apply foldl_appends_items, proforma_one_item_appends.
Qed.

(** With an item of the request in the table, the second half of the
    task succeeds and writes nothing. *)
Lemma create_items_from_proforma_skips (db : Store) (request_id : uuid)
    (extracted_data : list (string * json)) :
  items_exist db request_id = true ->
  create_items_from_proforma db request_id extracted_data = (TaskSuccess, db).
Proof.
  unfold create_items_from_proforma. intros ->. repeat case_match; done.
Qed.

(** The task is the second half run on the store that holds the
    extracted data, for a request that has a proforma. *)
Lemma process_proforma_task_steps (db : Store) (request_id : uuid)
    (extracted_data : list (string * json)) (r : PurchaseRequest) :
  purchase_requests db !! request_id = Some r ->
  field_file_truthy (proforma r) = true ->
  process_proforma_task db request_id extracted_data
  = create_items_from_proforma (with_extracted_data db request_id extracted_data)
      request_id extracted_data.
Proof.
  intros Hr Hp. unfold process_proforma_task, with_extracted_data. by rewrite Hr, Hp.
Qed.

Lemma process_proforma_task_without_proforma (db : Store) (request_id : uuid)
    (extracted_data : list (string * json)) :
  (forall r, purchase_requests db !! request_id = Some r ->
             field_file_truthy (proforma r) = false) ->
  snd (process_proforma_task db request_id extracted_data) = db
  /\ with_extracted_data db request_id extracted_data = db.
Proof.
  intros Hno. unfold process_proforma_task, with_extracted_data.
  destruct (purchase_requests db !! request_id) as [r|]; [|done].
  by rewrite (Hno r eq_refl).
Qed.

(** Writing the extracted data a second time changes nothing. *)
Lemma with_extracted_data_again (db db1 : Store) (request_id : uuid)
    (extracted_data : list (string * json)) :
  engine db1 = engine (with_extracted_data db request_id extracted_data) ->
  purchase_requests db1
  = purchase_requests (with_extracted_data db request_id extracted_data) ->
  with_extracted_data db1 request_id extracted_data = db1.
Proof.
  intros _ Hp. unfold with_extracted_data at 1. rewrite Hp.
  unfold with_extracted_data.
  destruct (purchase_requests db !! request_id) as [r|] eqn:Hr; [|by rewrite Hr].
  destruct (field_file_truthy (proforma r)) eqn:Hf; [|by rewrite Hr, Hf].
  cbn [purchase_requests set_purchase_requests]. rewrite lookup_insert_eq.
  cbn [proforma set_proforma_extracted_data]. rewrite Hf.
  unfold with_extracted_data in Hp. rewrite Hr, Hf in Hp.
  cbn [purchase_requests set_purchase_requests] in Hp.
  change (set_proforma_extracted_data _ (set_proforma_extracted_data ?v r))
    with (set_proforma_extracted_data v r).
  rewrite insert_insert_eq, <- Hp. by destruct db1.
Qed.

(** X19. Items entered by hand take precedence over the proforma: when
    the request already has an item, [process_proforma] creates none.
    It does not retry, the table of items is as it was, and the store it
    leaves is the one it found with, for a request that has a proforma,
    the extracted data written on the request. *)
Theorem manual_items_take_precedence (db : Store) (request_id : uuid)
    (extracted_data : list (string * json)) :
  items_exist db request_id = true ->
  let run := process_proforma_task db request_id extracted_data in
  request_items (snd run) = request_items db
  /\ snd run = with_extracted_data db request_id extracted_data
  /\ (forall r, purchase_requests db !! request_id = Some r ->
                field_file_truthy (proforma r) = true ->
                fst run = TaskSuccess
                /\ purchase_requests (snd run) !! request_id
                   = Some (set_proforma_extracted_data (Some (JDict extracted_data)) r))
  /\ (forall k, k ≠ request_id ->
                purchase_requests (snd run) !! k = purchase_requests db !! k).
Proof.
  intros Hex. cbv zeta.
  destruct (purchase_requests db !! request_id) as [r|] eqn:Hr.
  2:{ unfold process_proforma_task, with_extracted_data. rewrite Hr. cbn [snd].
      by repeat split. }
  destruct (field_file_truthy (proforma r)) eqn:Hf.
  2:{ unfold process_proforma_task, with_extracted_data. rewrite Hr, Hf. cbn [snd negb].
      do 2 (split; [done|]). split; [|done]. intros r' [= <-]. congruence. }
  rewrite (process_proforma_task_steps _ _ _ r Hr Hf).
  rewrite create_items_from_proforma_skips.
  2:{ unfold with_extracted_data. by rewrite Hr, Hf. }
  cbn [fst snd]. unfold with_extracted_data. rewrite Hr, Hf.
  cbn [request_items purchase_requests set_purchase_requests].
  do 2 (split; [done|]). split.
  - intros r' [= <-] _. split; [done|]. apply lookup_insert_eq.
  - intros k Hk. by rewrite lookup_insert_ne.
Qed.

(** X20. [process_proforma] writes the extracted data on its request
    and touches no items but those of that request, and running it again
    changes nothing: the approvals, the levels, the types, the queue and
    the other requests are as before, the rows it adds are rows of the
    request, and a second run on the store that the first run left, with
    the same extracted data, returns that store. *)
Theorem process_proforma_is_idempotent (db : Store) (request_id : uuid)
    (extracted_data : list (string * json)) :
  let db1 := snd (process_proforma_task db request_id extracted_data) in
  appends_items (fun r => item_purchase_request r = request_id)
    (with_extracted_data db request_id extracted_data) db1
  /\ approvals db1 = approvals db /\ task_queue db1 = task_queue db
  /\ (forall k, k ≠ request_id -> purchase_requests db1 !! k = purchase_requests db !! k)
  /\ snd (process_proforma_task db1 request_id extracted_data) = db1.
Proof.
  cbv zeta.
  destruct (purchase_requests db !! request_id) as [r|] eqn:Hr.
  2:{ destruct (process_proforma_task_without_proforma db request_id extracted_data)
        as [-> ->]; [by rewrite Hr|].
      split; [apply appends_items_refl|]. do 3 (split; [done|]).
      apply process_proforma_task_without_proforma. by rewrite Hr. }
  destruct (field_file_truthy (proforma r)) eqn:Hf.
  2:{ destruct (process_proforma_task_without_proforma db request_id extracted_data)
        as [-> ->]; [rewrite Hr; by intros ? [= <-]|].
      split; [apply appends_items_refl|]. do 3 (split; [done|]).
      apply process_proforma_task_without_proforma. rewrite Hr. by intros ? [= <-]. }
  rewrite (process_proforma_task_steps _ _ _ r Hr Hf).
  set (saved := with_extracted_data db request_id extracted_data).
  pose proof (create_items_from_proforma_appends saved request_id extracted_data) as Happ.
  set (db1 := snd (create_items_from_proforma saved request_id extracted_data)) in *.
  split; [exact Happ|].
  destruct Happ as (He & _ & _ & Hp & Ha & Hq & new & Hnew & HP & Hsame).
  assert (Hsaved : purchase_requests saved
            = <[request_id := set_proforma_extracted_data (Some (JDict extracted_data)) r]>
                (purchase_requests db)
            /\ approvals saved = approvals db /\ task_queue saved = task_queue db).
  { unfold saved, with_extracted_data. by rewrite Hr, Hf. }
  destruct Hsaved as (Hps & Has & Hqs).
  split; [congruence|]. split; [congruence|]. split.
  { intros k Hk. by rewrite Hp, Hps, lookup_insert_ne. }
  assert (Hr1 : purchase_requests db1 !! request_id
                = Some (set_proforma_extracted_data (Some (JDict extracted_data)) r))
    by (rewrite Hp, Hps; apply lookup_insert_eq).
  rewrite (process_proforma_task_steps _ _ _ _ Hr1 Hf).
  rewrite (with_extracted_data_again db db1) by done.
  destruct new as [|row new].
  - rewrite (Hsame eq_refl). fold db1. by rewrite (Hsame eq_refl).
  - rewrite create_items_from_proforma_skips; [done|].
    apply bool_decide_eq_true_2. rewrite Hnew. apply Exists_app. right.
    apply Exists_cons_hd. by apply Forall_cons in HP as [? _].
Qed.

End WithBuiltins.

(** The extraction names an item, the request has one already: the row
    25 stays alone, and the request holds the extracted data. *)
Lemma manual_items_take_precedence_witness :
  let run := @process_proforma_task sample_builtins Scenarios.store_with_proforma 4%N
               Scenarios.extracted_ink in
  fst run = TaskSuccess
  /\ request_items (snd run) = [Scenarios.paper 25 4]
  /\ proforma_extracted_data <$> purchase_requests (snd run) !! 4%N
     = Some (Some (JDict Scenarios.extracted_ink)).
Proof.
  cbv zeta.
  destruct (@manual_items_take_precedence sample_builtins Scenarios.store_with_proforma 4%N
              Scenarios.extracted_ink eq_refl) as (Hitems & _ & Hreq & _).
  destruct (Hreq _ eq_refl eq_refl) as [Hrun Hrow].
  split; [exact Hrun|]. split; [exact Hitems|]. by rewrite Hrow.
Defined.

End TasksFacts.

(** ** Cleaning of extracted data *)

Module ProformaDataFacts.
Import Python Models DocumentProcessing ProformaData Examples.

Lemma dict_lookup_set_eq (key : string) (v : json) (d : list (string * json)) :
  dict_lookup key (dict_set key v d) = Some v.
Proof.
  induction d as [|[k x] d IH]; cbn; [by rewrite String.eqb_refl|].
  destruct (dict_lookup key d) as [y|] eqn:Hd; cbn.
  - by rewrite IH.
  - destruct (String.eqb k key) eqn:Hk; cbn; [by rewrite Hd, Hk|by rewrite IH].
Qed.

Lemma dict_lookup_set_ne (key key' : string) (v : json) (d : list (string * json)) :
  key ≠ key' -> dict_lookup key' (dict_set key v d) = dict_lookup key' d.
Proof.
  intros Hne. induction d as [|[k x] d IH]; cbn.
  - by apply String.eqb_neq in Hne as ->.
  - destruct (dict_lookup key d) as [y|] eqn:Hd; cbn; [by rewrite IH|].
    destruct (String.eqb_spec k key) as [->|Hk]; cbn; [|by rewrite IH].
    by apply String.eqb_neq in Hne as ->.
Qed.

Lemma dict_set_same (key : string) (v : json) (d : list (string * json)) :
  dict_lookup key d = Some v -> dict_set key v d = d.
Proof.
  induction d as [|[k x] d IH]; cbn; [done|].
  destruct (dict_lookup key d) as [y|] eqn:Hd.
  - intros [= ->]. by rewrite IH.
  - destruct (String.eqb k key); [by intros [= ->]|done].
Qed.

Lemma mapM_Return {A B} (f : A -> result B) (l : list A) (l' : list B) :
  mapM f l = Return l' -> Forall2 (fun x y => f x = Return y) l l'.
Proof.
  revert l'. induction l as [|x l IH]; cbn; intros l'; [by intros [= <-]|].
  destruct (f x) as [y|] eqn:Hx; cbn; [|done].
  destruct (mapM f l) as [ys|]; cbn; [|done]. intros [= <-]. constructor; [done|by apply IH].
Qed.

Lemma mapM_fixed {A} (f : A -> result A) (l : list A) :
  Forall (fun x => f x = Return x) l -> mapM f l = Return l.
Proof.
  induction 1 as [|x l Hx _ IH]; cbn; [done|]. by rewrite Hx, IH.
Qed.

Section WithBuiltins.
Context `{Builtins}.

Lemma safe_float_of_float (f default : float) : safe_float (JFloat f) default = Return f.
Proof. done. Qed.

(** What the cleaning of one item returns. *)
Lemma clean_item_Return (item item' : json) :
  clean_item item = Return item' -> clean_line item'.
Proof.
  destruct item as [| | | | | |d]; try done. cbn.
  destruct (safe_float (dict_get d "quantity" JNull) float_zero) as [q|]; [|done]. cbn.
  destruct (safe_float _ float_zero) as [u|]; [|done]. cbn.
  destruct (safe_float _ float_zero) as [t|]; [|done]. cbn.
  intros [= <-]. eexists. split; [done|]. split; [|split].
  - exists q. rewrite !dict_lookup_set_ne by done. apply dict_lookup_set_eq.
  - exists u. rewrite dict_lookup_set_ne by done. apply dict_lookup_set_eq.
  - exists t. apply dict_lookup_set_eq.
Qed.

(** A cleaned item is left as it is. *)
Lemma clean_item_fixed (item : json) : clean_line item -> clean_item item = Return item.
Proof.
  intros (d & -> & [q Hq] & [u Hu] & [t Ht]). cbn. unfold dict_get.
  rewrite Hq. cbn. rewrite (dict_set_same _ _ _ Hq), Hu. cbn.
  rewrite (dict_set_same _ _ _ Hu), Ht. cbn. by rewrite (dict_set_same _ _ _ Ht).
Qed.

Lemma clean_extracted_data_Return (v v' : json) :
  clean_extracted_data v = Return v' -> exists d', v' = JDict d' /\ cleaned d'.
Proof.
  destruct v as [| | | |s|l|d]; try done.
  { cbn. by destruct (is_substring "items" s). }
  { cbn. by destruct (existsb _ l). }
  unfold clean_extracted_data.
  set (d0 := if bool_decide (is_Some (dict_lookup "items" d)) then d
             else dict_set "items" (JList []) d).
  assert (Hitems : is_Some (dict_lookup "items" d0)).
  { unfold d0. case_bool_decide; [done|]. rewrite dict_lookup_set_eq. by eexists. }
  clearbody d0. destruct Hitems as [items Hitems].
  assert (Hget : dict_get d0 "items" (JList []) = items) by (unfold dict_get; by rewrite Hitems).
  rewrite !Hget.
  destruct (py_iter items) as [elements|] eqn:Hiter; cbn; [|done].
  destruct (mapM clean_item elements) as [cleaned_items|] eqn:Hclean; cbn; [|done].
  apply mapM_Return in Hclean.
  set (d1 := match items with JList _ => dict_set "items" (JList cleaned_items) d0 | _ => d0 end).
  assert (Hd1 : exists items', dict_lookup "items" d1 = Some items'
                 /\ match items' with
                    | JList l => Forall clean_line l
                    | JStr s => s = ""
                    | JDict keys => keys = []
                    | _ => False
                    end).
  { unfold d1. destruct items as [| | | |s|l|keys]; try done.
    - exists (JStr s). split; [done|]. destruct s; [done|].
      cbn in Hiter. injection Hiter as <-. by inversion Hclean.
    - exists (JList cleaned_items). split; [apply dict_lookup_set_eq|].
      cbn in Hiter. injection Hiter as <-.
      clear -Hclean. induction Hclean as [|x y l l' Hx _ IH]; constructor; [|done].
      by eapply clean_item_Return.
    - exists (JDict keys). split; [done|]. destruct keys; [done|].
      cbn in Hiter. injection Hiter as <-. by inversion Hclean. }
  clearbody d1. destruct Hd1 as (items' & Hitems' & Hshape).
  destruct (safe_float (dict_get d1 "subtotal" JNull) float_zero) as [a|]; cbn; [|done].
  destruct (safe_float _ float_zero) as [b|]; cbn; [|done].
  destruct (safe_float _ float_zero) as [c|]; cbn; [|done].
  intros [= <-]. eexists. split; [done|]. split; [|split; [|split]].
  - exists a. rewrite !dict_lookup_set_ne by done. apply dict_lookup_set_eq.
  - exists b. rewrite dict_lookup_set_ne by done. apply dict_lookup_set_eq.
  - exists c. apply dict_lookup_set_eq.
  - exists items'. by rewrite !dict_lookup_set_ne.
Qed.

Lemma clean_extracted_data_fixed (d : list (string * json)) :
  cleaned d -> clean_extracted_data (JDict d) = Return (JDict d).
Proof.
  intros ([a Ha] & [b Hb] & [c Hc] & items & Hitems & Hshape).
  unfold clean_extracted_data. rewrite bool_decide_eq_true_2 by (by rewrite Hitems).
  unfold dict_get. rewrite Hitems.
  assert (Hloop : exists elements, py_iter items = Return elements
                    /\ mapM clean_item elements = Return elements
                    /\ match items with
                       | JList _ => dict_set "items" (JList elements) d
                       | _ => d
                       end = d).
  { destruct items as [| | | |s|l|keys]; try done.
    - subst s. by exists [].
    - exists l. split; [done|]. split; [|by apply dict_set_same].
      apply mapM_fixed. eapply Forall_impl; [exact Hshape|]. apply clean_item_fixed.
    - subst keys. by exists []. }
  destruct Hloop as (elements & -> & Hclean & Hd). cbn. rewrite Hclean. cbn. rewrite Hd.
  rewrite Ha. cbn. rewrite (dict_set_same _ _ _ Ha), Hb. cbn.
  rewrite (dict_set_same _ _ _ Hb), Hc. cbn. by rewrite (dict_set_same _ _ _ Hc).
Qed.

(** X21. Data that comes out of the cleaning has numbers where numbers
    are expected: the result is a dict that has an [items] entry and
    whose [subtotal], [tax] and [total] are floats, and when the items
    are a list, each of them is a dict whose [quantity], [unit_price]
    and [total_price] are floats. *)
Theorem cleaned_data_has_numeric_fields (v v' : json) :
  clean_extracted_data v = Return v' ->
  exists d',
    v' = JDict d' /\ float_at "subtotal" d' /\ float_at "tax" d' /\ float_at "total" d'
    /\ is_Some (dict_lookup "items" d')
    /\ forall l, dict_lookup "items" d' = Some (JList l) -> Forall clean_line l.
Proof.
  intros (d' & -> & Hs & Hx & Ht & items & Hitems & Hshape)%clean_extracted_data_Return.
  exists d'. do 4 (split; [done|]). split; [by eexists|].
  intros l Hl. rewrite Hitems in Hl. by injection Hl as ->.
Qed.

(** X22. The cleaning is idempotent: data that it returned is returned
    unchanged when it is cleaned again. *)
Theorem cleaning_is_idempotent (v v' : json) :
  clean_extracted_data v = Return v' -> clean_extracted_data v' = Return v'.
Proof.
  intros (d' & -> & Hcleaned)%clean_extracted_data_Return.
  by apply clean_extracted_data_fixed.
Qed.

End WithBuiltins.

(** Extracted data with a quantity given as an integer, a total that is
    not a number and no subtotal. *)
Lemma cleaned_data_has_numeric_fields_witness :
  exists d',
    @clean_extracted_data sample_builtins Scenarios.extracted_raw = Return (JDict d')
    /\ float_at "total" d' /\ float_at "subtotal" d'.
Proof.
  destruct (@cleaned_data_has_numeric_fields sample_builtins Scenarios.extracted_raw _ eq_refl)
    as (d' & Hv & Hs & _ & Ht & _).
  exists d'. split; [by rewrite <- Hv|]. split; [exact Ht|exact Hs].
Defined.

Lemma cleaning_is_idempotent_witness :
  exists v',
    @clean_extracted_data sample_builtins Scenarios.extracted_raw = Return v'
    /\ @clean_extracted_data sample_builtins v' = Return v'.
Proof.
  eexists. split; [reflexivity|].
  exact (@cleaning_is_idempotent sample_builtins Scenarios.extracted_raw _ eq_refl).
Defined.

End ProformaDataFacts.

(** ** Configuration of the approval levels *)

Module ConfigurationFacts.
Import Python Models Configuration Examples.

(** What an accepted validation has checked: no other level of the table
    has the request type and the number looked at. *)
Lemma validate_Return (db : Store) (instance : option ApprovalLevel) (attrs : LevelAttrs)
    (t : uuid) (n : N) :
  ApprovalLevelSerializer_validate db instance attrs = Return attrs ->
  match attr_request_type attrs with
  | Some t' => Some t'
  | None => level_request_type <$> instance
  end = Some t ->
  number_or (attr_level_number attrs) (level_number <$> instance) = Some n ->
  n ≠ 0%N ->
  forall l, l ∈ approval_levels db -> level_request_type l = t -> level_number l = n ->
            exists i, instance = Some i /\ level_pk l = level_pk i.
Proof.
  unfold ApprovalLevelSerializer_validate. intros Hv Htype Hnumber Hn l Hl Ht Hnum.
  cbv zeta in Hv. rewrite Htype, Hnumber in Hv.
  apply N.eqb_neq in Hn. rewrite Hn in Hv.
  case_bool_decide as Hq; [done|].
  destruct instance as [i|].
  - exists i. split; [done|]. destruct (decide (level_pk l = level_pk i)) as [|Hpk]; [done|].
    assert (Hin : l ∈ filter (fun l => level_pk l ≠ level_pk i)
                    (filter (fun l => level_request_type l = t /\ level_number l = n)
                       (approval_levels db)))
      by (apply list_elem_of_filter; split; [done|]; by apply list_elem_of_filter).
    rewrite Hq in Hin. by apply elem_of_nil in Hin.
  - assert (Hin : l ∈ filter (fun l => level_request_type l = t /\ level_number l = n)
                    (approval_levels db))
      by (by apply list_elem_of_filter).
    rewrite Hq in Hin. by apply elem_of_nil in Hin.
Qed.

(** X23. A level that [ApprovalLevelSerializer.validate] accepts for
    creation keeps the level numbers of a request type distinct: in a
    table where no two levels share request type and number, adding a
    row with the accepted request type and number, a number other than
    zero, leaves the table so. *)
Theorem accepted_level_keeps_numbers_unique (db : Store) (attrs : LevelAttrs)
    (new : ApprovalLevel) :
  levels_unique (approval_levels db) ->
  ApprovalLevelSerializer_validate db None attrs = Return attrs ->
  attr_request_type attrs = Some (level_request_type new) ->
  attr_level_number attrs = Some (level_number new) ->
  level_number new ≠ 0%N ->
  levels_unique (approval_levels db ++ [new]).
Proof.
  intros Hu Hv Ht Hn Hpos. unfold levels_unique in *.
  change (NoDup ((fun l => (level_request_type l, level_number l)) <$>
                   (approval_levels db ++ [new]))).
  rewrite fmap_app. apply NoDup_app. split; [done|]. split; [|apply NoDup_singleton].
  intros [t n] (l & [= -> ->] & Hl)%list_elem_of_fmap Hnew. cbn in Hnew.
  apply list_elem_of_singleton in Hnew as [= Hlt Hln].
  assert (A : match attr_request_type attrs with
              | Some t' => Some t'
              | None => level_request_type <$> None
              end = Some (level_request_type new)) by (by rewrite Ht).
  assert (B : number_or (attr_level_number attrs) (level_number <$> None)
              = Some (level_number new)).
  { rewrite Hn. cbn. by apply N.eqb_neq in Hpos as ->. }
  by destruct (validate_Return db None attrs _ _ Hv A B Hpos l Hl Hlt Hln) as (i & [=] & _).
Qed.

Lemma accepted_level_keeps_numbers_unique_witness :
  levels_unique
    (two_levels_each
     ++ [{| level_pk := 40; level_request_type := 1; level_number := 3;
            approver_role := "finance"; is_required := true |}]).
Proof.
  apply (accepted_level_keeps_numbers_unique store_with_pending_request
           {| attr_request_type := Some 1%N; attr_level_number := Some 3%N |});
    try reflexivity; [|done].
  unfold levels_unique. cbn. compute_done.
Defined.

(** X24. The same holds for an update: when the keys of the table are
    distinct and [validate] accepts the attributes for one of its rows,
    writing the attributes to that row leaves no two levels with the
    same request type and number, provided the number written, or kept,
    is not zero. *)
Theorem updated_level_keeps_numbers_unique (db : Store) (i : ApprovalLevel)
    (attrs : LevelAttrs) :
  levels_unique (approval_levels db) ->
  NoDup (map level_pk (approval_levels db)) ->
  i ∈ approval_levels db ->
  ApprovalLevelSerializer_validate db (Some i) attrs = Return attrs ->
  level_number (apply_attrs attrs i) ≠ 0%N ->
  levels_unique
    (map (fun l => if bool_decide (level_pk l = level_pk i) then apply_attrs attrs i else l)
         (approval_levels db)).
Proof.
  intros Hu Hpk Hi Hv Hpos. unfold levels_unique in *.
  set (key := fun l : ApprovalLevel => (level_request_type l, level_number l)) in *.
  set (f := fun l : ApprovalLevel =>
              if bool_decide (level_pk l = level_pk i) then apply_attrs attrs i else l).
  assert (Hother : forall l, l ∈ approval_levels db -> key l = key (apply_attrs attrs i) ->
                     level_pk l = level_pk i).
  { intros l Hl [= Hlt Hln].
    assert (A : match attr_request_type attrs with
                | Some t' => Some t'
                | None => level_request_type <$> Some i
                end = Some (level_request_type (apply_attrs attrs i)))
      by (cbn; by destruct (attr_request_type attrs)).
    assert (B : number_or (attr_level_number attrs) (level_number <$> Some i)
                = Some (level_number (apply_attrs attrs i))).
    { cbn. unfold apply_attrs in Hpos. cbn in Hpos.
      destruct (attr_level_number attrs) as [n|]; cbn in *; [|done].
      by apply N.eqb_neq in Hpos as ->. }
    by destruct (validate_Return db (Some i) attrs _ _ Hv A B Hpos l Hl Hlt Hln)
      as (i' & [= <-] & Hsame). }
  apply list_elem_of_split in Hi as (l1 & l2 & Hsplit).
  rewrite Hsplit in Hu, Hpk, Hother |- *.
  change (NoDup (key <$> (f <$> (l1 ++ i :: l2)))).
  change (NoDup (key <$> (l1 ++ i :: l2))) in Hu.
  change (NoDup (level_pk <$> (l1 ++ i :: l2))) in Hpk.
  rewrite fmap_app, fmap_cons in Hu. rewrite fmap_app, fmap_cons in Hpk.
  apply NoDup_app in Hu as (Hu1 & Hu12 & Hu2). apply NoDup_cons in Hu2 as [_ Hu2].
  apply NoDup_app in Hpk as (_ & Hpk1 & Hpk2). apply NoDup_cons in Hpk2 as [Hpk2 _].
  assert (Hf1 : f <$> l1 = l1).
  { rewrite <- (list_fmap_id l1) at 2. apply list_fmap_ext. intros k l Hl. unfold f.
    rewrite bool_decide_eq_false_2; [done|]. intros Heq.
    apply (Hpk1 (level_pk l)); [apply list_elem_of_fmap; exists l; split; [done|];
      by eapply list_elem_of_lookup_2|]. rewrite Heq. apply list_elem_of_here. }
  assert (Hf2 : f <$> l2 = l2).
  { rewrite <- (list_fmap_id l2) at 2. apply list_fmap_ext. intros k l Hl. unfold f.
    rewrite bool_decide_eq_false_2; [done|]. intros Heq. apply Hpk2. rewrite <- Heq.
    apply list_elem_of_fmap. exists l. split; [done|]. by eapply list_elem_of_lookup_2. }
  rewrite fmap_app, fmap_cons, Hf1, Hf2. unfold f at 1. rewrite bool_decide_eq_true_2 by done.
  rewrite fmap_app, fmap_cons. apply NoDup_app. split; [done|]. split.
  - intros k Hk1 Hk. apply elem_of_cons in Hk as [->|Hk2]; [|by apply (Hu12 k), list_elem_of_further].
    apply list_elem_of_fmap in Hk1 as (l & Hkey & Hl).
    apply (Hpk1 (level_pk l)); [apply list_elem_of_fmap; by exists l|].
    rewrite (Hother l); [apply list_elem_of_here| |done].
    apply elem_of_app. by left.
  - apply NoDup_cons. split; [|done].
    intros (l & Hkey & Hl)%list_elem_of_fmap. apply Hpk2.
    rewrite <- (Hother l); [apply list_elem_of_fmap; by exists l| |done].
    apply elem_of_app. right. by apply list_elem_of_further.
Qed.

Lemma updated_level_keeps_numbers_unique_witness :
  levels_unique
    (map (fun l => if bool_decide (level_pk l = 3%N)
                   then {| level_pk := 3; level_request_type := 1; level_number := 5;
                           approver_role := "approver_level_2"; is_required := true |}
                   else l)
         two_levels_each).
Proof.
  apply (updated_level_keeps_numbers_unique store_with_pending_request
           {| level_pk := 3; level_request_type := 1; level_number := 2;
              approver_role := "approver_level_2"; is_required := true |}
           {| attr_request_type := None; attr_level_number := Some 5%N |});
    try reflexivity; try done.
  - unfold levels_unique. cbn. compute_done.
  - cbn. compute_done.
  - do 1 apply list_elem_of_further. apply list_elem_of_here.
Defined.

End ConfigurationFacts.

(** ** Refused requests *)

Module EndpointFacts.
Import Python Models Serializers Views RequestViews Examples ViewsFacts UpdateFacts
  CreateFacts ReceiptFacts.

Section WithBuiltins.
Context `{Builtins}.

(** X25. A request that is refused writes nothing.  Each of the five
    write endpoints of the purchase requests, creation, update, approve,
    reject and receipt submission, either answers with its success code
    or returns the store it was given. *)
Theorem refused_requests_change_nothing (settings : Settings) (db : Store)
    (request : Request) :
  (forall data,
     snd (RequestViews.create settings db request data) = db
     \/ status_code (fst (RequestViews.create settings db request data)) = HTTP_201_CREATED)
  /\ (forall data pk,
        snd (Views.update db request data pk) = db
        \/ status_code (fst (Views.update db request data pk)) = HTTP_200_OK)
  /\ (forall data now pk,
        snd (approve db request data now pk) = db
        \/ status_code (fst (approve db request data now pk)) = HTTP_200_OK)
  /\ (forall data now pk,
        snd (reject db request data now pk) = db
        \/ status_code (fst (reject db request data now pk)) = HTTP_200_OK)
  /\ (forall data pk,
        snd (submit_receipt settings db request data pk) = db
        \/ status_code (fst (submit_receipt settings db request data pk)) = HTTP_200_OK).
Proof.
  repeat split.
  - intros data.
    destruct (RequestViews.create settings db request data) as [response db'] eqn:Hrun.
    destruct (decide (status_code response = HTTP_201_CREATED)); [by right|left].
    by eapply create_refused.
  - intros data pk. destruct (Views.update db request data pk) as [response db'] eqn:Hrun.
    destruct (decide (status_code response = HTTP_200_OK)); [by right|left].
    by eapply update_refused.
  - intros data now pk. unfold approve. destruct (approver_permissions request); [|by left].
    destruct (_handle_approval_action db request data now pk ActApproved)
      as [response db'] eqn:Hrun.
    destruct (decide (status_code response = HTTP_200_OK)); [by right|left].
    by eapply approval_action_refused.
  - intros data now pk. unfold reject. destruct (approver_permissions request); [|by left].
    destruct (_handle_approval_action db request data now pk ActRejected)
      as [response db'] eqn:Hrun.
    destruct (decide (status_code response = HTTP_200_OK)); [by right|left].
    by eapply approval_action_refused.
  - intros data pk.
    destruct (submit_receipt settings db request data pk) as [response db'] eqn:Hrun.
    destruct (decide (status_code response = HTTP_200_OK)); [by right|left].
    by eapply submit_receipt_refused.
Qed.

(** X26. Items sent as a JSON text are read as the list the text
    denotes: when [json.loads] reads the text as a list, the create view
    and the update view answer the payload, and leave the store, as they
    do for the same payload with that list in place of the text, and the
    items of the validated data are that list. *)
Theorem items_as_text_or_as_list (settings : Settings) (db : Store) (request : Request)
    (data : RequestData) (pk : uuid) (s : string) (l : list json) :
  json_loads s = Return (JList l) ->
  RequestViews.create settings db request (set_data_items (JStr s) data)
  = RequestViews.create settings db request (set_data_items (JList l) data)
  /\ Views.update db request (set_data_items (JStr s) data) pk
     = Views.update db request (set_data_items (JList l) data) pk
  /\ (forall v, create_to_internal_value settings db (set_data_items (JStr s) data) = Return v ->
                v_items v = Some l)
  /\ (forall v, update_to_internal_value (set_data_items (JStr s) data) = Return v ->
                v_items v = Some l).
Proof.
  intros Hs.
  assert (Hfield : ItemsField_to_internal_value (JStr s) = Return l).
  { unfold ItemsField_to_internal_value. by rewrite Hs. }
  assert (Hcreate : create_to_internal_value settings db (set_data_items (JStr s) data)
                    = create_to_internal_value settings db (set_data_items (JList l) data)).
  { unfold create_to_internal_value, parse_items_before_validation.
    cbn [data_items set_data_items]. by rewrite Hfield. }
  assert (Hupdate : update_to_internal_value (set_data_items (JStr s) data)
                    = update_to_internal_value (set_data_items (JList l) data)).
  { unfold update_to_internal_value, parse_items_before_validation.
    cbn [data_items set_data_items]. by rewrite Hfield. }
  split; [|split; [|split]].
  - unfold RequestViews.create. by rewrite Hcreate.
  - unfold Views.update, update_run_validation. by rewrite Hupdate.
  - intros v Hv. apply create_to_internal_value_items in Hv.
    cbn [data_items set_data_items] in Hv. by rewrite Hfield in Hv.
  - intros v Hv. apply update_to_internal_value_items in Hv.
    cbn [data_items set_data_items] in Hv. by rewrite Hfield in Hv.
Qed.

End WithBuiltins.

(** The staff member 10 creates a request whose items are the text of
    the list with the ink: the answer is 201 and the ink is stored, as
    for the list itself. *)
Lemma items_as_text_or_as_list_witness :
  let sent_as_text :=
    @RequestViews.create sample_builtins default_settings store_with_pending_request
      (request_of staff_user) (payload_with_items (JStr ink_items_text)) in
  sent_as_text
  = @RequestViews.create sample_builtins default_settings store_with_pending_request
      (request_of staff_user) (payload_with_items (JList [JDict ink_item]))
  /\ status_code (fst sent_as_text) = HTTP_201_CREATED
  /\ request_items (snd sent_as_text)
     = [ {| item_pk := Some 31%N; item_purchase_request := 30; description := "Ink";
            quantity := 1; unit_price := {| coef := 500; exp := -2 |};
            total_price := {| coef := 500; exp := -2 |} |} ].
Proof.
  cbv zeta. split; [|split; reflexivity].
  exact (proj1 (@items_as_text_or_as_list sample_builtins default_settings
                  store_with_pending_request (request_of staff_user)
                  (payload_with_items JNull) 4%N ink_items_text [JDict ink_item] eq_refl)).
Defined.

End EndpointFacts.

(** ** Receipts against orders *)

Module ReceiptValidationFacts.
Import Python Models DocumentProcessing ReceiptLines Examples.

Lemma prefix_refl (s : string) : String.prefix s s = true.
Proof. induction s as [|c s IH]; cbn; [done|]. by destruct (Ascii.ascii_dec c c). Qed.

Lemma is_substring_refl (s : string) : is_substring s s = true.
Proof. destruct s; unfold is_substring; fold is_substring; by rewrite prefix_refl. Qed.

(** A float is never more than the tolerance away from itself, whatever
    it is: the difference is zero, or not a number. *)
Lemma differs_from_itself (x : float) : differs_by_more_than x x tolerance = false.
Proof.
  unfold differs_by_more_than, float_gt, float_abs, float_sub.
  destruct x as [s|s| |s m e]; [by destruct s|by destruct s|done|].
  unfold SFsub. cbv zeta.
  set (a := cond_Zopp s (Z.pos (fst (shl_align m e (Z.min e e))))).
  replace (IntDef.Z.sub a a) with 0%Z by (symmetry; apply Z.sub_diag).
  reflexivity.
Qed.

Section WithBuiltins.
Context `{Builtins}.

(** The inner loop on a receipt that repeats the order: the item is
    found on its own line, without discrepancy. *)
Lemma match_receipt_item_in_copy (po : RequestItem) (po_items : list RequestItem)
    (lines : list json) :
  Forall2 repeats po_items lines ->
  forall j, po_items !! j = Some po ->
    (forall k pk, (k < j)%nat -> po_items !! k = Some pk ->
       is_substring (lower (description po)) (lower (description pk)) = false) ->
    match_receipt_item po lines = Return (Some []).
Proof.
  induction 1 as [|po0 line0 po_items lines Hline _ IH]; intros j Hj Hearlier; [done|].
  destruct Hline as (d & q & p & -> & Hd & Hq & Hpq & Hp & Hpp).
  cbn [match_receipt_item item_get]. rewrite Hd. cbn.
  destruct j as [|j].
  - injection Hj as <-. rewrite is_substring_refl, Hq. cbn. rewrite Hp. cbn.
    rewrite Hpq, Hpp. cbn. by rewrite !differs_from_itself.
  - rewrite (Hearlier 0%nat po0) by (done || lia).
    apply (IH j); [done|]. intros k pk Hk Hpk. apply (Hearlier (S k)); [lia|done].
Qed.

Lemma compare_items_all_found (po_items : list RequestItem) (lines : list json) :
  Forall (fun po => match_receipt_item po lines = Return (Some [])) po_items ->
  compare_items po_items lines = Return [].
Proof.
  induction 1 as [|po rest Hpo _ IH]; cbn; [done|]. by rewrite Hpo, IH.
Qed.

(** X27. A receipt that repeats the order is valid.  When the receipt
    lists, line by line, the items of the order with their descriptions,
    quantities and unit prices, when its total is the amount of the
    request, and when no description of the order is contained in the
    description of an earlier item, [validate_receipt] reports no
    discrepancy. *)
Theorem receipt_that_repeats_the_order_is_valid (d : list (string * json))
    (lines : list json) (po_items : list RequestItem) (amount : Decimal) (total : float) :
  dict_get d "items" (JList []) = JList lines ->
  py_float (dict_get d "total" (JInt 0)) = Return total ->
  float_of_Decimal amount = Some total ->
  Forall2 repeats po_items lines ->
  no_earlier_match po_items ->
  validate_receipt (JDict d) po_items amount = {| valid := true; discrepancies := [] |}.
Proof.
  intros Hitems Htotal Hamount Hlines Horder.
  unfold validate_receipt, compare_receipt. cbn [item_get]. cbn. rewrite Hitems. cbn.
  rewrite Htotal. cbn. rewrite Hamount. cbn.
  rewrite compare_items_all_found.
  - cbn. rewrite differs_from_itself.
    rewrite (bool_decide_eq_false_2 (length lines ≠ length po_items)); [done|].
    intros Hne. apply Hne. symmetry. by eapply Forall2_length.
  - apply Forall_forall. intros po [j Hj]%list_elem_of_lookup_1.
    apply (match_receipt_item_in_copy po po_items lines Hlines j Hj).
    intros k pk Hk Hpk. by apply (Horder k j).
Qed.

(** The inner loop on lines none of which names the item. *)
Lemma match_receipt_item_not_named (po : RequestItem) (lines : list json)
    (found : option (list Discrepancy)) :
  Forall (does_not_name po) lines ->
  match_receipt_item po lines = Return found -> found = None.
Proof.
  induction 1 as [|line lines Hline _ IH]; cbn; [by intros [= <-]|].
  destruct line as [| | | | | |d]; try done. cbn.
  destruct (dict_get d "description" (JStr "")) as [| | | |s| |] eqn:Hd; try done. cbn.
  by rewrite (Hline d s eq_refl Hd).
Qed.

Lemma compare_items_reports_missing (po : RequestItem) (po_items : list RequestItem)
    (lines : list json) (ds : list Discrepancy) :
  po ∈ po_items -> Forall (does_not_name po) lines ->
  compare_items po_items lines = Return ds -> ItemNotFound (description po) ∈ ds.
Proof.
  intros Hin Hlines. revert ds.
  induction po_items as [|x rest IH]; intros ds; [by apply elem_of_nil in Hin|].
  cbn. destruct (match_receipt_item x lines) as [found|] eqn:Hx; cbn; [|done].
  destruct (compare_items rest lines) as [more|]; cbn; [|done]. intros [= <-].
  apply elem_of_cons in Hin as [<-|Hin].
  - apply match_receipt_item_not_named in Hx as ->; [|done].
    apply elem_of_app. left. apply list_elem_of_here.
  - apply elem_of_app. right. by apply IH.
Qed.

(** X28. An item of the order that the receipt does not name makes the
    receipt invalid: when no line of the receipt has a description that
    contains the description of some item of the order,
    [validate_receipt] answers that the receipt is not valid, and if the
    comparison ran to its end the discrepancies name the missing
    item. *)
Theorem missing_item_invalidates_the_receipt (receipt_data : json)
    (po_items : list RequestItem) (amount : Decimal) (po : RequestItem) :
  po ∈ po_items ->
  (forall d lines, receipt_data = JDict d ->
     py_iter (dict_get d "items" (JList [])) = Return lines ->
     Forall (does_not_name po) lines) ->
  valid (validate_receipt receipt_data po_items amount) = false
  /\ (ItemNotFound (description po)
        ∈ discrepancies (validate_receipt receipt_data po_items amount)
      \/ discrepancies (validate_receipt receipt_data po_items amount) = [ErrorDiscrepancy]).
Proof.
  intros Hin Hlines. unfold validate_receipt.
  destruct (compare_receipt receipt_data po_items amount) as [ds|e] eqn:Hrun; cbn;
    [|by split; [|right]].
  assert (Hds : ItemNotFound (description po) ∈ ds).
  { unfold compare_receipt in Hrun. destruct receipt_data as [| | | | | |d]; try done.
    cbn in Hrun.
    destruct (py_iter (dict_get d "items" (JList []))) as [lines|] eqn:Hiter; [|done].
    cbn in Hrun. destruct (py_float _) as [t|]; [|done]. cbn in Hrun.
    destruct (float_of_Decimal amount) as [a|]; [|done]. cbn in Hrun.
    destruct (compare_items po_items lines) as [items|] eqn:Hitems; [|done].
    cbn in Hrun. injection Hrun as <-.
    do 2 (apply elem_of_app; right).
    eapply compare_items_reports_missing; [done| |done]. by apply (Hlines d). }
  split; [|by left]. apply bool_decide_eq_false_2. by destruct Hds.
Qed.

End WithBuiltins.

(** The order of two packs of paper against the receipt for them. *)
Lemma receipt_that_repeats_the_order_is_valid_witness :
  @validate_receipt sample_builtins (JDict Scenarios.paper_receipt) [Scenarios.paper 25 4]
    {| coef := 1000; exp := -2 |}
  = {| valid := true; discrepancies := [] |}.
Proof.
  eapply (@receipt_that_repeats_the_order_is_valid sample_builtins);
    [reflexivity|reflexivity|reflexivity| |].
  - constructor; [|constructor]. eexists _, _, _. repeat split; reflexivity.
  - intros i j pi pj Hij Hi Hj. destruct j as [|j]; [lia|done].
Defined.

(** The same order against the receipt for toner. *)
Lemma missing_item_invalidates_the_receipt_witness :
  valid (@validate_receipt sample_builtins (JDict Scenarios.toner_receipt)
           [Scenarios.paper 25 4] {| coef := 1000; exp := -2 |}) = false.
Proof.
  apply (@missing_item_invalidates_the_receipt sample_builtins (JDict Scenarios.toner_receipt)
           [Scenarios.paper 25 4] {| coef := 1000; exp := -2 |} (Scenarios.paper 25 4)).
  - apply list_elem_of_here.
  - intros d lines [= <-] [= <-]. constructor; [|constructor].
    intros d s [= <-] [= <-]. reflexivity.
Defined.

End ReceiptValidationFacts.

(** ** The clean-up of the media files *)

Module CleanupOldMediaFacts.
Import Python CleanupOldMedia.

Section Run.
Variable options : Options.
Variable referenced : gset string.
Variable cutoff_date : Z.

(** The loop over a directory keeps the entries that do not go. *)
Lemma visit_fold (subdir : string) (entries : list MediaFile) :
  forall kept0 out0,
    let result := foldl (visit options referenced cutoff_date subdir) (kept0, out0) entries in
    fst result
    = kept0 ++ filter (fun f => goes options referenced cutoff_date subdir f = false) entries
    /\ media (snd result) = media out0
    /\ (dry_run options = true ->
        deleted_count (snd result) = deleted_count out0
        /\ deleted_size (snd result) = deleted_size out0
        /\ forall f, f ∈ entries -> is_file f = true ->
             should_delete options referenced cutoff_date subdir f = true ->
             subdir +:+ "/" +:+ entry_name f ∈ would_delete (snd result))
    /\ (forall n, n ∈ would_delete out0 -> n ∈ would_delete (snd result)).
Proof.
  induction entries as [|f entries IH]; intros kept0 out0.
  { cbn. rewrite app_nil_r. repeat (split; [done|]). split; [|done].
    intros _. repeat (split; [done|]). by intros f ?%elem_of_nil. }
  cbn [foldl].
  set (step := visit options referenced cutoff_date subdir (kept0, out0) f).
  destruct (IH (fst step) (snd step)) as (Hkept & Hmedia & Hdry & Hmono).
  rewrite <- surjective_pairing in Hkept, Hmedia, Hdry, Hmono.
  cbn zeta. rewrite Hkept, Hmedia.
  assert (Hstep : fst step
                  = kept0 ++ (if goes options referenced cutoff_date subdir f then [] else [f])
                  /\ media (snd step) = media out0
                  /\ (dry_run options = true ->
                      deleted_count (snd step) = deleted_count out0
                      /\ deleted_size (snd step) = deleted_size out0
                      /\ (is_file f = true ->
                          should_delete options referenced cutoff_date subdir f = true ->
                          subdir +:+ "/" +:+ entry_name f ∈ would_delete (snd step)))
                  /\ (forall n, n ∈ would_delete out0 -> n ∈ would_delete (snd step))).
  { unfold step, visit, goes.
    destruct (is_file f), (should_delete options referenced cutoff_date subdir f),
      (dry_run options), (unlink_raises f); cbn; rewrite ?app_nil_r;
      repeat split; try done; intros; rewrite ?elem_of_app, ?list_elem_of_singleton; auto. }
  destruct Hstep as (Hk1 & Hm1 & Hd1 & Hmono1).
  split.
  { rewrite Hk1, <- app_assoc. f_equal.
    destruct (goes options referenced cutoff_date subdir f) eqn:Hgoes.
    - by rewrite filter_cons_False by (by rewrite Hgoes).
    - by rewrite filter_cons_True by done. }
  split; [done|]. split.
  - intros Hrun. destruct (Hdry Hrun) as (Hc & Hs & Hnames).
    destruct (Hd1 Hrun) as (Hc1 & Hs1 & Hname1).
    split; [congruence|]. split; [congruence|].
    intros g Hg Hfile Hdel. apply elem_of_cons in Hg as [->|Hg]; [|by apply Hnames].
    by apply Hmono, Hname1.
  - intros n Hn. by apply Hmono, Hmono1.
Qed.

(** One directory. *)
Lemma visit_subdir_outcome (out : Outcome) (subdir : string) :
  let out' := visit_subdir options referenced cutoff_date out subdir in
  (forall s, media out' !! s
             = if decide (s = subdir)
               then filter (fun f => goes options referenced cutoff_date subdir f = false)
                      <$> media out !! s
               else media out !! s)
  /\ (dry_run options = true ->
      deleted_count out' = deleted_count out /\ deleted_size out' = deleted_size out
      /\ forall entries f, media out !! subdir = Some entries -> f ∈ entries ->
           is_file f = true ->
           should_delete options referenced cutoff_date subdir f = true ->
           subdir +:+ "/" +:+ entry_name f ∈ would_delete out')
  /\ (forall n, n ∈ would_delete out -> n ∈ would_delete out').
Proof.
  unfold visit_subdir. destruct (media out !! subdir) as [entries|] eqn:Hentries.
  - destruct (visit_fold subdir entries [] out) as (Hkept & Hmedia & Hdry & Hmono).
    destruct (foldl _ _ entries) as [kept out1]. cbn [fst snd] in *. cbn zeta.
    cbn [media deleted_count deleted_size would_delete]. split; [|split; [|done]].
    + intros s. destruct (decide (s = subdir)) as [->|Hs].
      * by rewrite lookup_insert_eq, Hentries, Hkept.
      * by rewrite lookup_insert_ne, Hmedia.
    + intros Hrun. destruct (Hdry Hrun) as (Hc & Hs & Hnames). repeat (split; [done|]).
      intros entries' f [= <-]. apply Hnames.
  - cbn zeta. split; [|split; [|done]].
    + intros s. destruct (decide (s = subdir)) as [->|Hs]; [by rewrite Hentries|done].
    + intros _. repeat (split; [done|]). by intros entries f [=].
Qed.

(** The directories in turn. *)
Lemma visit_subdirs_outcome (names : list string) :
  NoDup names ->
  forall out,
    let out' := foldl (visit_subdir options referenced cutoff_date) out names in
    (forall s, media out' !! s
               = if decide (s ∈ names)
                 then filter (fun f => goes options referenced cutoff_date s f = false)
                        <$> media out !! s
                 else media out !! s)
    /\ (dry_run options = true ->
        deleted_count out' = deleted_count out /\ deleted_size out' = deleted_size out
        /\ forall s entries f, s ∈ names -> media out !! s = Some entries -> f ∈ entries ->
             is_file f = true ->
             should_delete options referenced cutoff_date s f = true ->
             s +:+ "/" +:+ entry_name f ∈ would_delete out')
    /\ (forall n, n ∈ would_delete out -> n ∈ would_delete out').
Proof.
  induction 1 as [|x names Hx Hnames IH]; intros out.
  { cbn. split; [done|]. split; [|done]. intros _. repeat (split; [done|]).
    by intros s entries f ?%elem_of_nil. }
  cbn [foldl]. destruct (visit_subdir_outcome out x) as (Hm1 & Hd1 & Hmono1).
  set (out1 := visit_subdir options referenced cutoff_date out x) in *.
  destruct (IH out1) as (Hm & Hd & Hmono). cbn zeta in *. split; [|split].
  - intros s. rewrite Hm, !Hm1.
    destruct (decide (s = x)) as [->|Hs].
    + rewrite decide_False by done. rewrite decide_True by apply list_elem_of_here. done.
    + destruct (decide (s ∈ names)) as [Hin|Hout].
      * rewrite decide_True by (by apply list_elem_of_further). done.
      * rewrite decide_False; [done|]. by intros [?|?]%elem_of_cons.
  - intros Hrun. destruct (Hd Hrun) as (Hc & Hs & Hn). destruct (Hd1 Hrun) as (Hc1 & Hs1 & Hn1).
    split; [congruence|]. split; [congruence|].
    intros s entries f Hin Hentries Hf Hfile Hdel.
    apply elem_of_cons in Hin as [->|Hin].
    + apply Hmono. by eapply Hn1.
    + apply (Hn s entries f Hin); try done. rewrite Hm1.
      rewrite decide_False; [done|]. by intros ->.
  - intros n Hn. by apply Hmono, Hmono1.
Qed.

End Run.

Lemma subdirs_NoDup : NoDup subdirs.
Proof. unfold subdirs. compute_done. Qed.

(** X29. The clean-up spares the files that the database names only
    when it is asked to.  For a regular file of one of the three
    directories whose path is in a file column of some request: with
    [--orphaned-only] the file is still there afterwards; without it,
    and outside a dry run, the file is gone as soon as it is older than
    the number of days given and can be unlinked. *)
Theorem cleanup_spares_referenced_files_when_asked (options : Options)
    (directories : gmap string (list MediaFile)) (rows : list FileColumns) (now : Z)
    (out : Outcome) (subdir : string) (entries : list MediaFile) (f : MediaFile) :
  handle options (Some directories) rows now = Some out ->
  subdir ∈ subdirs -> directories !! subdir = Some entries -> f ∈ entries ->
  subdir +:+ "/" +:+ entry_name f ∈ referenced_files rows ->
  exists kept,
    media out !! subdir = Some kept
    /\ (orphaned_only options = true -> f ∈ kept)
    /\ (orphaned_only options = false -> dry_run options = false -> is_file f = true ->
        unlink_raises f = false -> (st_mtime f < now - days options * day)%Z -> f ∉ kept).
Proof.
  unfold handle. intros [= <-] Hsub Hentries Hf Href.
  destruct (visit_subdirs_outcome options (referenced_files rows) (now - days options * day)
              subdirs subdirs_NoDup
              {| media := directories; deleted_count := 0; deleted_size := 0;
                 would_delete := [] |}) as (Hm & _).
  cbn zeta in Hm. cbn [media] in Hm. rewrite Hm, decide_True, Hentries by done.
  eexists. split; [done|]. split.
  - intros Honly. apply list_elem_of_filter. split; [|done].
    unfold goes, should_delete. rewrite Honly, bool_decide_eq_false_2 by (by intros ?).
    by rewrite andb_false_r.
  - intros Honly Hrun Hfile Hunlink Hold [Hgoes _]%list_elem_of_filter.
    unfold goes, should_delete in Hgoes.
    rewrite Honly, Hrun, Hfile, Hunlink, bool_decide_eq_false_2 in Hgoes by (by intros ?).
    by rewrite bool_decide_eq_true_2 in Hgoes.
Qed.

(** X30. A dry run deletes nothing and counts nothing: the directories
    are as before and the two counters of the summary line are zero,
    although every regular file that the command decides to delete is
    announced with "Would delete". *)
Theorem dry_run_deletes_and_counts_nothing (options : Options)
    (directories : gmap string (list MediaFile)) (rows : list FileColumns) (now : Z)
    (out : Outcome) :
  dry_run options = true ->
  handle options (Some directories) rows now = Some out ->
  media out = directories /\ deleted_count out = 0%Z /\ deleted_size out = 0%Z
  /\ forall subdir entries f,
       subdir ∈ subdirs -> directories !! subdir = Some entries -> f ∈ entries ->
       is_file f = true ->
       should_delete options (referenced_files rows) (now - days options * day) subdir f
       = true ->
       subdir +:+ "/" +:+ entry_name f ∈ would_delete out.
Proof.
  unfold handle. intros Hrun [= <-].
  destruct (visit_subdirs_outcome options (referenced_files rows) (now - days options * day)
              subdirs subdirs_NoDup
              {| media := directories; deleted_count := 0; deleted_size := 0;
                 would_delete := [] |}) as (Hm & Hd & _).
  cbn zeta in Hm, Hd. cbn [media deleted_count deleted_size] in Hm, Hd.
  destruct (Hd Hrun) as (Hc & Hs & Hnames). split; [|by repeat split].
  apply map_eq. intros s. rewrite Hm. destruct (decide (s ∈ subdirs)); [|done].
  destruct (directories !! s) as [entries|]; [|done]. cbn. f_equal.
  induction entries as [|f entries IH]; [done|].
  rewrite filter_cons_True; [by rewrite IH|].
  unfold goes. rewrite Hrun. by rewrite andb_false_r.
Qed.

(** With the default options the invoice that the request names is
    deleted, being older than ninety days. *)
Lemma cleanup_spares_referenced_files_when_asked_witness :
  exists out kept,
    handle Scenarios.default_options (Some Scenarios.media_root) Scenarios.file_columns
      Scenarios.hundred_days = Some out
    /\ media out !! "proformas" = Some kept
    /\ Scenarios.old_invoice ∉ kept.
Proof.
  eexists.
  destruct (cleanup_spares_referenced_files_when_asked Scenarios.default_options
              Scenarios.media_root Scenarios.file_columns Scenarios.hundred_days _
              "proformas" [Scenarios.old_invoice; Scenarios.stray_file] Scenarios.old_invoice
              eq_refl)
    as (kept & Hkept & _ & Hgone).
  - apply list_elem_of_here.
  - reflexivity.
  - apply list_elem_of_here.
  - vm_compute. set_solver.
  - exists kept. split; [reflexivity|]. split; [exact Hkept|].
    apply Hgone; reflexivity.
Defined.

(** The same run with [--dry-run]: both files are announced, the summary
    counts none. *)
Lemma dry_run_deletes_and_counts_nothing_witness :
  exists out,
    handle Scenarios.dry_run_options (Some Scenarios.media_root) Scenarios.file_columns
      Scenarios.hundred_days = Some out
    /\ deleted_count out = 0%Z
    /\ "proformas/invoice.pdf" ∈ would_delete out.
Proof.
  eexists. split; [reflexivity|].
  destruct (dry_run_deletes_and_counts_nothing Scenarios.dry_run_options
              Scenarios.media_root Scenarios.file_columns Scenarios.hundred_days _
              eq_refl eq_refl) as (_ & Hcount & _ & Hnames).
  split; [exact Hcount|].
  apply (Hnames "proformas" [Scenarios.old_invoice; Scenarios.stray_file]
           Scenarios.old_invoice).
  - apply list_elem_of_here.
  - reflexivity.
  - apply list_elem_of_here.
  - reflexivity.
  - vm_compute. reflexivity.
Defined.

End CleanupOldMediaFacts.
